(** * The outcome classifier of the predictions function

    A shallow embedding of [netlify/functions/predictions.js] (the CommonJS
    copy and the ES-module copy that adds [determineBTTS] and
    [determineExactScore]): the threshold rules that turn an upstream
    probability triple into a recommended outcome, a confidence tier, an
    over/under label, a both-teams-to-score label and a synthesized score,
    and the request handler that caps the number of fixtures it asks
    predictions for.

    The program is JavaScript, so the first modules model the part of the
    language the functions rely on: Numbers (IEEE doubles with NaN and the
    infinities), strings with their UTF-16 positions, dynamically typed
    values, exceptions (a conversion to a string can throw, and so can a
    method call or a property access), rejected promises, and the
    built-ins [parseInt], [parseFloat], [Math.max], [Math.min],
    [Math.round], [String], [String.prototype.replace],
    [String.prototype.includes], [String.prototype.substring]. *)

From Stdlib Require Import ZArith QArith Qround Qreduction Qcanon Lqa Lia.
From Stdlib Require Import List String Ascii Bool DecimalString.
Import ListNotations.

Local Open Scope Z_scope.

(* ================================================================== *)
(** ** JavaScript Numbers *)
(* ================================================================== *)

Module JSNumber.

(** A Number is NaN, an infinity, or a finite double.  A finite double is
    kept as the rational it denotes; every function below reads it through
    its value only ([Qred] first where the representation could matter).
    The sign of zero is not kept: no operation used by the program
    distinguishes [-0] from [+0] in its result ([Math.max], comparisons,
    [ToString] and [+ 1] all agree on them). *)
Inductive number : Type :=
  | NaN
  | PInf
  | NInf
  | Fin (q : Q).

Definition Qltb (a b : Q) : bool :=
  Qnum a * QDen b <? Qnum b * QDen a.

Definition Qleb (a b : Q) : bool :=
  Qnum a * QDen b <=? Qnum b * QDen a.

(** [x < y] and [x <= y] of the language: false as soon as one side is NaN. *)
Definition lt (x y : number) : bool :=
  match x, y with
  | NaN, _ | _, NaN => false
  | _, NInf => false
  | NInf, _ => true
  | PInf, _ => false
  | Fin _, PInf => true
  | Fin a, Fin b => Qltb a b
  end.

Definition le (x y : number) : bool :=
  match x, y with
  | NaN, _ | _, NaN => false
  | NInf, _ => true
  | _, NInf => false
  | _, PInf => true
  | PInf, Fin _ => false
  | Fin a, Fin b => Qleb a b
  end.

Definition gt (x y : number) : bool := lt y x.
Definition ge (x y : number) : bool := le y x.

(** The same orders as propositions, for stating properties. *)
Inductive Below : number -> number -> Prop :=
  | Below_fin a b : (a < b)%Q -> Below (Fin a) (Fin b)
  | Below_fin_pinf a : Below (Fin a) PInf
  | Below_ninf_fin b : Below NInf (Fin b)
  | Below_ninf_pinf : Below NInf PInf.

Inductive AtMost : number -> number -> Prop :=
  | AtMost_fin a b : (a <= b)%Q -> AtMost (Fin a) (Fin b)
  | AtMost_pinf x : x <> NaN -> AtMost x PInf
  | AtMost_ninf y : y <> NaN -> AtMost NInf y.

Definition Above (x y : number) : Prop := Below y x.
Definition AtLeast (x y : number) : Prop := AtMost y x.

Definition of_Z (z : Z) : number := Fin (inject_Z z).

(** *** Rounding a real to the nearest double

    [round_double x] is the double nearest to [x], ties to the even
    significand, with overflow to an infinity: the conversion that number
    literals, [parseInt], [parseFloat] and [+] apply to their exact
    result.  With [a = |x| = p/q], the exponent [e] is the one that puts
    [a / 2^e] in [[2^52, 2^53)], not below [-1074] (subnormals); the
    significand is [a / 2^e] rounded to an integer. *)
Definition scaled_num (p : Z) (e : Z) : Z := p * 2 ^ (Z.max 0 (- e)).
Definition scaled_den (q : Z) (e : Z) : Z := q * 2 ^ (Z.max 0 e).

Definition round_half_even (n d : Z) : Z :=
  let m := n / d in
  let r := n mod d in
  if 2 * r >? d then m + 1
  else if 2 * r =? d then (if Z.odd m then m + 1 else m)
  else m.

Definition dyadic (m e : Z) : Q :=
  if 0 <=? e then inject_Z (m * 2 ^ e)
  else Qred (Qmake m (Z.to_pos (2 ^ (- e)))).

Definition round_double (x0 : Q) : number :=
  let x := Qred x0 in
  match Qnum x with
  | Z0 => Fin 0
  | _ =>
      let p := Z.abs (Qnum x) in
      let q := QDen x in
      let e0 := Z.log2 p - Z.log2 q - 52 in
      let e1 := if scaled_num p e0 >=? 2 ^ 52 * scaled_den q e0
                then e0 else e0 - 1 in
      let e := Z.max e1 (-1074) in
      let m := round_half_even (scaled_num p e) (scaled_den q e) in
      if 1024 <=? Z.log2 m + e
      then (if Qnum x <? 0 then NInf else PInf)
      else Fin (dyadic (Z.sgn (Qnum x) * m) e)
  end.

(** A decimal literal of the source, e.g. [0.8] is [literal 8 (-1)]. *)
Definition pow10 (k : Z) : Q :=
  if 0 <=? k then inject_Z (10 ^ k) else Qmake 1 (Z.to_pos (10 ^ (- k))).

Definition literal (digits : Z) (exp10 : Z) : number :=
  round_double (inject_Z digits * pow10 exp10).

(** *** Arithmetic and [Math] *)

(** [x + y]. *)
Definition add (x y : number) : number :=
  match x, y with
  | NaN, _ | _, NaN => NaN
  | PInf, NInf | NInf, PInf => NaN
  | PInf, _ | _, PInf => PInf
  | NInf, _ | _, NInf => NInf
  | Fin a, Fin b => round_double (a + b)
  end.

(** [Math.max(x, y)]: NaN if either argument is. *)
Definition Math_max (x y : number) : number :=
  match x, y with
  | NaN, _ | _, NaN => NaN
  | _, _ => if lt x y then y else x
  end.

(** [Math.min(x, y)]. *)
Definition Math_min (x y : number) : number :=
  match x, y with
  | NaN, _ | _, NaN => NaN
  | _, _ => if lt y x then y else x
  end.

(** [Math.max(x, y, z)]: the arguments are folded left to right. *)
Definition Math_max3 (x y z : number) : number :=
  Math_max (Math_max x y) z.

(** [Math.round(x)]: the integer nearest to [x], halves towards +Infinity.
    On a double this is exactly [floor (x + 1/2)]. *)
Definition Math_round (x : number) : number :=
  match x with
  | Fin q => Fin (inject_Z (Qfloor (q + (1 # 2))))
  | _ => x
  end.

End JSNumber.

(* ================================================================== *)
(** ** JavaScript strings, and the conversions between strings and Numbers *)
(* ================================================================== *)

Module JSString.
Import JSNumber.
Local Open Scope string_scope.
Local Open Scope Z_scope.

(** A string is kept as its UTF-8 bytes (a lone surrogate, which the
    language allows in a string, as the three bytes that generalised UTF-8
    gives it).  Searching for an ASCII text and replacing it give the same
    answer on the bytes as on the UTF-16 code units of the language, and
    the digits, signs and letters that the parsers read are single bytes.
    Positions are another matter: [substring], indexing and iteration count
    code units or code points, which the functions below recover from the
    bytes. *)

Fixpoint drop (n : nat) (s : string) : string :=
  match n, s with
  | O, _ => s
  | S n', String _ s' => drop n' s'
  | S _, EmptyString => EmptyString
  end.

Fixpoint take (n : nat) (s : string) : string :=
  match n, s with
  | S n', String c s' => String c (take n' s')
  | _, _ => EmptyString
  end.

(** [s.includes(sub)]. *)
Fixpoint includes (sub s : string) : bool :=
  prefix sub s ||
  match s with
  | EmptyString => false
  | String _ s' => includes sub s'
  end.

(** [s.replace(pat, rep)] for a string pattern: only the first occurrence
    is replaced.  ([rep] is used literally; the program passes ['']). *)
Fixpoint replace (pat rep s : string) : string :=
  if prefix pat s then rep ++ drop (length pat) s
  else match s with
       | EmptyString => EmptyString
       | String c s' => String c (replace pat rep s')
       end.

(** The number of bytes of the UTF-8 sequence that starts with [c]. *)
Definition sequence_length (c : ascii) : nat :=
  let n := N_of_ascii c in
  if (n <? 192)%N then 1%nat
  else if (n <? 224)%N then 2%nat
  else if (n <? 240)%N then 3%nat
  else 4%nat.

(** The code points of a string, each as its bytes: what [for ... of]
    visits. *)
Fixpoint code_points_upto (fuel : nat) (s : string) : list string :=
  match fuel, s with
  | S fuel', String c _ =>
      take (sequence_length c) s
      :: code_points_upto fuel' (drop (sequence_length c) s)
  | _, _ => []
  end.

Definition code_points (s : string) : list string :=
  code_points_upto (length s) s.

(** A code point above U+FFFF, four bytes in UTF-8, is two code units in
    the language: a high and a low surrogate. *)
Definition is_pair (cp : string) : bool := (length cp =? 4)%nat.

Definition scalar_value (cp : string) : N :=
  match map N_of_ascii (list_ascii_of_string cp) with
  | [b1; b2; b3; b4] =>
      (N.land b1 7 * 262144 + N.land b2 63 * 4096
       + N.land b3 63 * 64 + N.land b4 63)%N
  | _ => 0%N
  end.

(** The three bytes of a code unit between U+0800 and U+FFFF. *)
Definition three_bytes (u : N) : string :=
  String (ascii_of_N (224 + u / 4096))
    (String (ascii_of_N (128 + (u / 64) mod 64))
       (String (ascii_of_N (128 + u mod 64)) EmptyString)).

Definition high_surrogate (cp : string) : string :=
  three_bytes (55296 + (scalar_value cp - 65536) / 1024)%N.

Definition low_surrogate (cp : string) : string :=
  three_bytes (56320 + (scalar_value cp - 65536) mod 1024)%N.

(** The code units of positions [i] to [j - 1] among the code points
    [cps], the first of which starts at position [pos].  A pair that
    straddles an end of the range leaves one surrogate. *)
Fixpoint slice_units (pos i j : nat) (cps : list string) : string :=
  match cps with
  | [] => EmptyString
  | cp :: rest =>
      let inside (k : nat) := ((i <=? k) && (k <? j))%nat in
      if is_pair cp then
        (if inside pos && inside (S pos) then cp
         else if inside pos then high_surrogate cp
         else if inside (S pos) then low_surrogate cp
         else EmptyString)
        ++ slice_units (S (S pos)) i j rest
      else
        (if inside pos then cp else EmptyString)
        ++ slice_units (S pos) i j rest
  end.

(** [s.substring(i, j)] for [i <= j]: positions count UTF-16 code
    units. *)
Definition substring (i j : nat) (s : string) : string :=
  slice_units 0 i j (code_points s).

Fixpoint repeat0 (n : nat) : string :=
  match n with
  | O => EmptyString
  | S n' => String "0" (repeat0 n')
  end.

(** White space skipped by [parseInt] and [parseFloat] (WhiteSpace and
    LineTerminator of the language): TAB, LF, VT, FF, CR, SP, and in UTF-8
    U+00A0, U+1680, U+2000..U+200A, U+2028, U+2029, U+202F, U+205F, U+3000,
    U+FEFF. *)
Definition ws1 (c : ascii) : bool :=
  let n := N_of_ascii c in
  ((9 <=? n) && (n <=? 13) || (n =? 32))%N.

Definition ws2 (c1 c2 : ascii) : bool :=
  ((N_of_ascii c1 =? 194) && (N_of_ascii c2 =? 160))%N.

Definition ws3 (c1 c2 c3 : ascii) : bool :=
  let a := N_of_ascii c1 in
  let b := N_of_ascii c2 in
  let c := N_of_ascii c3 in
  ((a =? 225) && (b =? 154) && (c =? 128)
   || (a =? 226) && (b =? 128)
        && ((128 <=? c) && (c <=? 138) || (c =? 168) || (c =? 169) || (c =? 175))
   || (a =? 226) && (b =? 129) && (c =? 159)
   || (a =? 227) && (b =? 128) && (c =? 128)
   || (a =? 239) && (b =? 187) && (c =? 191))%N.

Fixpoint trimStart (s : string) : string :=
  match s with
  | EmptyString => s
  | String c1 r1 =>
      if ws1 c1 then trimStart r1
      else match r1 with
           | EmptyString => s
           | String c2 r2 =>
               if ws2 c1 c2 then trimStart r2
               else match r2 with
                    | EmptyString => s
                    | String c3 r3 =>
                        if ws3 c1 c2 c3 then trimStart r3 else s
                    end
           end
  end.

(** The value of a character as a digit, up to radix 36. *)
Definition digit_value (c : ascii) : option Z :=
  let n := Z.of_N (N_of_ascii c) in
  if (48 <=? n) && (n <=? 57) then Some (n - 48)
  else if (97 <=? n) && (n <=? 122) then Some (n - 87)
  else if (65 <=? n) && (n <=? 90) then Some (n - 55)
  else None.

(** The longest prefix of [s] made of digits of the radix, and the rest. *)
Fixpoint span_digits (radix : Z) (s : string) : list Z * string :=
  match s with
  | EmptyString => ([], s)
  | String c s' =>
      match digit_value c with
      | Some d =>
          if d <? radix
          then let (ds, r) := span_digits radix s' in (d :: ds, r)
          else ([], s)
      | None => ([], s)
      end
  end.

Definition digits_value (radix : Z) (ds : list Z) : Z :=
  fold_left (fun acc d => acc * radix + d) ds 0.

(** An optional sign: [true] for a leading [-]. *)
Definition split_sign (s : string) : bool * string :=
  match s with
  | String "-" r => (true, r)
  | String "+" r => (false, r)
  | _ => (false, s)
  end.

Definition signed (neg : bool) (z : Z) : Z := if neg then - z else z.

(** [parseInt(s)] with no radix argument: leading white space, a sign, an
    optional [0x]/[0X] that selects radix 16, then the longest run of
    digits; NaN when that run is empty; otherwise the double nearest to
    the integer read. *)
Definition parseInt (s : string) : number :=
  let (neg, s1) := split_sign (trimStart s) in
  let (radix, s2) :=
    if prefix "0x" s1 || prefix "0X" s1 then (16, drop 2 s1) else (10, s1) in
  match fst (span_digits radix s2) with
  | [] => NaN
  | ds => round_double (inject_Z (signed neg (digits_value radix ds)))
  end.

(** The exponent part [e±ddd] of a decimal literal, 0 when there is none
    or when it is not complete. *)
Definition exponent_part (s : string) : Z :=
  match s with
  | String c r =>
      if (Ascii.eqb c "e" || Ascii.eqb c "E")%bool then
        let (neg, r') := split_sign r in
        match fst (span_digits 10 r') with
        | [] => 0
        | ds => signed neg (digits_value 10 ds)
        end
      else 0
  | EmptyString => 0
  end.

(** [parseFloat(s)]: leading white space, a sign, then the longest prefix
    that is [Infinity] or a decimal literal ([ddd], [ddd.], [ddd.ddd],
    [.ddd], each with an optional exponent); NaN when there is none;
    otherwise the double nearest to the value read. *)
Definition parseFloat (s : string) : number :=
  let (neg, s1) := split_sign (trimStart s) in
  if prefix "Infinity" s1 then (if neg then NInf else PInf)
  else
    let (ints, r1) := span_digits 10 s1 in
    let (fracs, r2) :=
      match r1 with
      | String "." r => span_digits 10 r
      | _ => ([], r1)
      end in
    match (ints ++ fracs)%list with
    | [] => NaN
    | ds =>
        let e := exponent_part r2 - Z.of_nat (List.length fracs) in
        round_double (inject_Z (signed neg (digits_value 10 ds)) * pow10 e)
    end.

(** The decimal digits of a natural number. *)
Definition digits_of (z : Z) : string :=
  NilZero.string_of_uint (N.to_uint (Z.to_N z)).

(** For [x > 0], the [n] with [10^(n-1) <= x < 10^n]. *)
Definition magnitude10 (x : Q) : Z :=
  let est := (Z.log2 (Qnum x) - Z.log2 (QDen x)) * 1233 / 4096 in
  if Qleb (pow10 (est + 2)) x then est + 3
  else if Qleb (pow10 (est + 1)) x then est + 2
  else if Qleb (pow10 est) x then est + 1
  else if Qleb (pow10 (est - 1)) x then est
  else est - 1.

Definition reads_back (x : Q) (s : Z) (scale : Q) : bool :=
  match round_double (inject_Z s * scale) with
  | Fin y => Qeq_bool x y
  | _ => false
  end.

(** The shortest digit string [s] of [k] digits, with its decimal position
    [n], such that [s * 10^(n-k)] reads back as [x]; among the candidates of
    that length the nearest to [x].  Seventeen digits always suffice for a
    double. *)
Fixpoint shortest_digits (fuel : nat) (x : Q) (n k : Z) : Z * Z :=
  let scale := pow10 (n - k) in
  let lo := Qfloor (x / scale) in
  let hi := lo + 1 in
  let norm (c : Z) := if c =? 10 ^ k then (10 ^ (k - 1), n + 1) else (c, n) in
  let ok_lo := reads_back x lo scale in
  let ok_hi := reads_back x hi scale in
  let d_lo := (x - inject_Z lo * scale)%Q in
  let d_hi := (inject_Z hi * scale - x)%Q in
  if ok_lo && ok_hi then
    (if Qltb d_lo d_hi then norm lo
     else if Qltb d_hi d_lo then norm hi
     else if Z.even lo then norm lo else norm hi)
  else if ok_lo then norm lo
  else if ok_hi then norm hi
  else match fuel with
       | O => norm lo
       | S fuel' => shortest_digits fuel' x n (k + 1)
       end.

Definition positive_to_string (x : Q) : string :=
  let n0 := magnitude10 x in
  let (s, n) := shortest_digits 16 x n0 1 in
  let ds := digits_of s in
  let k := Z.of_nat (length ds) in
  if (k <=? n) && (n <=? 21) then ds ++ repeat0 (Z.to_nat (n - k))
  else if (0 <? n) && (n <=? 21)
  then take (Z.to_nat n) ds ++ "." ++ drop (Z.to_nat n) ds
  else if (-6 <? n) && (n <=? 0) then "0." ++ repeat0 (Z.to_nat (- n)) ++ ds
  else
    let e := n - 1 in
    let ex := (if e <? 0 then "-" else "+") ++ digits_of (Z.abs e) in
    if k =? 1 then ds ++ "e" ++ ex
    else take 1 ds ++ "." ++ drop 1 ds ++ "e" ++ ex.

(** [String(x)] for a Number (Number::toString, radix 10). *)
Definition number_to_string (x : number) : string :=
  match x with
  | NaN => "NaN"
  | PInf => "Infinity"
  | NInf => "-Infinity"
  | Fin q0 =>
      let q := Qred q0 in
      match Qnum q with
      | Z0 => "0"
      | Zpos _ => positive_to_string q
      | Zneg _ => "-" ++ positive_to_string (Qred (- q))
      end
  end.

End JSString.

(* ================================================================== *)
(** ** JavaScript values and exceptions *)
(* ================================================================== *)

Module JSValue.
Import JSNumber JSString.
Local Open Scope string_scope.

#[local] Set Warnings "-register-all".

(** The values a decoded JSON payload is made of, and [undefined] for what
    is absent. *)
Inductive value : Type :=
  | VUndef
  | VNull
  | VBool (b : bool)
  | VNum (n : number)
  | VStr (s : string)
  | VArr (xs : list value)
  | VObj (fields : list (string * value)).

(** A computation either completes with a value or throws.  Every [catch]
    of the program ignores what was thrown, so the exception carries
    nothing. *)
Inductive result (A : Type) : Type :=
  | Ok (a : A)
  | Throw.
Arguments Ok {A} a.
Arguments Throw {A}.

Definition bind {A B : Type} (r : result A) (k : A -> result B) : result B :=
  match r with
  | Ok a => k a
  | Throw => Throw
  end.

(** [try { body } catch { handler }]. *)
Definition try_catch {A : Type} (body : result A) (handler : A) : A :=
  match body with
  | Ok a => a
  | Throw => handler
  end.

(** ToBoolean. *)
Definition truthy (v : value) : bool :=
  match v with
  | VUndef | VNull => false
  | VBool b => b
  | VNum NaN => false
  | VNum (Fin q) => negb (Qeq_bool q 0)
  | VNum _ => true
  | VStr s => negb (String.eqb s "")
  | VArr _ | VObj _ => true
  end.

(** [v || d]. *)
Definition or_else (v d : value) : value := if truthy v then v else d.

Fixpoint lookup (k : string) (fields : list (string * value)) : value :=
  match fields with
  | [] => VUndef
  | (k', v) :: rest => if String.eqb k k' then v else lookup k rest
  end.

(** The object has an own property [k]. *)
Definition has_key (k : string) (fields : list (string * value)) : bool :=
  existsb (fun kv => String.eqb k (fst kv)) fields.

(** ToString: [String(v)], also the conversion of a template literal
    [`${v}`], of the argument of [parseFloat] and of a property key.  An
    array is its elements joined by commas, [null] and [undefined]
    elements left empty.  A plain object is ["[object Object]"], the
    answer of the [toString] it inherits; but when the object has an own
    property [toString] (in a decoded payload, never a function) that
    method is not found, [valueOf] does not give a primitive either, and
    the conversion throws a TypeError. *)
Fixpoint toStr (v : value) : result string :=
  match v with
  | VUndef => Ok "undefined"
  | VNull => Ok "null"
  | VBool true => Ok "true"
  | VBool false => Ok "false"
  | VNum n => Ok (number_to_string n)
  | VStr s => Ok s
  | VArr xs =>
      (fix join (l : list value) : result string :=
         let elem (x : value) :=
           match x with
           | VUndef | VNull => Ok ""
           | _ => toStr x
           end in
         match l with
         | [] => Ok ""
         | [x] => elem x
         | x :: l' =>
             bind (elem x) (fun a =>
             bind (join l') (fun b => Ok (a ++ "," ++ b)))
         end) xs
  | VObj fields =>
      if has_key "toString" fields then Throw else Ok "[object Object]"
  end.

(** [v === "s"] for a string literal. *)
Definition is_string (v : value) (s : string) : bool :=
  match v with
  | VStr t => String.eqb t s
  | _ => false
  end.

(** [v.k] once [v] is known not to be [null] or [undefined], for a key [k]
    that names no built-in property (all the keys the program reads:
    [home], [league], [goals], [percent], ...): the own property of an
    object, [undefined] on anything else. *)
Definition own (k : string) (v : value) : value :=
  match v with
  | VObj fields => lookup k fields
  | _ => VUndef
  end.

(** [v.k]: a TypeError on [null] and [undefined]. *)
Definition get (k : string) (v : value) : result value :=
  match v with
  | VUndef | VNull => Throw
  | _ => Ok (own k v)
  end.

(** [v?.k]. *)
Definition opt_get (v : value) (k : string) : value :=
  match v with
  | VUndef | VNull => VUndef
  | _ => own k v
  end.

(** [v?.k1?.k2?. ... ?.kn]. *)
Definition opt_chain (v : value) (path : list string) : value :=
  fold_left opt_get path v.

(** [v.replace(pat, rep)]: only strings have the method. *)
Definition call_replace (v : value) (pat rep : string) : result string :=
  match v with
  | VStr s => Ok (replace pat rep s)
  | _ => Throw
  end.

(** [v.includes(s)] for a string argument: substring search on a string,
    membership on an array, a TypeError on anything else. *)
Definition call_includes (v : value) (s : string) : result bool :=
  match v with
  | VStr t => Ok (includes s t)
  | VArr xs => Ok (existsb (fun x => is_string x s) xs)
  | _ => Throw
  end.

(** [v.substring(i, j)]. *)
Definition call_substring (v : value) (i j : nat) : result string :=
  match v with
  | VStr s => Ok (substring i j s)
  | _ => Throw
  end.

(** [l.some(f)] for a callback that may throw: stops at the first [true]. *)
Fixpoint some {A : Type} (f : A -> result bool) (l : list A) : result bool :=
  match l with
  | [] => Ok false
  | x :: l' => bind (f x) (fun b => if b then Ok true else some f l')
  end.

End JSValue.

Declare Scope js_scope.
Notation "x <- c ;; k" := (JSValue.bind c (fun x => k))
  (at level 61, c at next level, right associativity) : js_scope.

(* ================================================================== *)
(** ** The classifier: [netlify/functions/predictions.js] *)
(* ================================================================== *)

Module Predictions.
Import JSNumber JSString JSValue.
Local Open Scope string_scope.
Local Open Scope js_scope.

(** [parseInt(pct.replace('%', ''))]. *)
Definition parsePct (pct : value) : result number :=
  s <- call_replace pct "%" "" ;;
  Ok (parseInt s).

(** [getConfidence(homePct, awayPct, drawPct)]. *)
Definition getConfidence (homePct awayPct drawPct : value) : Z :=
  try_catch
    (home <- parsePct homePct ;;
     away <- parsePct awayPct ;;
     draw <- parsePct drawPct ;;
     let maxProb := Math_max3 home away draw in
     if ge maxProb (of_Z 50) then Ok 4%Z
     else if ge maxProb (of_Z 45) then Ok 3%Z
     else Ok 2%Z)
    2%Z.

(** The object [{ prediction, text }] returned by [determinePrediction]. *)
Record outcome : Type := {
  prediction : string;
  text : string
}.

Definition bigClubs : list string :=
  ["Al Ahly"; "Zamalek"; "Zamalek SC"; "Pyramids FC"].

(** The template literals [`${name} gagne`] and [`DC ${name}`]: the name
    is converted to a string, which may throw. *)
Definition gagne (name : value) : result string :=
  s <- toStr name ;; Ok (s ++ " gagne").

Definition DC (name : value) : result string :=
  s <- toStr name ;; Ok ("DC " ++ s).

(** [return { prediction: code, text }] for a text that may throw. *)
Definition returns (code : string) (txt : result string) : result outcome :=
  t <- txt ;; Ok {| prediction := code; text := t |}.

(** [determinePrediction(homePct, awayPct, drawPct, homeName, awayName)]. *)
Definition determinePrediction
    (homePct awayPct drawPct homeName awayName : value) : outcome :=
  try_catch
    (home <- parsePct homePct ;;
     away <- parsePct awayPct ;;
     draw <- parsePct drawPct ;;
     if ge home (of_Z 45) && le away (of_Z 10) then
       returns "1" (gagne homeName)
     else if ge away (of_Z 45) && le home (of_Z 10) then
       big <- some (fun club => call_includes homeName club) bigClubs ;;
       if big then returns "1X" (DC homeName)
       else returns "2" (gagne awayName)
     else if ge home (of_Z 35) && ge draw (of_Z 35) then
       returns "1X" (DC homeName)
     else if ge away (of_Z 35) && ge draw (of_Z 35) then
       returns "X2" (DC awayName)
     else if ge draw (of_Z 40) then
       returns "X" (Ok "Match Nul probable")
     else if gt home away then
       returns "1X" (DC homeName)
     else
       returns "X2" (DC awayName))
    {| prediction := "X"; text := "Match Nul" |}.

(** [String(v).includes(sub)]: the conversion may throw. *)
Definition String_includes (v : value) (sub : string) : result bool :=
  s <- toStr v ;; Ok (includes sub s).

(** [String(a).includes(sub) || String(b).includes(sub)]: the second
    conversion is made only when the first search fails. *)
Definition either_includes (a b : value) (sub : string) : result bool :=
  found <- String_includes a sub ;;
  if found then Ok true else String_includes b sub.

(** The first half of [determineOverUnder]: the [try] block that inspects
    the goal estimates.  [Some l] when it returns the label [l], [None]
    when control falls through to the advice (also after the empty
    [catch]). *)
Definition overUnderFromGoals (goalsHome goalsAway : value) : option string :=
  try_catch
    (if truthy goalsHome && truthy goalsAway then
       over <- either_includes goalsHome goalsAway "3.5" ;;
       if over then Ok (Some "Over 2.5")
       else
         under <- either_includes goalsHome goalsAway "2.5" ;;
         if under then Ok (Some "Under 3.5") else Ok None
     else Ok None)
    None.

(** [determineOverUnder(goalsHome, goalsAway, advice)].  The inspection of
    [advice] is outside the [try]: a truthy [advice] without an [includes]
    method makes the function throw.  The branch for "-2.5"/"-3.5" and the
    final [return] give the same label. *)
Definition determineOverUnder (goalsHome goalsAway advice : value)
    : result string :=
  match overUnderFromGoals goalsHome goalsAway with
  | Some label => Ok label
  | None =>
      if truthy advice then
        p25 <- call_includes advice "+2.5" ;;
        p35 <- (if p25 then Ok true else call_includes advice "+3.5") ;;
        if p35 then Ok "Over 2.5"
        else
          m25 <- call_includes advice "-2.5" ;;
          m35 <- (if m25 then Ok true else call_includes advice "-3.5") ;;
          if m35 then Ok "Under 2.5" else Ok "Under 2.5"
      else Ok "Under 2.5"
  end.

(** [parseFloat(v)]: the argument is converted to a string first, which
    may throw. *)
Definition parseFloatV (v : value) : result number :=
  s <- toStr v ;; Ok (parseFloat s).

(** [parseFloat(teams?.side?.league?.goals?.kind?.average?.split || dflt)]. *)
Definition average (teams : value) (side kind split : string)
    (dflt : number) : result number :=
  parseFloatV
    (or_else (opt_chain teams [side; "league"; "goals"; kind; "average"; split])
             (VNum dflt)).

(** [determineBTTS(teams, comparison)]. *)
Definition determineBTTS (teams comparison : value) : string :=
  try_catch
    (homeGoalsFor <- average teams "home" "for" "total" (of_Z 0) ;;
     awayGoalsFor <- average teams "away" "for" "total" (of_Z 0) ;;
     homeGoalsAgainst <- average teams "home" "against" "total" (of_Z 0) ;;
     awayGoalsAgainst <- average teams "away" "against" "total" (of_Z 0) ;;
     if gt homeGoalsFor (literal 8 (-1)) && gt awayGoalsFor (literal 8 (-1))
        && gt homeGoalsAgainst (literal 8 (-1))
        && gt awayGoalsAgainst (literal 8 (-1))
     then Ok "Oui"
     else if lt homeGoalsAgainst (literal 5 (-1))
             || lt awayGoalsAgainst (literal 5 (-1))
     then Ok "Non"
     else if gt homeGoalsFor (of_Z 1) && gt awayGoalsFor (of_Z 1)
     then Ok "Oui"
     else Ok "Non")
    "Non".

(** [Math.min(Math.max(x, 0), hi)]. *)
Definition clamp (x : number) (hi : Z) : number :=
  Math_min (Math_max x (of_Z 0)) (of_Z hi).

(** [determineExactScore(prediction, teams, goalsHome, goalsAway)]. *)
Definition determineExactScore
    (prediction teams goalsHome goalsAway : value) : string :=
  try_catch
    (homeAvgFor <- average teams "home" "for" "home" (literal 12 (-1)) ;;
     awayAvgFor <- average teams "away" "for" "away" (literal 9 (-1)) ;;
     let homeGoals := Math_round homeAvgFor in
     let awayGoals := Math_round awayAvgFor in
     let '(homeGoals, awayGoals) :=
       if is_string prediction "1" || is_string prediction "1X" then
         (Math_max homeGoals (add awayGoals (of_Z 1)), awayGoals)
       else if is_string prediction "2" || is_string prediction "X2" then
         (homeGoals, Math_max awayGoals (add homeGoals (of_Z 1)))
       else if is_string prediction "X" then
         (homeGoals, homeGoals)
       else (homeGoals, awayGoals) in
     let homeGoals := clamp homeGoals 4 in
     let awayGoals := clamp awayGoals 3 in
     Ok (number_to_string homeGoals ++ "-" ++ number_to_string awayGoals))
    "1-1".

End Predictions.

(* ================================================================== *)
(** ** The request handler *)
(* ================================================================== *)

Module Handler.
Import JSNumber JSString JSValue Predictions.
Local Open Scope string_scope.
Local Open Scope js_scope.

Definition BASE_URL : string := "https://v3.football.api-sports.io".

(** [`${BASE_URL}/fixtures?date=${date}`]. *)
Definition fixtures_url (date : string) : string :=
  BASE_URL ++ "/fixtures?date=" ++ date.

(** [`${BASE_URL}/predictions?fixture=${fixtureId}`]: the id is converted
    to a string, which may throw. *)
Definition predictions_url (fixtureId : value) : result string :=
  s <- toStr fixtureId ;; Ok (BASE_URL ++ "/predictions?fixture=" ++ s).

(** The keys of [PRIORITY_LEAGUES] (property keys are strings). *)
Definition PRIORITY_LEAGUES : list (string * string) :=
  [("39", "Premier League"); ("140", "La Liga"); ("135", "Serie A");
   ("78", "Bundesliga"); ("61", "Ligue 1"); ("2", "Champions League");
   ("3", "Europa League"); ("848", "Conference League"); ("262", "Liga MX");
   ("94", "Primeira Liga"); ("88", "Eredivisie"); ("90", "KNVB Beker");
   ("144", "Jupiler Pro"); ("203", "Super Lig"); ("206", "Türkiye Kupası");
   ("179", "Scottish Prem"); ("197", "Super League");
   ("307", "Saudi Pro League"); ("305", "Qatar Stars");
   ("301", "UAE Pro League"); ("330", "Kuwait Premier");
   ("417", "Bahrain Premier"); ("895", "Egypt Cup"); ("233", "Egypt Premier")].

(** What every object literal inherits from [Object.prototype]; the [in]
    operator finds these keys too. *)
Definition inherited_keys : list string :=
  ["constructor"; "hasOwnProperty"; "isPrototypeOf"; "propertyIsEnumerable";
   "toLocaleString"; "toString"; "valueOf"; "__proto__";
   "__defineGetter__"; "__defineSetter__"; "__lookupGetter__";
   "__lookupSetter__"].

(** [leagueId in PRIORITY_LEAGUES]: the id is converted to a property
    key, which may throw. *)
Definition in_PRIORITY_LEAGUES (leagueId : value) : result bool :=
  key <- toStr leagueId ;;
  Ok (existsb (String.eqb key)
              (map fst PRIORITY_LEAGUES ++ inherited_keys)%list).

Definition important_keywords : list string :=
  ["Serie A"; "Liga"; "Premier"; "Bundesliga"; "Ligue 1"; "Champions";
   "Europa"; "Cup"; "Copa"; "Coupe"].

(** *** The outside world

    The upstream API answers a request with a decoded JSON body, or the
    [fetch]/[json] pair throws; the answer may depend on the requests made
    before.  [localeCompare] is the host's collation of two strings. *)
Record world : Type := {
  respond : list string -> string -> result value;
  localeCompare : string -> string -> Z
}.

(** Computations that issue requests: the state is the log of the URLs
    requested so far, oldest first. *)
Definition net (A : Type) : Type := list string -> A * list string.

Definition ret {A : Type} (a : A) : net A := fun log => (a, log).

Definition andThen {A B : Type} (c : net A) (k : A -> net B) : net B :=
  fun log => let (a, log') := c log in k a log'.

(** [await fetch(url)] followed by [await resp.json()]. *)
Definition fetch_json (w : world) (url : string) : net (result value) :=
  fun log => (respond w log url, (log ++ [url])%list).

(** [l.map(f)] for an asynchronous [f]: the calls are started, and their
    requests issued, in the order of the list. *)
Fixpoint map_all {A B : Type} (f : A -> net B) (l : list A) : net (list B) :=
  match l with
  | [] => ret []
  | x :: l' =>
      andThen (f x) (fun y => andThen (map_all f l') (fun ys => ret (y :: ys)))
  end.

(** The object pushed on [importantFixtures]. *)
Record fixture_info : Type := {
  fix_id : value;
  fix_time : string;
  fix_league : value;
  fix_home : value;
  fix_away : value
}.

(** The object returned by [fetchPrediction] (the ES-module copy; the
    CommonJS copy has the same fields without [btts] and [exact_score]). *)
Record row : Type := {
  id : value;
  time : string;
  league : value;
  home : value;
  away : value;
  home_pct : value;
  draw_pct : value;
  away_pct : value;
  row_prediction : string;
  prediction_text : string;
  over_under : string;
  btts : string;
  exact_score : string;
  confidence : Z;
  advice : value
}.

(** [response?.[0]]: the first element of an array, the first code unit
    of a string, the property ["0"] of an object. *)
Definition opt_first (response : value) : value :=
  match response with
  | VArr (x :: _) => x
  | VStr (String _ _ as s) => VStr (substring 0 1 s)
  | VObj fields => lookup "0" fields
  | _ => VUndef
  end.

(** The body of [fetchPrediction] once the response is decoded. *)
Definition classify (fixtureId : value) (fixtureInfo : fixture_info)
    (data : value) : result (option row) :=
  response <- get "response" data ;;
  let pred := opt_first response in
  if negb (truthy pred) then Ok None
  else
    let predictions := or_else (own "predictions" pred) (VObj []) in
    let percent := or_else (own "percent" predictions) (VObj []) in
    let goals := or_else (own "goals" predictions) (VObj []) in
    let teams := or_else (own "teams" pred) (VObj []) in
    let comparison := or_else (own "comparison" pred) (VObj []) in
    let homePct := or_else (own "home" percent) (VStr "33%") in
    let drawPct := or_else (own "draw" percent) (VStr "33%") in
    let awayPct := or_else (own "away" percent) (VStr "33%") in
    let advice := or_else (own "advice" predictions) (VStr "") in
    let o := determinePrediction homePct awayPct drawPct
               (fix_home fixtureInfo) (fix_away fixtureInfo) in
    overUnder <- determineOverUnder (own "home" goals) (own "away" goals) advice ;;
    let confidence := getConfidence homePct awayPct drawPct in
    let btts := determineBTTS teams comparison in
    let exactScore :=
      determineExactScore (VStr (prediction o)) teams
        (own "home" goals) (own "away" goals) in
    Ok (Some {| id := fixtureId;
                time := fix_time fixtureInfo;
                league := fix_league fixtureInfo;
                home := fix_home fixtureInfo;
                away := fix_away fixtureInfo;
                home_pct := homePct;
                draw_pct := drawPct;
                away_pct := awayPct;
                row_prediction := prediction o;
                prediction_text := text o;
                over_under := overUnder;
                btts := btts;
                exact_score := exactScore;
                confidence := confidence;
                advice := advice |}).

(** [`Error fetching prediction for ${fixtureId}:`], the message that the
    [catch] of [fetchPrediction] logs. *)
Definition error_message (fixtureId : value) : result string :=
  s <- toStr fixtureId ;; Ok ("Error fetching prediction for " ++ s ++ ":").

(** [fetchPrediction(fixtureId, fixtureInfo)].  The [try] builds the URL,
    issues the one request and classifies the answer; the [catch] builds
    its message and returns [null].  The promise is rejected ([Throw])
    when the [catch] itself throws. *)
Definition fetchPrediction (w : world) (fixtureId : value)
    (fixtureInfo : fixture_info) : net (result (option row)) :=
  andThen
    (match predictions_url fixtureId with
     | Ok url =>
         andThen (fetch_json w url)
                 (fun resp =>
                    ret (data <- resp ;; classify fixtureId fixtureInfo data))
     | Throw => ret Throw
     end)
    (fun attempt =>
       match attempt with
       | Ok r => ret (Ok r)
       | Throw => ret (_ <- error_message fixtureId ;; Ok None)
       end).

(** The loop that fills [importantFixtures]. *)
Fixpoint importantFixtures (fixtures : list value)
    : result (list fixture_info) :=
  match fixtures with
  | [] => Ok []
  | f :: rest =>
      lg <- get "league" f ;;
      leagueId <- get "id" lg ;;
      leagueName <- get "name" lg ;;
      isPriority <- in_PRIORITY_LEAGUES leagueId ;;
      isImportantName <-
        some (fun kw => call_includes leagueName kw) important_keywords ;;
      if isPriority || isImportantName then
        fx <- get "fixture" f ;;
        fid <- get "id" fx ;;
        date <- get "date" fx ;;
        tm <- call_substring date 11 16 ;;
        teams <- get "teams" f ;;
        th <- get "home" teams ;;
        hname <- get "name" th ;;
        ta <- get "away" teams ;;
        aname <- get "name" ta ;;
        more <- importantFixtures rest ;;
        Ok ({| fix_id := fid; fix_time := tm; fix_league := leagueName;
               fix_home := hname; fix_away := aname |} :: more)
      else importantFixtures rest
  end.

(** [fixtures.length === 0]. *)
Definition length_is_zero (fixtures : value) : bool :=
  match fixtures with
  | VArr [] => true
  | VStr EmptyString => true
  | VObj fields =>
      match lookup "length" fields with
      | VNum (Fin q) => Qeq_bool q 0
      | _ => false
      end
  | _ => false
  end.

(** The elements a [for ... of] loop visits: those of an array, the code
    points of a string; anything else is not iterable. *)
Definition iterate (fixtures : value) : result (list value) :=
  match fixtures with
  | VArr xs => Ok xs
  | VStr s => Ok (map VStr (code_points s))
  | _ => Throw
  end.

(** [path.split('/')]. *)
Fixpoint split (sep : ascii) (s : string) : list string :=
  match s with
  | EmptyString => [EmptyString]
  | String c s' =>
      if Ascii.eqb c sep then EmptyString :: split sep s'
      else match split sep s' with
           | [] => [String c EmptyString]
           | part :: parts => String c part :: parts
           end
  end.

Definition is_digit (c : ascii) : bool :=
  let n := N_of_ascii c in ((48 <=? n) && (n <=? 57))%N.

(** [/^\d{4}-\d{2}-\d{2}$/.test(date)]. *)
Definition is_date (date : string) : bool :=
  match list_ascii_of_string date with
  | [y1; y2; y3; y4; d1; m1; m2; d2; a1; a2] =>
      is_digit y1 && is_digit y2 && is_digit y3 && is_digit y4
      && Ascii.eqb d1 "-" && is_digit m1 && is_digit m2
      && Ascii.eqb d2 "-" && is_digit a1 && is_digit a2
  | _ => false
  end.

(** [predictions.sort((a, b) => a.time.localeCompare(b.time))]: a stable
    sort by the comparator. *)
Fixpoint insert_by (w : world) (r : row) (sorted : list row) : list row :=
  match sorted with
  | [] => [r]
  | x :: rest =>
      if (localeCompare w (time r) (time x) <? 0)%Z then r :: sorted
      else x :: insert_by w r rest
  end.

Definition sort_by_time (w : world) (rows : list row) : list row :=
  fold_left (fun acc r => insert_by w r acc) rows [].

(** [await Promise.all(promises)]: the results in order, or a rejection as
    soon as one promise is rejected. *)
Fixpoint Promise_all {A : Type} (results : list (result A))
    : result (list A) :=
  match results with
  | [] => Ok []
  | r :: rest => x <- r ;; xs <- Promise_all rest ;; Ok (x :: xs)
  end.

(** [results.filter(r => r !== null)]. *)
Fixpoint non_null (results : list (option row)) : list row :=
  match results with
  | [] => []
  | Some r :: rest => r :: non_null rest
  | None :: rest => non_null rest
  end.

(** The request and the response; the body is kept as the object given to
    [JSON.stringify]. *)
Record event : Type := {
  httpMethod : value;
  path : value
}.

Inductive body : Type :=
  | EmptyBody
  | ErrorBody (error : string)
  | PredictionsBody (date : string) (total_matches : nat)
      (predictions : list row).

Record response : Type := {
  statusCode : Z;
  resp_body : body
}.

Definition server_error : response :=
  {| statusCode := 500; resp_body := ErrorBody "Erreur serveur" |}.

(** The part of [handler] after the fixtures of the date have arrived. *)
Definition respond_with (w : world) (date : string)
    (fixturesData : result value) : net response :=
  match
    (data <- fixturesData ;;
     resp <- get "response" data ;;
     let fixtures := or_else resp (VArr []) in
     if length_is_zero fixtures then Ok None
     else
       items <- iterate fixtures ;;
       important <- importantFixtures items ;;
       Ok (Some important))
  with
  | Throw => ret server_error
  | Ok None =>
      ret {| statusCode := 200; resp_body := PredictionsBody date 0 [] |}
  | Ok (Some important) =>
      let limitedFixtures := firstn 25 important in
      andThen
        (map_all (fun fx => fetchPrediction w (fix_id fx) fx) limitedFixtures)
        (fun promises =>
           match Promise_all promises with
           | Throw => ret server_error
           | Ok results =>
               let predictions := sort_by_time w (non_null results) in
               ret {| statusCode := 200;
                      resp_body :=
                        PredictionsBody date (List.length predictions)
                                        predictions |}
           end)
  end.

(** [handler(event)]. *)
Definition handler (w : world) (ev : event) : net response :=
  if is_string (httpMethod ev) "OPTIONS" then
    ret {| statusCode := 200; resp_body := EmptyBody |}
  else
    match path ev with
    | VStr p =>
        let pathParts := split "/" p in
        let date := last pathParts EmptyString in
        if negb (is_date date) then
          ret {| statusCode := 400;
                 resp_body :=
                   ErrorBody "Format de date invalide. Utilisez YYYY-MM-DD" |}
        else
          andThen (fetch_json w (fixtures_url date))
                  (respond_with w date)
    | _ => ret server_error
    end.

(** The requests for predictions among the logged URLs. *)
Definition is_prediction_request (url : string) : bool :=
  prefix (BASE_URL ++ "/predictions?fixture=") url.

End Handler.

(* ================================================================== *)
(** ** The rules as the specification words them *)
(* ================================================================== *)

Module Rules.
Import JSNumber.

(** Rule 1: home >= 45 and away <= 10. *)
Definition rule1 (home away : number) : Prop :=
  AtLeast home (of_Z 45) /\ AtMost away (of_Z 10).

(** Rule 2: away >= 45 and home <= 10. *)
Definition rule2 (home away : number) : Prop :=
  AtLeast away (of_Z 45) /\ AtMost home (of_Z 10).

(** Rule 3: home >= 35 and draw >= 35. *)
Definition rule3 (home draw : number) : Prop :=
  AtLeast home (of_Z 35) /\ AtLeast draw (of_Z 35).

(** Rule 4: away >= 35 and draw >= 35. *)
Definition rule4 (away draw : number) : Prop :=
  AtLeast away (of_Z 35) /\ AtLeast draw (of_Z 35).

(** Rule 5: draw >= 40. *)
Definition rule5 (draw : number) : Prop :=
  AtLeast draw (of_Z 40).

(** [m] is the maximum of three numbers, none of them NaN. *)
Definition is_max3 (m a b c : number) : Prop :=
  (m = a \/ m = b \/ m = c) /\ AtMost a m /\ AtMost b m /\ AtMost c m.

(** [x] is an infinity or a finite integer. *)
Definition integral (x : number) : Prop :=
  x = PInf \/ x = NInf
  \/ exists (q : Q) (z : Z), x = Fin q /\ (q == inject_Z z)%Q.

End Rules.

(* ================================================================== *)
(** ** Sample payloads *)
(* ================================================================== *)

Module Samples.
Import JSValue.
Local Open Scope string_scope.

(** The [average] object of a statistics block. *)
Definition averages (home away total : value) : value :=
  VObj [("average", VObj [("home", home); ("away", away); ("total", total)])].

(** One side of [teams]: its goals-for and goals-against averages. *)
Definition side (goals_for goals_against : value) : value :=
  VObj [("league", VObj [("goals", VObj [("for", goals_for);
                                           ("against", goals_against)])])].

(** Two sides that both score and concede. *)
Definition open_match : value :=
  VObj [("home", side (averages (VStr "1.8") (VStr "1.3") (VStr "1.6"))
                      (averages (VStr "1.0") (VStr "1.2") (VStr "1.1")));
        ("away", side (averages (VStr "1.1") (VStr "0.7") (VStr "0.9"))
                      (averages (VStr "1.2") (VStr "1.6") (VStr "1.4")))].

(** A home side that scores four a game at home. *)
Definition prolific_home : value :=
  VObj [("home", side (averages (VStr "3.6") (VStr "1.5") (VStr "2.5"))
                      (averages (VStr "0.8") (VStr "1.0") (VStr "0.9")));
        ("away", side (averages (VStr "1.1") (VStr "0.7") (VStr "0.9"))
                      (averages (VStr "1.2") (VStr "1.6") (VStr "1.4")))].

(** A payload whose home-scoring average is text that is not a number. *)
Definition unparsable_home : value :=
  VObj [("home", side (averages (VStr "n/a") (VStr "n/a") (VStr "n/a"))
                      (averages (VStr "n/a") (VStr "n/a") (VStr "n/a")))].

(** A fixture of a priority league, as the fixtures endpoint lists it. *)
Definition fixture (n : Z) : value :=
  VObj [("league", VObj [("id", VNum (JSNumber.of_Z 39));
                         ("name", VStr "Premier League")]);
        ("fixture", VObj [("id", VNum (JSNumber.of_Z n));
                          ("date", VStr "2026-01-15T20:45:00+00:00")]);
        ("teams", VObj [("home", VObj [("name", VStr "Arsenal")]);
                        ("away", VObj [("name", VStr "Chelsea")])])].

(** The answer of the predictions endpoint for one fixture. *)
Definition prediction_payload : value :=
  VObj [("response",
         VArr [VObj [("predictions",
                      VObj [("percent", VObj [("home", VStr "50%");
                                              ("draw", VStr "45%");
                                              ("away", VStr "5%")]);
                            ("advice", VStr "Winner : Arsenal")]);
                     ("teams", open_match)]])].

(** A day with thirty important fixtures. *)
Definition busy_day : Handler.world :=
  {| Handler.respond := fun _ url =>
       if Handler.is_prediction_request url then Ok prediction_payload
       else Ok (VObj [("response",
                       VArr (map (fun n => fixture (Z.of_nat n)) (seq 1 30)))]);
     Handler.localeCompare := fun _ _ => 0%Z |}.

Definition get_predictions : Handler.event :=
  {| Handler.httpMethod := VStr "GET";
     Handler.path := VStr "/api/predictions/2026-01-15" |}.

End Samples.

From Stdlib Require Import Permutation Sorted.

(* ================================================================== *)
(** ** The page that shows the predictions: [PredictionsApp] *)
(* ================================================================== *)

Module Frontend.
Import JSValue Handler.
Local Open Scope string_scope.
Local Open Scope js_scope.

Fixpoint copies (n : nat) (s : string) : string :=
  match n with
  | O => EmptyString
  | S n' => s ++ copies n' s
  end.

(** [s.repeat(count)] for an integer count: a RangeError when it is
    negative. *)
Definition call_repeat (s : string) (count : Z) : result string :=
  if (count <? 0)%Z then Throw else Ok (copies (Z.to_nat count) s).

(** [getConfidenceStars(confidence)]. *)
Definition getConfidenceStars (confidence : Z) : result string :=
  filled <- call_repeat "★" confidence ;;
  hollow <- call_repeat "☆" (4 - confidence) ;;
  Ok (filled ++ hollow).

(** [getPredictionClass(prediction)]. *)
Definition getPredictionClass (prediction : string) : string :=
  if String.eqb prediction "1" then "pred-home"
  else if String.eqb prediction "2" then "pred-away"
  else if String.eqb prediction "X" then "pred-draw"
  else if String.eqb prediction "1X" then "pred-home-draw"
  else if String.eqb prediction "X2" then "pred-draw-away"
  else "".

(** The rows of the "TOP PICKS" block:
    [predictions.filter(p => p.confidence >= 3).slice(0, 5)]. *)
Definition topPicks (predictions : list row) : list row :=
  firstn 5 (filter (fun p => (3 <=? confidence p)%Z) predictions).

End Frontend.

(* ================================================================== *)
(** ** Shapes of values *)
(* ================================================================== *)

Module Shapes.
Import JSValue.

(** [v] is a string. *)
Definition is_text (v : value) : Prop := exists s, v = VStr s.

(** [v] has an [includes] method: it is a string or an array. *)
Definition has_includes (v : value) : Prop :=
  (exists s, v = VStr s) \/ (exists xs, v = VArr xs).

(** [v] is [null] or [undefined]. *)
Definition nullish (v : value) : Prop := v = VUndef \/ v = VNull.

(** [v] can be converted to a string. *)
Definition convertible (v : value) : Prop := exists s, toStr v = Ok s.

(** The outcome codes. *)
Definition outcome_codes : list string := ["1"; "2"; "X"; "1X"; "X2"]%string.

End Shapes.

(* ================================================================== *)
(** ** Integer-valued Numbers *)
(* ================================================================== *)

Module IntegerView.
Import JSNumber.

(** An integer or an infinity: what [Math.round] returns on anything but
    NaN. *)
Inductive ext : Type :=
  | NegInf
  | Int (z : Z)
  | PosInf.

(** The Number [x] has the value [e]. *)
Definition reads (x : number) (e : ext) : Prop :=
  match x, e with
  | PInf, PosInf => True
  | NInf, NegInf => True
  | Fin q, Int z => (q == inject_Z z)%Q
  | _, _ => False
  end.

Definition ext_max (a b : ext) : ext :=
  match a, b with
  | PosInf, _ | _, PosInf => PosInf
  | NegInf, e | e, NegInf => e
  | Int x, Int y => Int (Z.max x y)
  end.

(** The integer in [[0, hi]] nearest to [e]. *)
Definition ext_clamp (hi : Z) (e : ext) : Z :=
  match e with
  | NegInf => 0
  | Int z => Z.min (Z.max z 0) hi
  | PosInf => hi
  end.

End IntegerView.

(* ================================================================== *)
(** ** The fixture filter, read without exceptions *)
(* ================================================================== *)

Module FixtureView.
Import JSString JSValue Handler.
Local Open Scope string_scope.

Definition text_of (v : value) : string :=
  match v with
  | VStr s => s
  | _ => EmptyString
  end.

(** [f.league.id] and [f.league.name] of a fixture that has a league. *)
Definition league_id (f : value) : value := own "id" (own "league" f).
Definition league_name (f : value) : value := own "name" (own "league" f).

(** [name.includes(kw)] on a string or an array. *)
Definition name_has (name : value) (kw : string) : bool :=
  match name with
  | VStr t => includes kw t
  | VArr xs => existsb (fun x => is_string x kw) xs
  | _ => false
  end.

(** [isPriority || isImportantName], for a league id that can be
    converted to a property key ([false] is only a placeholder for one
    that cannot: the loop throws on it). *)
Definition is_important (f : value) : bool :=
  try_catch (in_PRIORITY_LEAGUES (league_id f)) false
  || existsb (name_has (league_name f)) important_keywords.

(** The object pushed for a fixture. *)
Definition info_of (f : value) : fixture_info :=
  {| fix_id := own "id" (own "fixture" f);
     fix_time := substring 11 16 (text_of (own "date" (own "fixture" f)));
     fix_league := league_name f;
     fix_home := own "name" (own "home" (own "teams" f));
     fix_away := own "name" (own "away" (own "teams" f)) |}.

(** The requests that the calls of [fetchPrediction] issue for the
    fixtures [chosen]: one for each id that can be converted to a string,
    in the order of the list. *)
Definition request_of (fixtureId : value) : list string :=
  match predictions_url fixtureId with
  | Ok url => [url]
  | Throw => []
  end.

Definition requests_for (chosen : list fixture_info) : list string :=
  flat_map (fun fx => request_of (fix_id fx)) chosen.

(** A fixture on which the loop does not throw: it has a league whose id
    can be converted to a property key and whose name is a string (or an
    array), and, if it is kept, a fixture block with a textual date and
    two teams. *)
Definition well_formed (f : value) : Prop :=
  ~ Shapes.nullish f
  /\ ~ Shapes.nullish (own "league" f)
  /\ Shapes.convertible (league_id f)
  /\ Shapes.has_includes (league_name f)
  /\ (is_important f = true ->
      ~ Shapes.nullish (own "fixture" f)
      /\ Shapes.is_text (own "date" (own "fixture" f))
      /\ ~ Shapes.nullish (own "teams" f)
      /\ ~ Shapes.nullish (own "home" (own "teams" f))
      /\ ~ Shapes.nullish (own "away" (own "teams" f))).

End FixtureView.

(* ================================================================== *)
(** ** The order of the rows, and more samples *)
(* ================================================================== *)

Module RowOrder.
Import JSValue Handler.
Local Open Scope string_scope.

(** [a] may stand before [b]: the comparator does not put [a] after [b]. *)
Definition before (w : world) (a b : row) : Prop :=
  (localeCompare w (time a) (time b) <= 0)%Z.

(** The comparator never says that each of two strings comes after the
    other. *)
Definition coherent (w : world) : Prop :=
  forall s t, (0 <= localeCompare w s t)%Z -> (localeCompare w t s <= 0)%Z.

(** A world whose collation is the order of the bytes. *)
Definition byte_order : world :=
  {| respond := fun _ _ => Throw;
     localeCompare := fun s t =>
       match String.compare s t with
       | Lt => (-1)%Z
       | Eq => 0%Z
       | Gt => 1%Z
       end |}.

(** A row with a given kick-off time. *)
Definition row_at (tm : string) : row :=
  {| id := VNull; time := tm; league := VNull; home := VNull; away := VNull;
     home_pct := VStr "33%"; draw_pct := VStr "33%"; away_pct := VStr "33%";
     row_prediction := "X2"; prediction_text := "DC null";
     over_under := "Under 2.5"; btts := "Non"; exact_score := "1-2";
     confidence := 2%Z; advice := VStr "" |}.

(** The same row at another tier. *)
Definition with_tier (c : Z) (r : row) : row :=
  {| id := id r; time := time r; league := league r; home := home r;
     away := away r; home_pct := home_pct r; draw_pct := draw_pct r;
     away_pct := away_pct r; row_prediction := row_prediction r;
     prediction_text := prediction_text r; over_under := over_under r;
     btts := btts r; exact_score := exact_score r; confidence := c;
     advice := advice r |}.

End RowOrder.

(* ================================================================== *)
(** * Properties *)
(* ================================================================== *)

Import JSNumber JSString JSValue Predictions Rules.
Local Open Scope string_scope.

(** ** The built-ins on sample inputs *)

Example literal_0_8 :
  literal 8 (-1) = Fin (3602879701896397 # 4503599627370496).
Proof. vm_compute. reflexivity. Qed.

Example round_double_ties_to_even :
  round_double (inject_Z (2 ^ 53 + 1)) = of_Z (2 ^ 53)
  /\ round_double (inject_Z (2 ^ 53 + 3)) = of_Z (2 ^ 53 + 4)
  /\ round_double (inject_Z (2 ^ 1024)) = PInf.
Proof. vm_compute. repeat split; reflexivity. Qed.

Example parseInt_samples :
  map (fun s => number_to_string (parseInt s))
      ["50"; " 42px"; "abc"; ""; "-7"; "0x1F"; "12.9"; "1e3"]
  = ["50"; "42"; "NaN"; "NaN"; "-7"; "31"; "12"; "1"].
Proof. vm_compute. reflexivity. Qed.

Example parseFloat_samples :
  map (fun s => number_to_string (parseFloat s))
      ["1.5"; ".5"; "1."; "."; "  12.5abc"; "1e21"; "1e-7"; "-Infinityx"; "n/a";
       "0.30000000000000004"; "0.80000000000000005"]
  = ["1.5"; "0.5"; "1"; "NaN"; "12.5"; "1e+21"; "1e-7"; "-Infinity"; "NaN";
     "0.30000000000000004"; "0.8"].
Proof. vm_compute. reflexivity. Qed.

Example replace_first_only : replace "%" "" "5%0%" = "50%".
Proof. reflexivity. Qed.

(** Positions count code units: "é" is one, a character outside the basic
    plane is two. *)
Example substring_samples :
  substring 11 16 "2026-01-15T20:45:00+00:00" = "20:45"
  /\ substring 1 3 "é20:45" = "20"
  /\ substring 2 4 "😀20:45" = "20"
  /\ length (substring 0 1 "😀20:45") = 3%nat
  /\ substring 3 9 "20:45" = "45"
  /\ code_points "é😀2" = ["é"; "😀"; "2"].
Proof. vm_compute. repeat split; reflexivity. Qed.

(** The conversion to a string: the join of an array, the inherited
    [toString] of a plain object, and the TypeError on an object that
    has a property [toString] of its own, alone or inside an array. *)
Example toStr_samples :
  toStr (VArr [VNum (of_Z 1); VNull; VStr "a"; VArr [VBool true; VUndef]])
  = Ok "1,,a,true,"
  /\ toStr (VObj [("name", VStr "Arsenal")]) = Ok "[object Object]"
  /\ toStr (VObj [("toString", VNum (of_Z 1))]) = Throw
  /\ toStr (VArr [VStr "0.7"; VObj [("toString", VNum (of_Z 1))]]) = Throw.
Proof. vm_compute. repeat split; reflexivity. Qed.

(** ** The order on Numbers *)

Lemma Qltb_iff (a b : Q) : Qltb a b = true <-> (a < b)%Q.
Proof. unfold Qltb, Qlt. apply Z.ltb_lt. Qed.

Lemma Qleb_iff (a b : Q) : Qleb a b = true <-> (a <= b)%Q.
Proof. unfold Qleb, Qle. apply Z.leb_le. Qed.

Lemma lt_iff (x y : number) : lt x y = true <-> Below x y.
Proof.
  destruct x, y; simpl; split; intro H;
    try discriminate; try (now inversion H); try constructor.
  - now apply Qltb_iff.
  - inversion H; subst. now apply Qltb_iff.
Qed.

Lemma le_iff (x y : number) : le x y = true <-> AtMost x y.
Proof.
  destruct x, y; simpl; split; intro H;
    try discriminate; try reflexivity;
    try (constructor; discriminate);
    try (inversion H; subst; congruence).
  - constructor. now apply Qleb_iff.
  - inversion H; subst. now apply Qleb_iff.
Qed.

Lemma gt_iff (x y : number) : gt x y = true <-> Above x y.
Proof. apply lt_iff. Qed.

Lemma ge_iff (x y : number) : ge x y = true <-> AtLeast x y.
Proof. apply le_iff. Qed.

Lemma lt_false_iff (x y : number) : lt x y = false <-> ~ Below x y.
Proof. rewrite <- lt_iff. destruct (lt x y); intuition congruence. Qed.

Lemma le_false_iff (x y : number) : le x y = false <-> ~ AtMost x y.
Proof. rewrite <- le_iff. destruct (le x y); intuition congruence. Qed.

(** Between finite numbers the orders are those of the rationals. *)
Lemma AtMost_fin_iff (a b : Q) : AtMost (Fin a) (Fin b) <-> (a <= b)%Q.
Proof. split; intro H; [now inversion H | now constructor]. Qed.

Lemma Below_fin_iff (a b : Q) : Below (Fin a) (Fin b) <-> (a < b)%Q.
Proof. split; intro H; [now inversion H | now constructor]. Qed.

(** A comparison with NaN never holds. *)
Lemma AtMost_not_NaN (x y : number) : AtMost x y -> x <> NaN /\ y <> NaN.
Proof. intros H; inversion H; subst; split; congruence. Qed.

Lemma Below_not_NaN (x y : number) : Below x y -> x <> NaN /\ y <> NaN.
Proof. intros H; inversion H; subst; split; congruence. Qed.

Lemma AtMost_between (x : number) (a b : Q) :
  AtMost (Fin b) x -> AtMost x (Fin a) -> (b <= a)%Q.
Proof.
  intros H1 H2.
  destruct x; inversion H1; inversion H2; subst; try congruence.
  lra.
Qed.

(** Every boolean comparison in the goal and the context becomes the
    proposition it decides. *)
Ltac reflect_cmp :=
  unfold ge, gt in *;
  repeat match goal with
         | H : le _ _ = true |- _ => apply le_iff in H
         | H : le _ _ = false |- _ => apply le_false_iff in H
         | H : lt _ _ = true |- _ => apply lt_iff in H
         | H : lt _ _ = false |- _ => apply lt_false_iff in H
         end.

(** ** [determinePrediction] *)

Lemma some_includes_string (n : string) (clubs : list string) :
  some (fun club => call_includes (VStr n) club) clubs
  = Ok (existsb (fun club => includes club n) clubs).
Proof.
  induction clubs as [| c clubs IH]; simpl; [reflexivity |].
  destruct (includes c n); simpl; [reflexivity | exact IH].
Qed.

(** The percentages that [parsePct] accepts are the strings. *)
Lemma parsePct_ok_iff (pct : value) (n : number) :
  parsePct pct = Ok n <-> exists s, pct = VStr s /\ n = parseInt (replace "%" "" s).
Proof.
  unfold parsePct. split.
  - destruct pct; simpl; intro H; try discriminate.
    injection H as <-. now exists s.
  - intros [s [-> ->]]. reflexivity.
Qed.

(** The two template literals, on a name that can be converted and on one
    that cannot. *)
Lemma returns_gagne (code : string) (name : value) (s : string) :
  toStr name = Ok s ->
  returns code (gagne name) = Ok {| prediction := code; text := s ++ " gagne" |}.
Proof. intros H. unfold returns, gagne. now rewrite H. Qed.

Lemma returns_DC (code : string) (name : value) (s : string) :
  toStr name = Ok s ->
  returns code (DC name) = Ok {| prediction := code; text := "DC " ++ s |}.
Proof. intros H. unfold returns, DC. now rewrite H. Qed.

Lemma returns_gagne_throw (code : string) (name : value) :
  toStr name = Throw -> returns code (gagne name) = Throw.
Proof. intros H. unfold returns, gagne. now rewrite H. Qed.

Lemma returns_DC_throw (code : string) (name : value) :
  toStr name = Throw -> returns code (DC name) = Throw.
Proof. intros H. unfold returns, DC. now rewrite H. Qed.

(** C1.  Rule 1: when the three percentages parse, with the parsed home
    percentage at least 45 and the parsed away percentage at most 10,
    [determinePrediction] returns outcome "1" and the text
    "<home> gagne", for every home name that can be written in a text (a
    string is written as it is).  The one other case is a home name that
    cannot be converted to a string: the template literal throws and the
    [catch] answers. *)
Theorem determinePrediction_rule1
    (homePct awayPct drawPct homeName awayName : value)
    (home away draw : number) :
  parsePct homePct = Ok home ->
  parsePct awayPct = Ok away ->
  parsePct drawPct = Ok draw ->
  AtLeast home (of_Z 45) ->
  AtMost away (of_Z 10) ->
  (forall name : string,
      toStr homeName = Ok name ->
      determinePrediction homePct awayPct drawPct homeName awayName
      = {| prediction := "1"; text := name ++ " gagne" |})
  /\ (forall name : string,
        determinePrediction homePct awayPct drawPct (VStr name) awayName
        = {| prediction := "1"; text := name ++ " gagne" |})
  /\ (toStr homeName = Throw ->
      determinePrediction homePct awayPct drawPct homeName awayName
      = {| prediction := "X"; text := "Match Nul" |}).
Proof.
  intros Hh Ha Hd H45 H10.
  unfold determinePrediction. rewrite Hh, Ha, Hd. cbn [bind try_catch].
  apply ge_iff in H45. apply le_iff in H10.
  rewrite H45, H10. cbn [andb].
  split; [| split].
  - intros name Hn. now rewrite (returns_gagne _ _ _ Hn).
  - intros name. reflexivity.
  - intros Hn. now rewrite (returns_gagne_throw _ _ Hn).
Qed.

Lemma determinePrediction_rule1_witness :
  determinePrediction (VStr "62%") (VStr "8%") (VStr "30%")
                      (VStr "Arsenal") (VStr "Chelsea")
  = {| prediction := "1"; text := "Arsenal gagne" |}.
Proof.
  apply (determinePrediction_rule1 (VStr "62%") (VStr "8%") (VStr "30%")
           (VStr "Arsenal") (VStr "Chelsea") (of_Z 62) (of_Z 8) (of_Z 30)).
  - vm_compute. reflexivity.
  - vm_compute. reflexivity.
  - vm_compute. reflexivity.
  - apply AtMost_fin. unfold Qle. simpl. lia.
  - apply AtMost_fin. unfold Qle. simpl. lia.
Defined.

(** C2.  Rule 2 with the big-club override: when the parsed away
    percentage is at least 45, the parsed home percentage at most 10, and
    the home team's name contains one of the names of [bigClubs],
    [determinePrediction] returns "1X" with the text "DC <home>", not "2". *)
Theorem determinePrediction_big_club
    (homePct awayPct drawPct awayName : value) (homeName : string)
    (home away draw : number) (club : string) :
  parsePct homePct = Ok home ->
  parsePct awayPct = Ok away ->
  parsePct drawPct = Ok draw ->
  AtLeast away (of_Z 45) ->
  AtMost home (of_Z 10) ->
  In club bigClubs ->
  includes club homeName = true ->
  determinePrediction homePct awayPct drawPct (VStr homeName) awayName
  = {| prediction := "1X"; text := "DC " ++ homeName |}.
Proof.
  intros Hh Ha Hd H45 H10 Hin Hsub.
  unfold determinePrediction. rewrite Hh, Ha, Hd. cbn [bind try_catch].
  assert (Hr1 : ge home (of_Z 45) = false).
  { apply le_false_iff. intro H.
    pose proof (AtMost_between _ _ _ H H10) as Hq.
    unfold inject_Z, Qle in Hq; simpl in Hq; lia. }
  rewrite Hr1. cbn [andb].
  apply ge_iff in H45. apply le_iff in H10. rewrite H45, H10. cbn [andb].
  rewrite some_includes_string. cbn [bind try_catch].
  assert (Hbig : existsb (fun c => includes c homeName) bigClubs = true).
  { apply existsb_exists. now exists club. }
  rewrite Hbig. reflexivity.
Qed.

Lemma determinePrediction_big_club_witness :
  determinePrediction (VStr "8%") (VStr "70%") (VStr "22%")
                      (VStr "Al Ahly") (VStr "Smouha")
  = {| prediction := "1X"; text := "DC Al Ahly" |}.
Proof.
  apply (determinePrediction_big_club (VStr "8%") (VStr "70%") (VStr "22%")
           (VStr "Smouha") "Al Ahly" (of_Z 8) (of_Z 70) (of_Z 22) "Al Ahly").
  - vm_compute. reflexivity.
  - vm_compute. reflexivity.
  - vm_compute. reflexivity.
  - apply AtMost_fin. unfold Qle. simpl. lia.
  - apply AtMost_fin. unfold Qle. simpl. lia.
  - simpl. left. reflexivity.
  - vm_compute. reflexivity.
Defined.

(** ** The order of the rules *)

Lemma both_true (x1 y1 x2 y2 : number) :
  AtMost x1 y1 /\ AtMost x2 y2 -> le x1 y1 && le x2 y2 = true.
Proof.
  intros [H1 H2]. apply le_iff in H1. apply le_iff in H2.
  now rewrite H1, H2.
Qed.

Lemma both_false (x1 y1 x2 y2 : number) :
  ~ (AtMost x1 y1 /\ AtMost x2 y2) -> le x1 y1 && le x2 y2 = false.
Proof.
  intros H. destruct (le x1 y1) eqn:E1, (le x2 y2) eqn:E2;
    try reflexivity.
  exfalso. apply H. split; now apply le_iff.
Qed.

(** C3.  The rules are tried in the order 1 to 6 and the first that holds
    decides: each rule gives its outcome exactly when the rules before it
    fail.  In particular rule 3 (home >= 35 and draw >= 35) gives "1X"
    whenever rules 1 and 2 fail, whether or not rule 4 holds too, and
    home = "38%", draw = "38%", away = "24%" yields "1X".  The names are
    strings ([hn] and [an]), as the classifier expects them. *)
Theorem determinePrediction_first_match
    (homePct awayPct drawPct : value) (hn an : string)
    (home away draw : number) :
  parsePct homePct = Ok home ->
  parsePct awayPct = Ok away ->
  parsePct drawPct = Ok draw ->
  let r := determinePrediction homePct awayPct drawPct (VStr hn) (VStr an) in
  (rule1 home away ->
     r = {| prediction := "1"; text := hn ++ " gagne" |})
  /\ (~ rule1 home away -> rule2 home away ->
      r = if existsb (fun club => includes club hn) bigClubs
          then {| prediction := "1X"; text := "DC " ++ hn |}
          else {| prediction := "2"; text := an ++ " gagne" |})
  /\ (~ rule1 home away -> ~ rule2 home away -> rule3 home draw ->
      r = {| prediction := "1X"; text := "DC " ++ hn |})
  /\ (~ rule1 home away -> ~ rule2 home away -> ~ rule3 home draw ->
      rule4 away draw ->
      r = {| prediction := "X2"; text := "DC " ++ an |})
  /\ (~ rule1 home away -> ~ rule2 home away -> ~ rule3 home draw ->
      ~ rule4 away draw -> rule5 draw ->
      r = {| prediction := "X"; text := "Match Nul probable" |})
  /\ (~ rule1 home away -> ~ rule2 home away -> ~ rule3 home draw ->
      ~ rule4 away draw -> ~ rule5 draw ->
      (Above home away ->
         r = {| prediction := "1X"; text := "DC " ++ hn |})
      /\ (~ Above home away ->
         r = {| prediction := "X2"; text := "DC " ++ an |}))
  /\ determinePrediction (VStr "38%") (VStr "24%") (VStr "38%")
                         (VStr hn) (VStr an)
     = {| prediction := "1X"; text := "DC " ++ hn |}.
Proof.
  intros Hh Ha Hd r. subst r.
  unfold determinePrediction at 1 2 3 4 5 6 7.
  rewrite Hh, Ha, Hd. cbn [bind try_catch].
  unfold rule1, rule2, rule3, rule4, rule5, AtLeast, ge.
  split; [| split; [| split; [| split; [| split; [| split]]]]].
  - intros R1. now rewrite (both_true _ _ _ _ R1).
  - intros R1 R2.
    rewrite (both_false _ _ _ _ R1), (both_true _ _ _ _ R2).
    rewrite some_includes_string. cbn [bind].
    now destruct (existsb _ bigClubs).
  - intros R1 R2 R3.
    now rewrite (both_false _ _ _ _ R1), (both_false _ _ _ _ R2),
      (both_true _ _ _ _ R3).
  - intros R1 R2 R3 R4.
    now rewrite (both_false _ _ _ _ R1), (both_false _ _ _ _ R2),
      (both_false _ _ _ _ R3), (both_true _ _ _ _ R4).
  - intros R1 R2 R3 R4 R5.
    rewrite (both_false _ _ _ _ R1), (both_false _ _ _ _ R2),
      (both_false _ _ _ _ R3), (both_false _ _ _ _ R4).
    apply le_iff in R5. now rewrite R5.
  - intros R1 R2 R3 R4 R5.
    rewrite (both_false _ _ _ _ R1), (both_false _ _ _ _ R2),
      (both_false _ _ _ _ R3), (both_false _ _ _ _ R4).
    apply le_false_iff in R5. rewrite R5.
    split; intros G.
    + apply gt_iff in G. now rewrite G.
    + destruct (gt home away) eqn:E; [| reflexivity].
      exfalso. apply G. now apply gt_iff.
  - assert (P38 : parsePct (VStr "38%") = Ok (of_Z 38))
      by (vm_compute; reflexivity).
    assert (P24 : parsePct (VStr "24%") = Ok (of_Z 24))
      by (vm_compute; reflexivity).
    unfold determinePrediction. rewrite P38, P24. reflexivity.
Qed.

Lemma determinePrediction_first_match_witness :
  determinePrediction (VStr "38%") (VStr "38%") (VStr "38%")
                      (VStr "Lens") (VStr "Lille")
  = {| prediction := "1X"; text := "DC Lens" |}.
Proof.
  assert (P : parsePct (VStr "38%") = Ok (of_Z 38)) by (vm_compute; reflexivity).
  destruct (determinePrediction_first_match
              (VStr "38%") (VStr "38%") (VStr "38%") "Lens" "Lille"
              (of_Z 38) (of_Z 38) (of_Z 38) P P P)
    as (_ & _ & H3 & _).
  apply H3.
  - intros [_ H]. apply le_iff in H. vm_compute in H. discriminate.
  - intros [_ H]. apply le_iff in H. vm_compute in H. discriminate.
  - split; apply le_iff; vm_compute; reflexivity.
Defined.

(** ** Percentages that do not parse *)

(** When the three percentages are strings in which [parseInt] finds no
    number, no comparison holds and the last branch is taken. *)
Lemma determinePrediction_all_NaN (hp ap dp : string) (homeName awayName : value)
    (an : string) :
  parseInt (replace "%" "" hp) = NaN ->
  parseInt (replace "%" "" ap) = NaN ->
  parseInt (replace "%" "" dp) = NaN ->
  toStr awayName = Ok an ->
  determinePrediction (VStr hp) (VStr ap) (VStr dp) homeName awayName
  = {| prediction := "X2"; text := "DC " ++ an |}.
Proof.
  intros Hh Ha Hd Hn. unfold determinePrediction, parsePct.
  cbn [call_replace bind]. rewrite Hh, Ha, Hd.
  cbn [ge gt le lt andb]. now rewrite (returns_DC _ _ _ Hn).
Qed.

(** The default of the [catch] is what a percentage that is not a string
    gives ([replace] is then not a function). *)
Lemma determinePrediction_not_string (homePct awayPct drawPct homeName awayName : value) :
  (forall s, homePct <> VStr s) ->
  determinePrediction homePct awayPct drawPct homeName awayName
  = {| prediction := "X"; text := "Match Nul" |}.
Proof.
  intros H. unfold determinePrediction, parsePct.
  destruct homePct; try reflexivity. now destruct (H s).
Qed.

(** C4.  On the non-numeric percentages "abc%", [determinePrediction]
    returns "X2" with the text "DC <away>": [parseInt] gives NaN instead
    of throwing, so the [catch] that holds the default ("X", "Match Nul")
    is not reached. *)
Theorem determinePrediction_non_numeric :
  parsePct (VStr "abc%") = Ok NaN
  /\ determinePrediction (VStr "abc%") (VStr "abc%") (VStr "abc%")
                         (VStr "Arsenal") (VStr "Chelsea")
     = {| prediction := "X2"; text := "DC Chelsea" |}
  /\ determinePrediction (VStr "abc%") (VStr "abc%") (VStr "abc%")
                         (VStr "Arsenal") (VStr "Chelsea")
     <> {| prediction := "X"; text := "Match Nul" |}.
Proof.
  split; [| split].
  - vm_compute. reflexivity.
  - vm_compute. reflexivity.
  - vm_compute. discriminate.
Qed.

(** ** [getConfidence] *)

Ltac num_order :=
  intros;
  repeat match goal with
         | x : number |- _ => destruct x
         end;
  repeat match goal with
         | H : AtMost _ _ |- _ => inversion H; clear H; subst
         | H : Below _ _ |- _ => inversion H; clear H; subst
         | H : _ /\ _ |- _ => destruct H
         end;
  try congruence;
  try (constructor; (lra || congruence)).

Lemma AtMost_trans (x y z : number) : AtMost x y -> AtMost y z -> AtMost x z.
Proof. num_order. Qed.

Lemma AtMost_refl (x : number) : x <> NaN -> AtMost x x.
Proof. num_order. Qed.

Lemma Below_AtMost_incl (x y : number) : Below x y -> AtMost x y.
Proof. num_order. Qed.

Lemma Below_not_AtMost (x y : number) : Below x y -> ~ AtMost y x.
Proof. intros H1 H2. revert H1 H2. num_order. lra. Qed.

Lemma not_AtMost_Below (x y : number) : x <> NaN -> y <> NaN -> ~ AtMost x y -> Below y x.
Proof.
  intros Hx Hy H.
  destruct x, y; try congruence; try constructor;
    try (exfalso; apply H; constructor; congruence).
  destruct (Qlt_le_dec q0 q) as [L | L]; [exact L |].
  exfalso. apply H. now constructor.
Qed.

Lemma not_Below_AtMost (x y : number) : x <> NaN -> y <> NaN -> ~ Below x y -> AtMost y x.
Proof.
  intros Hx Hy H.
  destruct x, y; try congruence;
    try (constructor; congruence);
    try (exfalso; apply H; constructor; fail).
  constructor. destruct (Qlt_le_dec q q0) as [L | L]; [| exact L].
  exfalso. apply H. now constructor.
Qed.

Lemma Below_AtMost_trans (x y z : number) : Below x y -> AtMost y z -> Below x z.
Proof. num_order. Qed.

Lemma AtMost_Below_trans (x y z : number) : AtMost x y -> Below y z -> Below x z.
Proof. num_order. Qed.

Lemma Math_max_spec (a b : number) :
  a <> NaN -> b <> NaN ->
  (Math_max a b = a \/ Math_max a b = b)
  /\ AtMost a (Math_max a b) /\ AtMost b (Math_max a b).
Proof.
  intros Ha Hb.
  assert (E : Math_max a b = if lt a b then b else a)
    by (destruct a, b; try congruence; reflexivity).
  rewrite E. destruct (lt a b) eqn:L.
  - apply lt_iff in L. split; [now right |].
    split; [now apply Below_AtMost_incl | now apply AtMost_refl].
  - apply lt_false_iff in L. split; [now left |].
    split; [now apply AtMost_refl | now apply not_Below_AtMost].
Qed.

Lemma Math_max_not_NaN (a b : number) :
  a <> NaN -> b <> NaN -> Math_max a b <> NaN.
Proof.
  intros Ha Hb. destruct (Math_max_spec a b Ha Hb) as [[-> | ->] _]; assumption.
Qed.

Lemma Math_max3_is_max (a b c : number) :
  a <> NaN -> b <> NaN -> c <> NaN -> is_max3 (Math_max3 a b c) a b c.
Proof.
  intros Ha Hb Hc. unfold Math_max3, is_max3.
  pose proof (Math_max_not_NaN a b Ha Hb) as Hab.
  destruct (Math_max_spec a b Ha Hb) as (E1 & L1 & L2).
  destruct (Math_max_spec (Math_max a b) c Hab Hc) as (E2 & L3 & L4).
  split.
  - destruct E2 as [-> | ->]; [destruct E1 as [-> | ->] |]; tauto.
  - repeat split; try assumption; eapply AtMost_trans; eassumption.
Qed.

Lemma is_max3_unique (m m' a b c : number) :
  is_max3 m a b c -> is_max3 m' a b c -> AtMost m m'.
Proof.
  intros (E & _) (_ & La & Lb & Lc).
  destruct E as [-> | [-> | ->]]; assumption.
Qed.

Lemma le_congr (k x y : number) : AtMost x y -> AtMost y x -> le k x = le k y.
Proof.
  intros H1 H2.
  destruct (le k x) eqn:Ex, (le k y) eqn:Ey; try reflexivity; reflect_cmp.
  - exfalso. apply Ey. eapply AtMost_trans; eassumption.
  - exfalso. apply Ex. eapply AtMost_trans; eassumption.
Qed.

(** [getConfidence] reads the tier off the maximum of the three parsed
    percentages. *)
Lemma getConfidence_of_max
    (homePct awayPct drawPct : value) (home away draw m : number) :
  parsePct homePct = Ok home ->
  parsePct awayPct = Ok away ->
  parsePct drawPct = Ok draw ->
  is_max3 m home away draw ->
  getConfidence homePct awayPct drawPct
  = if le (of_Z 50) m then 4%Z else if le (of_Z 45) m then 3%Z else 2%Z.
Proof.
  intros Hh Ha Hd Hm.
  unfold getConfidence. rewrite Hh, Ha, Hd. cbn [bind]. unfold ge.
  assert (HM : is_max3 (Math_max3 home away draw) home away draw).
  { destruct Hm as (_ & L1 & L2 & L3).
    apply Math_max3_is_max;
      [ exact (proj1 (AtMost_not_NaN _ _ L1))
      | exact (proj1 (AtMost_not_NaN _ _ L2))
      | exact (proj1 (AtMost_not_NaN _ _ L3)) ]. }
  pose proof (is_max3_unique _ _ _ _ _ Hm HM) as L1.
  pose proof (is_max3_unique _ _ _ _ _ HM Hm) as L2.
  rewrite (le_congr (of_Z 50) _ _ L2 L1), (le_congr (of_Z 45) _ _ L2 L1).
  destruct (le (of_Z 50) m), (le (of_Z 45) m); reflexivity.
Qed.

Lemma getConfidence_range (homePct awayPct drawPct : value) :
  let c := getConfidence homePct awayPct drawPct in
  (c = 2 \/ c = 3 \/ c = 4)%Z.
Proof.
  unfold getConfidence.
  destruct (parsePct homePct); cbn [bind try_catch]; [| tauto].
  destruct (parsePct awayPct); cbn [bind try_catch]; [| tauto].
  destruct (parsePct drawPct); cbn [bind try_catch]; [| tauto].
  destruct (ge _ (of_Z 50)); [tauto |].
  destruct (ge _ (of_Z 45)); tauto.
Qed.

Lemma fifty_above_45 (m : number) : AtMost (of_Z 50) m -> AtMost (of_Z 45) m.
Proof.
  intros H. eapply AtMost_trans; [| exact H].
  apply AtMost_fin. unfold Qle. simpl. lia.
Qed.

(** C5.  For a triple whose three percentages parse to numbers, with [m]
    their maximum: the tier is 4 when [m >= 50], 3 when [45 <= m < 50] and
    2 when [m < 45]; it is monotone in [m]; it rises only across 45 or 50;
    and on every input whatsoever it is 2, 3 or 4, never 1. *)
Theorem getConfidence_tiers :
  (forall homePct awayPct drawPct home away draw m,
      parsePct homePct = Ok home ->
      parsePct awayPct = Ok away ->
      parsePct drawPct = Ok draw ->
      is_max3 m home away draw ->
      let c := getConfidence homePct awayPct drawPct in
      (AtLeast m (of_Z 50) -> c = 4%Z)
      /\ (AtLeast m (of_Z 45) -> Below m (of_Z 50) -> c = 3%Z)
      /\ (Below m (of_Z 45) -> c = 2%Z))
  /\ (forall homePct awayPct drawPct home away draw m
             homePct' awayPct' drawPct' home' away' draw' m',
      parsePct homePct = Ok home ->
      parsePct awayPct = Ok away ->
      parsePct drawPct = Ok draw ->
      is_max3 m home away draw ->
      parsePct homePct' = Ok home' ->
      parsePct awayPct' = Ok away' ->
      parsePct drawPct' = Ok draw' ->
      is_max3 m' home' away' draw' ->
      let c := getConfidence homePct awayPct drawPct in
      let c' := getConfidence homePct' awayPct' drawPct' in
      (AtMost m m' -> (c <= c')%Z)
      /\ ((c < c')%Z ->
          (Below m (of_Z 45) /\ AtLeast m' (of_Z 45))
          \/ (Below m (of_Z 50) /\ AtLeast m' (of_Z 50))))
  /\ (forall homePct awayPct drawPct : value,
      let c := getConfidence homePct awayPct drawPct in
      (c = 2 \/ c = 3 \/ c = 4)%Z).
Proof.
  split; [| split].
  - intros homePct awayPct drawPct home away draw m Hh Ha Hd Hm c.
    subst c. rewrite (getConfidence_of_max _ _ _ _ _ _ m Hh Ha Hd Hm).
    unfold AtLeast. split; [| split].
    + intros H. apply le_iff in H. now rewrite H.
    + intros H45 H50. apply Below_not_AtMost in H50. apply le_false_iff in H50.
      apply le_iff in H45. now rewrite H50, H45.
    + intros H45. pose proof (Below_not_AtMost _ _ H45) as N45.
      assert (N50 : ~ AtMost (of_Z 50) m)
        by (intro H; apply N45; now apply fifty_above_45).
      apply le_false_iff in N45. apply le_false_iff in N50.
      now rewrite N50, N45.
  - intros homePct awayPct drawPct home away draw m
           homePct' awayPct' drawPct' home' away' draw' m'
           Hh Ha Hd Hm Hh' Ha' Hd' Hm' c c'.
    subst c c'.
    rewrite (getConfidence_of_max _ _ _ _ _ _ m Hh Ha Hd Hm).
    rewrite (getConfidence_of_max _ _ _ _ _ _ m' Hh' Ha' Hd' Hm').
    assert (Nm : m <> NaN)
      by (destruct Hm as (_ & L & _); exact (proj2 (AtMost_not_NaN _ _ L))).
    assert (Nm' : m' <> NaN)
      by (destruct Hm' as (_ & L & _); exact (proj2 (AtMost_not_NaN _ _ L))).
    assert (N45 : of_Z 45 <> NaN) by discriminate.
    assert (N50 : of_Z 50 <> NaN) by discriminate.
    unfold AtLeast.
    destruct (le (of_Z 50) m) eqn:A50, (le (of_Z 45) m) eqn:A45,
             (le (of_Z 50) m') eqn:B50, (le (of_Z 45) m') eqn:B45;
      reflect_cmp;
      try (exfalso; apply A45; now apply fifty_above_45);
      try (exfalso; apply B45; now apply fifty_above_45);
      (split;
       [ intros L; try lia; exfalso;
         first [ apply B50; eapply AtMost_trans; eassumption
               | apply B45; eapply AtMost_trans; eassumption ]
       | intros L; try lia;
         first [ right; split; [now apply not_AtMost_Below | assumption]
               | left; split; [now apply not_AtMost_Below | assumption] ] ]).
  - intros. apply getConfidence_range.
Qed.

Lemma getConfidence_tiers_witness :
  getConfidence (VStr "50%") (VStr "20%") (VStr "30%") = 4%Z
  /\ getConfidence (VStr "47%") (VStr "20%") (VStr "33%") = 3%Z
  /\ getConfidence (VStr "40%") (VStr "25%") (VStr "35%") = 2%Z
  /\ (getConfidence (VStr "40%") (VStr "25%") (VStr "35%")
      <= getConfidence (VStr "47%") (VStr "20%") (VStr "33%"))%Z.
Proof.
  destruct getConfidence_tiers as (T & M & _).
  assert (P50 : parsePct (VStr "50%") = Ok (of_Z 50)) by (vm_compute; reflexivity).
  assert (P20 : parsePct (VStr "20%") = Ok (of_Z 20)) by (vm_compute; reflexivity).
  assert (P30 : parsePct (VStr "30%") = Ok (of_Z 30)) by (vm_compute; reflexivity).
  assert (P47 : parsePct (VStr "47%") = Ok (of_Z 47)) by (vm_compute; reflexivity).
  assert (P33 : parsePct (VStr "33%") = Ok (of_Z 33)) by (vm_compute; reflexivity).
  assert (P40 : parsePct (VStr "40%") = Ok (of_Z 40)) by (vm_compute; reflexivity).
  assert (P25 : parsePct (VStr "25%") = Ok (of_Z 25)) by (vm_compute; reflexivity).
  assert (P35 : parsePct (VStr "35%") = Ok (of_Z 35)) by (vm_compute; reflexivity).
  assert (M50 : is_max3 (of_Z 50) (of_Z 50) (of_Z 20) (of_Z 30)).
  { split; [now left |].
    repeat split; apply AtMost_fin; unfold Qle; simpl; lia. }
  assert (M47 : is_max3 (of_Z 47) (of_Z 47) (of_Z 20) (of_Z 33)).
  { split; [now left |].
    repeat split; apply AtMost_fin; unfold Qle; simpl; lia. }
  assert (M40 : is_max3 (of_Z 40) (of_Z 40) (of_Z 25) (of_Z 35)).
  { split; [now left |].
    repeat split; apply AtMost_fin; unfold Qle; simpl; lia. }
  split; [| split; [| split]].
  - apply (T _ _ _ _ _ _ _ P50 P20 P30 M50).
    apply AtMost_fin. unfold Qle. simpl. lia.
  - apply (T _ _ _ _ _ _ _ P47 P20 P33 M47).
    + apply AtMost_fin. unfold Qle. simpl. lia.
    + apply Below_fin. unfold Qlt. simpl. lia.
  - apply (T _ _ _ _ _ _ _ P40 P25 P35 M40).
    apply Below_fin. unfold Qlt. simpl. lia.
  - apply (M _ _ _ _ _ _ _ _ _ _ _ _ _ _ P40 P25 P35 M40 P47 P20 P33 M47).
    apply AtMost_fin. unfold Qle. simpl. lia.
Defined.

(** ** [determineOverUnder] *)

(** The label read from the advice, when the goal estimates gave none. *)
Lemma determineOverUnder_advice (goalsHome goalsAway : value) (a : string) :
  overUnderFromGoals goalsHome goalsAway = None ->
  determineOverUnder goalsHome goalsAway (VStr a)
  = Ok (if includes "+2.5" a || includes "+3.5" a
        then "Over 2.5" else "Under 2.5").
Proof.
  intros E. unfold determineOverUnder. rewrite E.
  destruct (truthy (VStr a)) eqn:T.
  - cbn [call_includes bind].
    destruct (includes "+2.5" a); cbn [bind orb]; [reflexivity |].
    destruct (includes "+3.5" a); cbn [bind orb]; [reflexivity |].
    destruct (includes "-2.5" a); cbn [bind]; [reflexivity |].
    destruct (includes "-3.5" a); reflexivity.
  - simpl in T. apply negb_false_iff, String.eqb_eq in T. subst a.
    reflexivity.
Qed.

(** What the [try] block returns, by cases on the two goal estimates. *)
Lemma overUnderFromGoals_absent (goalsHome goalsAway : value) :
  truthy goalsHome = false \/ truthy goalsAway = false ->
  overUnderFromGoals goalsHome goalsAway = None.
Proof.
  intros [H | H]; unfold overUnderFromGoals; rewrite H;
    [| rewrite andb_false_r]; reflexivity.
Qed.

Lemma overUnderFromGoals_home (goalsHome goalsAway : value) (th : string) :
  truthy goalsHome = true -> truthy goalsAway = true ->
  toStr goalsHome = Ok th ->
  includes "3.5" th = true ->
  overUnderFromGoals goalsHome goalsAway = Some "Over 2.5".
Proof.
  intros Th Ta Eh H. unfold overUnderFromGoals, either_includes, String_includes.
  rewrite Th, Ta, Eh. cbn [andb bind]. rewrite H. reflexivity.
Qed.

Lemma overUnderFromGoals_texts (goalsHome goalsAway : value) (th ta : string) :
  truthy goalsHome = true -> truthy goalsAway = true ->
  toStr goalsHome = Ok th -> toStr goalsAway = Ok ta ->
  overUnderFromGoals goalsHome goalsAway
  = if includes "3.5" th || includes "3.5" ta then Some "Over 2.5"
    else if includes "2.5" th || includes "2.5" ta then Some "Under 3.5"
    else None.
Proof.
  intros Th Ta Eh Ea. unfold overUnderFromGoals, either_includes, String_includes.
  rewrite Th, Ta, Eh, Ea. cbn [andb bind].
  destruct (includes "3.5" th); cbn [bind orb try_catch]; [reflexivity |].
  destruct (includes "3.5" ta); cbn [bind orb try_catch]; [reflexivity |].
  destruct (includes "2.5" th); cbn [bind orb try_catch]; [reflexivity |].
  destruct (includes "2.5" ta); reflexivity.
Qed.

Lemma overUnderFromGoals_unconvertible (goalsHome goalsAway : value) :
  toStr goalsHome = Throw
  \/ (exists th, toStr goalsHome = Ok th /\ includes "3.5" th = false
                 /\ toStr goalsAway = Throw) ->
  overUnderFromGoals goalsHome goalsAway = None.
Proof.
  intros H. unfold overUnderFromGoals, either_includes, String_includes.
  destruct (truthy goalsHome && truthy goalsAway); [| reflexivity].
  destruct H as [-> | (th & -> & H & ->)]; cbn [bind try_catch];
    [reflexivity |].
  rewrite H. reflexivity.
Qed.

(** C6 as stated fails: a goal estimate that contains "3.5" does not give
    "Over 2.5" when the other side's estimate is absent. *)
Lemma determineOverUnder_needs_both_estimates :
  String_includes (VStr "-3.5") "3.5" = Ok true
  /\ determineOverUnder (VStr "-3.5") VNull (VStr "Double chance : draw or Lille")
     = Ok "Under 2.5"
  /\ determineOverUnder (VStr "-3.5") VNull (VStr "Double chance : draw or Lille")
     <> Ok "Over 2.5".
Proof.
  split; [| split].
  - vm_compute. reflexivity.
  - vm_compute. reflexivity.
  - vm_compute. discriminate.
Qed.

(** C6, amended.  When both goal estimates are present (truthy), with
    [th] and [ta] their texts: "Over 2.5" if either text contains "3.5",
    else "Under 3.5" if either contains "2.5".  When one estimate is
    absent, when neither text matches, or when an estimate that has to be
    read cannot be converted to a text, the advice string decides:
    "Over 2.5" if it contains "+2.5" or "+3.5", otherwise "Under 2.5"
    (whether it contains "-2.5" or "-3.5" or nothing of the kind); an
    absent advice gives "Under 2.5". *)
Theorem determineOverUnder_labels (goalsHome goalsAway advice : value) :
  let present := truthy goalsHome = true /\ truthy goalsAway = true in
  let r := determineOverUnder goalsHome goalsAway advice in
  let by_advice :=
    (forall a, advice = VStr a ->
       (includes "+2.5" a = true \/ includes "+3.5" a = true ->
          r = Ok "Over 2.5")
       /\ (includes "+2.5" a = false -> includes "+3.5" a = false ->
           includes "-2.5" a = true \/ includes "-3.5" a = true ->
           r = Ok "Under 2.5")
       /\ (includes "+2.5" a = false -> includes "+3.5" a = false ->
           r = Ok "Under 2.5"))
    /\ (truthy advice = false -> r = Ok "Under 2.5") in
  (present ->
   forall th, toStr goalsHome = Ok th ->
     (includes "3.5" th = true -> r = Ok "Over 2.5")
     /\ (forall ta, toStr goalsAway = Ok ta ->
          (includes "3.5" ta = true -> r = Ok "Over 2.5")
          /\ (includes "3.5" th = false -> includes "3.5" ta = false ->
              includes "2.5" th = true \/ includes "2.5" ta = true ->
              r = Ok "Under 3.5")
          /\ (includes "3.5" th = false -> includes "3.5" ta = false ->
              includes "2.5" th = false -> includes "2.5" ta = false ->
              by_advice)))
  /\ (~ present -> by_advice)
  /\ (toStr goalsHome = Throw
      \/ (exists th, toStr goalsHome = Ok th /\ includes "3.5" th = false
                     /\ toStr goalsAway = Throw) ->
      by_advice).
Proof.
  intros present r by_advice.
  assert (A : overUnderFromGoals goalsHome goalsAway = None -> by_advice).
  { intros E. subst by_advice r. cbv beta. split.
    - intros a ->. rewrite (determineOverUnder_advice _ _ _ E).
      split; [| split].
      + intros [-> | ->]; [reflexivity | now rewrite orb_true_r].
      + intros -> ->. reflexivity.
      + intros -> ->. reflexivity.
    - intros T. unfold determineOverUnder. rewrite E, T. reflexivity. }
  split; [| split].
  - intros [Ph Pa] th Eh. split.
    + intros H. subst r. unfold determineOverUnder.
      now rewrite (overUnderFromGoals_home _ _ _ Ph Pa Eh H).
    + intros ta Ea.
      pose proof (overUnderFromGoals_texts _ _ _ _ Ph Pa Eh Ea) as E.
      split; [| split].
      * intros H. subst r. unfold determineOverUnder.
        rewrite E, H, orb_true_r. reflexivity.
      * intros H1 H2 H. subst r. unfold determineOverUnder.
        rewrite E, H1, H2. cbn [orb].
        destruct H as [-> | ->]; [reflexivity | now rewrite orb_true_r].
      * intros H1 H2 H3 H4. apply A. rewrite E, H1, H2, H3, H4. reflexivity.
  - intros N. apply A. apply overUnderFromGoals_absent. subst present.
    destruct (truthy goalsHome); [| now left].
    destruct (truthy goalsAway); [| now right].
    exfalso. apply N. split; reflexivity.
  - intros H. apply A. now apply overUnderFromGoals_unconvertible.
Qed.

Lemma determineOverUnder_labels_witness :
  determineOverUnder (VStr "-3.5") (VStr "-1.5") (VStr "Winner : Lille")
  = Ok "Over 2.5"
  /\ determineOverUnder (VStr "-2.5") (VStr "-1.5") (VStr "Winner : Lille")
     = Ok "Under 3.5"
  /\ determineOverUnder (VStr "-1.5") VNull
       (VStr "Combo Winner : Lille and +2.5 goals")
     = Ok "Over 2.5".
Proof.
  split; [| split].
  - destruct (determineOverUnder_labels (VStr "-3.5") (VStr "-1.5")
                (VStr "Winner : Lille")) as (H1 & _).
    destruct (H1 (conj eq_refl eq_refl) "-3.5" eq_refl) as (H & _).
    apply H. vm_compute. reflexivity.
  - destruct (determineOverUnder_labels (VStr "-2.5") (VStr "-1.5")
                (VStr "Winner : Lille")) as (H1 & _).
    destruct (H1 (conj eq_refl eq_refl) "-2.5" eq_refl) as (_ & H).
    destruct (H "-1.5" eq_refl) as (_ & H2 & _).
    apply H2.
    + vm_compute. reflexivity.
    + vm_compute. reflexivity.
    + left. vm_compute. reflexivity.
  - destruct (determineOverUnder_labels (VStr "-1.5") VNull
                (VStr "Combo Winner : Lille and +2.5 goals"))
      as (_ & H2 & _).
    destruct H2 as (Ha & _).
    + intros [_ H]. simpl in H. discriminate.
    + destruct (Ha _ eq_refl) as (Hplus & _).
      apply Hplus. left. vm_compute. reflexivity.
Defined.

(** ** [determineBTTS] *)

Lemma average_default_zero (teams : value) (side kind split : string) :
  truthy (opt_chain teams [side; "league"; "goals"; kind; "average"; split])
  = false ->
  average teams side kind split (of_Z 0) = Ok (of_Z 0).
Proof.
  intros H. unfold average, or_else. rewrite H. vm_compute. reflexivity.
Qed.

(** An average whose field is a string is what [parseFloat] reads in it. *)
Lemma average_of_text (teams : value) (side kind split : string)
    (dflt : number) (s : string) :
  opt_chain teams [side; "league"; "goals"; kind; "average"; split] = VStr s ->
  s <> "" ->
  average teams side kind split dflt = Ok (parseFloat s).
Proof.
  intros E N. unfold average, or_else, parseFloatV. rewrite E.
  cbn [truthy]. destruct (String.eqb s "") eqn:Q.
  - apply String.eqb_eq in Q. contradiction.
  - reflexivity.
Qed.

(** C7.  With the four averages read from [teams] (goals for and against,
    home and away side, the [total] split): "Oui" when all four exceed 0.8;
    otherwise "Non" when one of the two against-averages is below 0.5;
    otherwise "Oui" when both for-averages exceed 1; otherwise "Non".  An
    average whose field is missing (or falsy) is 0, one whose field is a
    text is the number read in the text, and when a field cannot be
    converted to a text at all the answer is the "Non" of the [catch]. *)
Theorem determineBTTS_rule (teams comparison : value) :
  let r := determineBTTS teams comparison in
  (forall homeGoalsFor awayGoalsFor homeGoalsAgainst awayGoalsAgainst,
      average teams "home" "for" "total" (of_Z 0) = Ok homeGoalsFor ->
      average teams "away" "for" "total" (of_Z 0) = Ok awayGoalsFor ->
      average teams "home" "against" "total" (of_Z 0) = Ok homeGoalsAgainst ->
      average teams "away" "against" "total" (of_Z 0) = Ok awayGoalsAgainst ->
      let all_open :=
        Above homeGoalsFor (literal 8 (-1))
        /\ Above awayGoalsFor (literal 8 (-1))
        /\ Above homeGoalsAgainst (literal 8 (-1))
        /\ Above awayGoalsAgainst (literal 8 (-1)) in
      let solid_defence :=
        Below homeGoalsAgainst (literal 5 (-1))
        \/ Below awayGoalsAgainst (literal 5 (-1)) in
      let both_attack :=
        Above homeGoalsFor (of_Z 1) /\ Above awayGoalsFor (of_Z 1) in
      (all_open -> r = "Oui")
      /\ (~ all_open -> solid_defence -> r = "Non")
      /\ (~ all_open -> ~ solid_defence -> both_attack -> r = "Oui")
      /\ (~ all_open -> ~ solid_defence -> ~ both_attack -> r = "Non"))
  /\ (forall side kind split,
        truthy (opt_chain teams [side; "league"; "goals"; kind; "average"; split])
        = false ->
        average teams side kind split (of_Z 0) = Ok (of_Z 0))
  /\ (forall side kind split s,
        opt_chain teams [side; "league"; "goals"; kind; "average"; split]
        = VStr s ->
        s <> "" ->
        average teams side kind split (of_Z 0) = Ok (parseFloat s))
  /\ (average teams "home" "for" "total" (of_Z 0) = Throw
      \/ average teams "away" "for" "total" (of_Z 0) = Throw
      \/ average teams "home" "against" "total" (of_Z 0) = Throw
      \/ average teams "away" "against" "total" (of_Z 0) = Throw ->
      r = "Non").
Proof.
  intros r. subst r.
  split; [| split; [| split]].
  - intros hf af ha aa Ehf Eaf Eha Eaa all_open solid_defence both_attack.
    subst all_open solid_defence both_attack.
    unfold determineBTTS. rewrite Ehf, Eaf, Eha, Eaa.
    unfold Above, gt. cbn [bind try_catch].
    set (c1 := lt (literal 8 (-1)) hf && lt (literal 8 (-1)) af
               && lt (literal 8 (-1)) ha && lt (literal 8 (-1)) aa).
    set (c2 := lt ha (literal 5 (-1)) || lt aa (literal 5 (-1))).
    set (c3 := lt (of_Z 1) hf && lt (of_Z 1) af).
    assert (R1 : c1 = true <->
                 Below (literal 8 (-1)) hf /\ Below (literal 8 (-1)) af
                 /\ Below (literal 8 (-1)) ha /\ Below (literal 8 (-1)) aa).
    { unfold c1. rewrite !andb_true_iff, !lt_iff. tauto. }
    assert (R2 : c2 = true <->
                 Below ha (literal 5 (-1)) \/ Below aa (literal 5 (-1))).
    { unfold c2. rewrite orb_true_iff, !lt_iff. tauto. }
    assert (R3 : c3 = true <-> Below (of_Z 1) hf /\ Below (of_Z 1) af).
    { unfold c3. rewrite andb_true_iff, !lt_iff. tauto. }
    destruct c1, c2, c3;
      (split; [| split; [| split]]);
      intros; try reflexivity; exfalso;
      intuition congruence.
  - intros side kind split. apply average_default_zero.
  - intros side kind split s. apply average_of_text.
  - intros H. unfold determineBTTS.
    destruct (average teams "home" "for" "total" (of_Z 0)) as [hf |];
      [| reflexivity].
    destruct (average teams "away" "for" "total" (of_Z 0)) as [af |];
      [| reflexivity].
    destruct (average teams "home" "against" "total" (of_Z 0)) as [ha |];
      [| reflexivity].
    destruct (average teams "away" "against" "total" (of_Z 0)) as [aa |];
      [| reflexivity].
    exfalso. destruct H as [H | [H | [H | H]]]; discriminate H.
Qed.

Lemma determineBTTS_rule_witness :
  determineBTTS Samples.open_match VUndef = "Oui".
Proof.
  destruct (determineBTTS_rule Samples.open_match VUndef) as (H1 & _).
  assert (E : forall side kind s,
             opt_chain Samples.open_match
               [side; "league"; "goals"; kind; "average"; "total"] = VStr s ->
             s <> "" ->
             average Samples.open_match side kind "total" (of_Z 0)
             = Ok (parseFloat s)).
  { intros side kind s. apply average_of_text. }
  destruct (H1 (parseFloat "1.6") (parseFloat "0.9")
               (parseFloat "1.1") (parseFloat "1.4")) as (H & _).
  - apply E; [reflexivity | discriminate].
  - apply E; [reflexivity | discriminate].
  - apply E; [reflexivity | discriminate].
  - apply E; [reflexivity | discriminate].
  - apply H. unfold Above.
    split; [| split; [| split]]; apply lt_iff; vm_compute; reflexivity.
Defined.

(** ** [determineExactScore] *)

(** *** Integers stay integers *)

Lemma Qred_inject_Z (z : Z) : Qred (inject_Z z) = inject_Z z.
Proof. apply Qred_identity. simpl. apply Z.gcd_1_r. Qed.

Lemma round_double_Qeq (x y : Q) : (x == y)%Q -> round_double x = round_double y.
Proof. intros H. unfold round_double. now rewrite (Qred_complete _ _ H). Qed.

Lemma round_half_even_unit (n : Z) : round_half_even n 1 = n.
Proof.
  unfold round_half_even. rewrite Z.div_1_r, Z.mod_1_r. reflexivity.
Qed.

(** The significand computed for an integer denotes an integer again,
    whatever the exponent. *)
Lemma dyadic_of_integer (z e : Z) :
  exists z' : Z,
    (dyadic (Z.sgn z * round_half_even (scaled_num (Z.abs z) e) (scaled_den 1 e)) e
     == inject_Z z')%Q.
Proof.
  unfold dyadic. destruct (0 <=? e)%Z eqn:E.
  - eexists. reflexivity.
  - apply Z.leb_gt in E. exists z.
    unfold scaled_num, scaled_den.
    rewrite (Z.max_l 0 e) by lia. rewrite (Z.max_r 0 (- e)) by lia.
    rewrite Z.pow_0_r, Z.mul_1_r, round_half_even_unit.
    rewrite Qred_correct. unfold Qeq, inject_Z. cbn [Qnum Qden].
    assert (P : (0 < 2 ^ (- e))%Z) by (apply Z.pow_pos_nonneg; lia).
    rewrite Z2Pos.id by exact P.
    generalize (2 ^ (- e))%Z. intros k.
    destruct z; cbn [Z.sgn Z.abs]; lia.
Qed.

Lemma round_double_integral (z : Z) : integral (round_double (inject_Z z)).
Proof.
  unfold round_double. rewrite Qred_inject_Z.
  change (Qnum (inject_Z z)) with z. change (QDen (inject_Z z)) with 1%Z.
  assert (G : forall e : Z,
             integral
               (if (1024 <=? Z.log2 (round_half_even (scaled_num (Z.abs z) e)
                                                     (scaled_den 1 e)) + e)%Z
                then (if (z <? 0)%Z then NInf else PInf)
                else Fin (dyadic (Z.sgn z * round_half_even
                                    (scaled_num (Z.abs z) e) (scaled_den 1 e)) e))).
  { intros e. destruct (1024 <=? _)%Z.
    - destruct (z <? 0)%Z; unfold integral; tauto.
    - destruct (dyadic_of_integer z e) as [z' Hz'].
      right. right. eexists. exists z'. split; [reflexivity | exact Hz']. }
  destruct z; [| apply G | apply G].
  right. right. exists 0%Q, 0%Z. split; reflexivity.
Qed.

Lemma integral_not_NaN (x : number) : integral x -> x <> NaN.
Proof.
  intros [-> | [-> | (q & z & -> & _)]]; discriminate.
Qed.

Lemma Math_round_integral (x : number) : x <> NaN -> integral (Math_round x).
Proof.
  destruct x; simpl; intros H; unfold integral; try tauto.
  right. right. eexists. eexists. split; reflexivity.
Qed.

Lemma add_one_integral (x : number) : integral x -> integral (add x (of_Z 1)).
Proof.
  intros [-> | [-> | (q & z & -> & E)]]; simpl; unfold integral; try tauto.
  fold (integral (round_double (q + inject_Z 1))).
  rewrite (round_double_Qeq _ (inject_Z (z + 1))).
  - apply round_double_integral.
  - rewrite E, inject_Z_plus. reflexivity.
Qed.

Lemma Math_max_integral (a b : number) :
  integral a -> integral b -> integral (Math_max a b).
Proof.
  intros Ha Hb.
  destruct (Math_max_spec a b (integral_not_NaN _ Ha) (integral_not_NaN _ Hb))
    as ([-> | ->] & _); assumption.
Qed.

(** After [Math.min(Math.max(x, 0), hi)] an integer lies in [[0, hi]]. *)
Lemma clamp_integral (x : number) (hi : Z) :
  (0 <= hi)%Z -> integral x ->
  exists (q : Q) (z : Z),
    clamp x hi = Fin q /\ (q == inject_Z z)%Q /\ (0 <= z <= hi)%Z.
Proof.
  intros Hhi Hx. unfold clamp.
  assert (Hlo : Math_max x (of_Z 0) = PInf
                \/ exists (q : Q) (z : Z),
                     Math_max x (of_Z 0) = Fin q
                     /\ (q == inject_Z z)%Q /\ (0 <= z)%Z).
  { destruct Hx as [-> | [-> | (q & z & -> & E)]].
    - left. reflexivity.
    - right. exists (inject_Z 0), 0%Z. repeat split; try reflexivity.
    - right. cbn [Math_max lt of_Z]. destruct (Qltb q (inject_Z 0)) eqn:L.
      + exists (inject_Z 0), 0%Z. repeat split; try reflexivity.
      + exists q, z. repeat split; try assumption.
        assert (N : ~ (q < inject_Z 0)%Q)
          by (intro H; apply Qltb_iff in H; congruence).
        rewrite E in N. rewrite <- Zlt_Qlt in N. lia. }
  destruct Hlo as [-> | (q & z & -> & E & Hz)].
  { exists (inject_Z hi), hi. repeat split; try reflexivity; lia. }
  cbn [Math_min lt of_Z]. destruct (Qltb (inject_Z hi) q) eqn:L.
  - exists (inject_Z hi), hi. repeat split; try reflexivity; lia.
  - exists q, z. repeat split; try assumption.
    assert (N : ~ (inject_Z hi < q)%Q)
      by (intro H; apply Qltb_iff in H; congruence).
    rewrite E in N. rewrite <- Zlt_Qlt in N. lia.
Qed.

(** [String] of a small natural number is its digit. *)
Lemma number_to_string_small (q : Q) (z : Z) :
  (q == inject_Z z)%Q -> (0 <= z <= 4)%Z ->
  number_to_string (Fin q) = digits_of z.
Proof.
  intros E Hz.
  assert (R : number_to_string (Fin q) = number_to_string (Fin (inject_Z z))).
  { unfold number_to_string. now rewrite (Qred_complete _ _ E). }
  rewrite R.
  assert (C : (z = 0 \/ z = 1 \/ z = 2 \/ z = 3 \/ z = 4)%Z) by lia.
  destruct C as [-> | [-> | [-> | [-> | ->]]]]; vm_compute; reflexivity.
Qed.

(** The score once the two averages are read. *)
Lemma determineExactScore_read (prediction teams goalsHome goalsAway : value)
    (homeAvgFor awayAvgFor : number) :
  average teams "home" "for" "home" (literal 12 (-1)) = Ok homeAvgFor ->
  average teams "away" "for" "away" (literal 9 (-1)) = Ok awayAvgFor ->
  determineExactScore prediction teams goalsHome goalsAway
  = let h0 := Math_round homeAvgFor in
    let a0 := Math_round awayAvgFor in
    let '(h, a) :=
      if is_string prediction "1" || is_string prediction "1X" then
        (Math_max h0 (add a0 (of_Z 1)), a0)
      else if is_string prediction "2" || is_string prediction "X2" then
        (h0, Math_max a0 (add h0 (of_Z 1)))
      else if is_string prediction "X" then (h0, h0)
      else (h0, a0) in
    number_to_string (clamp h 4) ++ "-" ++ number_to_string (clamp a 3).
Proof.
  intros Eh Ea. unfold determineExactScore. rewrite Eh, Ea.
  cbn [bind]. cbv zeta.
  destruct (is_string prediction "1" || is_string prediction "1X");
    [reflexivity |].
  destruct (is_string prediction "2" || is_string prediction "X2");
    [reflexivity |].
  destruct (is_string prediction "X"); reflexivity.
Qed.

(** The score when an average cannot be read at all. *)
Lemma determineExactScore_unread (prediction teams goalsHome goalsAway : value) :
  average teams "home" "for" "home" (literal 12 (-1)) = Throw
  \/ average teams "away" "for" "away" (literal 9 (-1)) = Throw ->
  determineExactScore prediction teams goalsHome goalsAway = "1-1".
Proof.
  intros H. unfold determineExactScore.
  destruct (average teams "home" "for" "home" (literal 12 (-1))) as [h |];
    [| reflexivity].
  destruct (average teams "away" "for" "away" (literal 9 (-1))) as [a |];
    [| reflexivity].
  exfalso. destruct H as [H | H]; discriminate H.
Qed.

(** When neither average is NaN the score is in range: the clamps do
    what their comment says. *)
Lemma determineExactScore_in_range (prediction teams goalsHome goalsAway : value) :
  average teams "home" "for" "home" (literal 12 (-1)) <> Ok NaN ->
  average teams "away" "for" "away" (literal 9 (-1)) <> Ok NaN ->
  exists H A : Z,
    (0 <= H <= 4)%Z /\ (0 <= A <= 3)%Z
    /\ determineExactScore prediction teams goalsHome goalsAway
       = digits_of H ++ "-" ++ digits_of A.
Proof.
  intros Nh Na.
  destruct (average teams "home" "for" "home" (literal 12 (-1)))
    as [h |] eqn:Eh.
  2:{ exists 1%Z, 1%Z. split; [lia |]. split; [lia |].
      apply determineExactScore_unread. now left. }
  destruct (average teams "away" "for" "away" (literal 9 (-1)))
    as [a |] eqn:Ea.
  2:{ exists 1%Z, 1%Z. split; [lia |]. split; [lia |].
      apply determineExactScore_unread. now right. }
  rewrite (determineExactScore_read _ _ _ _ _ _ Eh Ea). cbv zeta.
  assert (Nh' : h <> NaN) by congruence.
  assert (Na' : a <> NaN) by congruence.
  pose proof (Math_round_integral _ Nh') as Ih.
  pose proof (Math_round_integral _ Na') as Ia.
  set (h0 := Math_round h) in *.
  set (a0 := Math_round a) in *.
  assert (G : forall h a, integral h -> integral a ->
            exists H A : Z,
              (0 <= H <= 4)%Z /\ (0 <= A <= 3)%Z
              /\ number_to_string (clamp h 4) ++ "-" ++ number_to_string (clamp a 3)
                 = digits_of H ++ "-" ++ digits_of A).
  { intros h' a' Hh Ha.
    destruct (clamp_integral h' 4 ltac:(lia) Hh) as (qh & zh & -> & Eh' & Rh).
    destruct (clamp_integral a' 3 ltac:(lia) Ha) as (qa & za & -> & Ea' & Ra).
    exists zh, za. repeat split; try lia.
    rewrite (number_to_string_small _ _ Eh') by lia.
    rewrite (number_to_string_small _ _ Ea') by lia.
    reflexivity. }
  destruct (is_string prediction "1" || is_string prediction "1X").
  { apply G; [apply Math_max_integral; [| apply add_one_integral] |]; assumption. }
  destruct (is_string prediction "2" || is_string prediction "X2").
  { apply G; [| apply Math_max_integral; [| apply add_one_integral]]; assumption. }
  destruct (is_string prediction "X"); apply G; assumption.
Qed.

(** C8.  With a home-scoring average that is text but not a number, the
    score is "NaN-1": the home component is outside [[0, 4]].  NaN passes
    through [Math.round], [Math.max] and [Math.min] without an exception,
    so neither the clamps nor the [catch] with its "1-1" apply. *)
Theorem determineExactScore_NaN :
  average Samples.unparsable_home "home" "for" "home" (literal 12 (-1)) = Ok NaN
  /\ determineExactScore (VStr "1") Samples.unparsable_home VUndef VUndef
     = "NaN-1"
  /\ ~ (exists H A : Z,
          (0 <= H <= 4)%Z /\ (0 <= A <= 3)%Z
          /\ determineExactScore (VStr "1") Samples.unparsable_home VUndef VUndef
             = digits_of H ++ "-" ++ digits_of A).
Proof.
  split; [| split].
  - vm_compute. reflexivity.
  - vm_compute. reflexivity.
  - intros (H & A & RH & RA & E).
    assert (V : determineExactScore (VStr "1") Samples.unparsable_home VUndef VUndef
                = "NaN-1") by (vm_compute; reflexivity).
    rewrite V in E.
    assert (C : (H = 0 \/ H = 1 \/ H = 2 \/ H = 3 \/ H = 4)%Z) by lia.
    destruct C as [-> | [-> | [-> | [-> | ->]]]];
      [ change (digits_of 0) with "0" in E
      | change (digits_of 1) with "1" in E
      | change (digits_of 2) with "2" in E
      | change (digits_of 3) with "3" in E
      | change (digits_of 4) with "4" in E ];
      cbn [append] in E; discriminate E.
Qed.

(** C10.  With the prediction "X", whenever the home team's home-scoring
    average rounds to 4 (and the away average can be read, as it can
    whenever it is absent, a number or a text) the score is "4-3": the
    away goals are set equal to the home goals first and the two different
    caps are applied after, so a predicted draw comes with a score that is
    not a draw. *)
Theorem determineExactScore_draw_not_level (teams goalsHome goalsAway : value)
    (homeAvgFor awayAvgFor : number) :
  average teams "home" "for" "home" (literal 12 (-1)) = Ok homeAvgFor ->
  average teams "away" "for" "away" (literal 9 (-1)) = Ok awayAvgFor ->
  Math_round homeAvgFor = of_Z 4 ->
  determineExactScore (VStr "X") teams goalsHome goalsAway = "4-3".
Proof.
  intros Eh Ea H.
  rewrite (determineExactScore_read _ _ _ _ _ _ Eh Ea). cbv zeta.
  rewrite H. generalize (Math_round awayAvgFor).
  intros awayGoals. vm_compute. reflexivity.
Qed.

Lemma determineExactScore_draw_not_level_witness :
  determineExactScore (VStr "X") Samples.prolific_home VUndef VUndef = "4-3".
Proof.
  apply (determineExactScore_draw_not_level Samples.prolific_home VUndef VUndef
           (parseFloat "3.6") (parseFloat "0.7")).
  - apply average_of_text; [reflexivity | discriminate].
  - apply average_of_text; [reflexivity | discriminate].
  - vm_compute. reflexivity.
Defined.

(** ** The handler *)

Import Handler FixtureView.

Lemma map_all_spec {A B : Type} (f : A -> net B) (url : A -> list string)
    (l : list A) :
  (forall x log, snd (f x log) = (log ++ url x)%list) ->
  forall log,
    snd (map_all f l log) = (log ++ flat_map url l)%list
    /\ List.length (fst (map_all f l log)) = List.length l.
Proof.
  intros Hf. induction l as [| x l IH]; intros log.
  - simpl. rewrite app_nil_r. split; reflexivity.
  - cbn [map_all flat_map List.length]. unfold andThen, ret. cbv beta.
    specialize (Hf x log).
    destruct (f x log) as [y log1]. cbn [snd] in Hf. subst log1.
    specialize (IH (log ++ url x)%list).
    destruct (map_all f l (log ++ url x)%list) as [ys log2].
    cbn [fst snd List.length] in *. destruct IH as [-> IH].
    rewrite <- app_assoc.
    split; congruence.
Qed.

(** [fetchPrediction] issues its one request exactly when the id can be
    converted. *)
Lemma fetchPrediction_log (w : world) (fixtureId : value)
    (fixtureInfo : fixture_info) (log : list string) :
  snd (fetchPrediction w fixtureId fixtureInfo log)
  = (log ++ request_of fixtureId)%list.
Proof.
  unfold fetchPrediction, request_of, andThen, fetch_json, ret.
  destruct (predictions_url fixtureId) as [url |].
  - destruct (respond w log url) as [data |]; cbn [bind].
    + destruct (classify fixtureId fixtureInfo data); reflexivity.
    + destruct (error_message fixtureId); reflexivity.
  - destruct (error_message fixtureId); cbn; now rewrite app_nil_r.
Qed.

(** The promise is rejected exactly when the id cannot be converted. *)
Lemma fetchPrediction_rejected_iff (w : world) (fixtureId : value)
    (fixtureInfo : fixture_info) (log : list string) :
  fst (fetchPrediction w fixtureId fixtureInfo log) = Throw
  <-> toStr fixtureId = Throw.
Proof.
  unfold fetchPrediction, predictions_url, error_message, andThen,
    fetch_json, ret.
  destruct (toStr fixtureId) as [s |]; cbn [bind fst].
  - split; [| discriminate].
    destruct (respond w log _) as [data |]; cbn [bind].
    + destruct (classify fixtureId fixtureInfo data); cbn; discriminate.
    + cbn. discriminate.
  - split; reflexivity.
Qed.

Lemma Promise_all_ok {A : Type} (results : list (result A)) (xs : list A) :
  Promise_all results = Ok xs -> results = map Ok xs.
Proof.
  revert xs. induction results as [| r rest IH]; intros xs H.
  - injection H as <-. reflexivity.
  - cbn [Promise_all] in H. destruct r as [x |]; [| discriminate H].
    cbn [bind] in H.
    destruct (Promise_all rest) as [ys |]; [| discriminate H].
    injection H as <-. cbn [map]. now rewrite (IH ys eq_refl).
Qed.

Lemma Promise_all_throw_iff {A : Type} (results : list (result A)) :
  Promise_all results = Throw <-> In Throw results.
Proof.
  induction results as [| r rest IH]; cbn [Promise_all In].
  - split; [discriminate | tauto].
  - destruct r as [x |]; cbn [bind].
    + destruct (Promise_all rest) as [ys |].
      * split; [discriminate |]. intros [H | H]; [discriminate H |].
        apply IH in H. discriminate H.
      * split; [| reflexivity]. intros _. right. now apply IH.
    + split; [now left | reflexivity].
Qed.

Lemma non_null_length (results : list (option row)) :
  (List.length (non_null results) <= List.length results)%nat.
Proof.
  induction results as [| [r |] rest IH]; simpl; lia.
Qed.

Lemma insert_by_length (w : world) (r : row) (sorted : list row) :
  List.length (insert_by w r sorted) = S (List.length sorted).
Proof.
  induction sorted as [| x rest IH]; simpl; [reflexivity |].
  destruct (localeCompare w (time r) (time x) <? 0)%Z; simpl; congruence.
Qed.

Lemma sort_by_time_length (w : world) (rows : list row) :
  List.length (sort_by_time w rows) = List.length rows.
Proof.
  unfold sort_by_time.
  assert (G : forall acc,
             List.length (fold_left (fun acc r => insert_by w r acc) rows acc)
             = (List.length acc + List.length rows)%nat).
  { induction rows as [| r rows IH]; intros acc; simpl; [lia |].
    rewrite IH, insert_by_length. lia. }
  now rewrite G.
Qed.

(** Every request for a prediction is recognised as one, and there is at
    most one for each chosen fixture. *)
Lemma prediction_requests_all (chosen : list fixture_info) :
  filter is_prediction_request (requests_for chosen) = requests_for chosen
  /\ (List.length (requests_for chosen) <= List.length chosen)%nat.
Proof.
  unfold requests_for.
  induction chosen as [| fx chosen [IH1 IH2]]; [split; [reflexivity | simpl; lia] |].
  cbn [flat_map List.length]. rewrite filter_app, IH1, length_app.
  unfold request_of at 1 3 5. unfold predictions_url.
  destruct (toStr (fix_id fx)) as [i |]; cbn [bind filter app List.length].
  - assert (E : is_prediction_request
                  (BASE_URL ++ "/predictions?fixture=" ++ i) = true).
    { unfold is_prediction_request, BASE_URL. cbn. destruct i; reflexivity. }
    rewrite E. split; [reflexivity | lia].
  - split; [reflexivity | lia].
Qed.

(** What [handler] does once the fixtures have arrived: it asks for the
    predictions of at most 25 fixtures, and answers with at most that
    many rows, under the date it was given. *)
Lemma respond_with_spec (w : world) (date : string)
    (fixturesData : result value) (log : list string) :
  exists chosen : list fixture_info,
    (List.length chosen <= 25)%nat
    /\ snd (respond_with w date fixturesData log)
       = (log ++ requests_for chosen)%list
    /\ (forall d n rows,
          resp_body (fst (respond_with w date fixturesData log))
          = PredictionsBody d n rows ->
          d = date /\ n = List.length rows /\ (List.length rows <= 25)%nat).
Proof.
  unfold respond_with.
  destruct (bind fixturesData _) as [[important |] |].
  - exists (firstn 25 important).
    assert (L : (List.length (firstn 25 important) <= 25)%nat)
      by apply firstn_le_length.
    split; [exact L |].
    unfold andThen.
    destruct (map_all_spec
                (fun fx => fetchPrediction w (fix_id fx) fx)
                (fun fx => request_of (fix_id fx))
                (firstn 25 important)
                (fun x lg => fetchPrediction_log w (fix_id x) x lg) log)
      as [Hlog Hlen].
    destruct (map_all _ (firstn 25 important) log) as [promises log'].
    cbn [fst snd] in *.
    destruct (Promise_all promises) as [results |] eqn:P; cbn [ret fst snd].
    + split; [exact Hlog |].
      intros d n rows E. cbn [resp_body] in E. injection E as <- <- <-.
      rewrite sort_by_time_length. split; [reflexivity |].
      split; [reflexivity |].
      apply Promise_all_ok in P. subst promises. rewrite length_map in Hlen.
      pose proof (non_null_length results). lia.
    + split; [exact Hlog |]. intros d n rows E. discriminate E.
  - exists []. cbn. rewrite app_nil_r. split; [lia |]. split; [reflexivity |].
    intros d n rows E. injection E as <- <- <-. simpl. repeat split; lia.
  - exists []. cbn. rewrite app_nil_r. split; [lia |]. split; [reflexivity |].
    intros d n rows E. discriminate E.
Qed.

(** On a day with thirty important fixtures the cap is reached: one
    request for the fixtures, then exactly 25 for predictions, and 25 rows. *)
Example handler_busy_day :
  let (resp, log) := handler Samples.busy_day Samples.get_predictions [] in
  List.length log = 26%nat
  /\ List.length (filter is_prediction_request log) = 25%nat
  /\ statusCode resp = 200%Z
  /\ match resp_body resp with
     | PredictionsBody d n rows => n = 25%nat /\ List.length rows = 25%nat
     | _ => False
     end.
Proof. vm_compute. repeat split; reflexivity. Qed.

(* ================================================================== *)
(** * Further properties *)
(* ================================================================== *)

Import Shapes FixtureView.

(** ** What [determinePrediction] can return *)

Lemma parsePct_throw_iff (pct : value) :
  parsePct pct = Throw <-> ~ is_text pct.
Proof.
  unfold parsePct, is_text. split.
  - intros H [s ->]. discriminate H.
  - intros H. destruct pct; try reflexivity. exfalso. apply H. now exists s.
Qed.

Lemma call_includes_throw_iff (v : value) (s : string) :
  call_includes v s = Throw <-> ~ has_includes v.
Proof.
  unfold has_includes. split.
  - intros H [[t ->] | [xs ->]]; discriminate H.
  - intros H. destruct v; try reflexivity; exfalso; apply H; eauto.
Qed.

Lemma some_bigClubs_throw_iff (homeName : value) :
  some (fun club => call_includes homeName club) bigClubs = Throw
  <-> ~ has_includes homeName.
Proof.
  split.
  - intros H [[t ->] | [xs ->]].
    + rewrite some_includes_string in H. discriminate H.
    + unfold bigClubs in H. cbn [some call_includes bind] in H.
      repeat match type of H with
             | context [if ?b then _ else _] => destruct b
             end; discriminate H.
  - intros H. apply (call_includes_throw_iff homeName "Al Ahly") in H.
    unfold bigClubs. cbn [some bind]. now rewrite H.
Qed.

(** A [return] with a template literal either throws or returns its
    code. *)
Lemma returns_cases (code : string) (txt : result string) :
  (txt = Throw /\ returns code txt = Throw)
  \/ exists t, txt = Ok t
               /\ returns code txt = Ok {| prediction := code; text := t |}.
Proof.
  destruct txt as [t |]; [right; now exists t | left; split; reflexivity].
Qed.

Ltac returns_case code txt :=
  let t := fresh "t" in
  let E := fresh "E" in
  destruct (returns_cases code txt) as [[E ->] | (t & E & ->)];
  cbn [try_catch prediction text].

Lemma prediction_in_codes
    (homePct awayPct drawPct homeName awayName : value) :
  In (prediction
        (determinePrediction homePct awayPct drawPct homeName awayName))
     outcome_codes.
Proof.
  unfold determinePrediction, outcome_codes.
  destruct (parsePct homePct) as [home |]; cbn [bind try_catch];
    [| cbn; tauto].
  destruct (parsePct awayPct) as [away |]; cbn [bind try_catch];
    [| cbn; tauto].
  destruct (parsePct drawPct) as [draw |]; cbn [bind try_catch];
    [| cbn; tauto].
  destruct (ge home (of_Z 45) && le away (of_Z 10)).
  { returns_case "1" (gagne homeName); cbn; tauto. }
  destruct (ge away (of_Z 45) && le home (of_Z 10)).
  { destruct (some _ bigClubs) as [[|] |]; cbn [bind try_catch];
      [ returns_case "1X" (DC homeName)
      | returns_case "2" (gagne awayName) | ]; cbn; tauto. }
  destruct (ge home (of_Z 35) && ge draw (of_Z 35)).
  { returns_case "1X" (DC homeName); cbn; tauto. }
  destruct (ge away (of_Z 35) && ge draw (of_Z 35)).
  { returns_case "X2" (DC awayName); cbn; tauto. }
  destruct (ge draw (of_Z 40)); [cbn; tauto |].
  destruct (gt home away);
    [ returns_case "1X" (DC homeName) | returns_case "X2" (DC awayName) ];
    cbn; tauto.
Qed.

(** X1.  Every result carries one of the five outcome codes, and the two
    straight wins certify their rule: "1" is only returned when the three
    percentages parse and rule 1 holds of them, "2" only when they parse
    and rule 2 holds. *)
Theorem determinePrediction_codes
    (homePct awayPct drawPct homeName awayName : value) :
  let r := determinePrediction homePct awayPct drawPct homeName awayName in
  In (prediction r) outcome_codes
  /\ (prediction r = "1" ->
      exists home away draw,
        parsePct homePct = Ok home /\ parsePct awayPct = Ok away
        /\ parsePct drawPct = Ok draw
        /\ rule1 home away)
  /\ (prediction r = "2" ->
      exists home away draw,
        parsePct homePct = Ok home /\ parsePct awayPct = Ok away
        /\ parsePct drawPct = Ok draw
        /\ rule2 home away).
Proof.
  intros r. split; [apply prediction_in_codes |].
  subst r. unfold determinePrediction.
  destruct (parsePct homePct) as [home |]; cbn [bind try_catch];
    [| cbn; split; discriminate].
  destruct (parsePct awayPct) as [away |]; cbn [bind try_catch];
    [| cbn; split; discriminate].
  destruct (parsePct drawPct) as [draw |]; cbn [bind try_catch];
    [| cbn; split; discriminate].
  unfold ge.
  destruct (le (of_Z 45) home && le away (of_Z 10)) eqn:R1.
  { apply andb_true_iff in R1. destruct R1 as [A B].
    apply le_iff in A. apply le_iff in B.
    split; [| returns_case "1" (gagne homeName); discriminate].
    intros _. exists home, away, draw. repeat split; assumption. }
  destruct (le (of_Z 45) away && le home (of_Z 10)) eqn:R2.
  { apply andb_true_iff in R2. destruct R2 as [A B].
    apply le_iff in A. apply le_iff in B.
    split.
    - destruct (some _ bigClubs) as [[|] |]; cbn [bind try_catch];
        [ returns_case "1X" (DC homeName)
        | returns_case "2" (gagne awayName) | ]; discriminate.
    - intros _. exists home, away, draw. repeat split; assumption. }
  destruct (le (of_Z 35) home && le (of_Z 35) draw).
  { returns_case "1X" (DC homeName); split; discriminate. }
  destruct (le (of_Z 35) away && le (of_Z 35) draw).
  { returns_case "X2" (DC awayName); split; discriminate. }
  destruct (le (of_Z 40) draw); [cbn; split; discriminate |].
  destruct (gt home away);
    [ returns_case "1X" (DC homeName) | returns_case "X2" (DC awayName) ];
    split; discriminate.
Qed.

Lemma determinePrediction_codes_witness :
  exists home away draw,
    parsePct (VStr "62%") = Ok home /\ parsePct (VStr "8%") = Ok away
    /\ parsePct (VStr "30%") = Ok draw
    /\ rule1 home away.
Proof.
  apply (determinePrediction_codes (VStr "62%") (VStr "8%") (VStr "30%")
           (VStr "Arsenal") (VStr "Chelsea")).
  vm_compute. reflexivity.
Defined.

Lemma some_includes_ok (name : value) (kws : list string) :
  has_includes name ->
  some (fun kw => call_includes name kw) kws = Ok (existsb (name_has name) kws).
Proof.
  intros [[t ->] | [xs ->]]; induction kws as [| kw kws IH];
    cbn [some existsb call_includes bind name_has]; try reflexivity.
  - destruct (includes kw t); [reflexivity | exact IH].
  - destruct (existsb (fun x => is_string x kw) xs); [reflexivity | exact IH].
Qed.

Lemma both_iff (x1 y1 x2 y2 : number) :
  le x1 y1 && le x2 y2 = true <-> AtMost x1 y1 /\ AtMost x2 y2.
Proof. rewrite andb_true_iff, !le_iff. tauto. Qed.

Lemma both_false_iff (x1 y1 x2 y2 : number) :
  le x1 y1 && le x2 y2 = false <-> ~ (AtMost x1 y1 /\ AtMost x2 y2).
Proof.
  rewrite <- both_iff. destruct (le x1 y1 && le x2 y2); intuition congruence.
Qed.

(** X2.  The result of the [catch], ("X", "Match Nul"), is returned exactly
    when something throws: a percentage is not a string; or the name that
    the deciding rule writes in its text cannot be converted to a string;
    or rule 2 is reached with a home name that has no [includes]. *)
Theorem determinePrediction_default_iff
    (homePct awayPct drawPct homeName awayName : value) :
  determinePrediction homePct awayPct drawPct homeName awayName
  = {| prediction := "X"; text := "Match Nul" |}
  <->
  (~ is_text homePct \/ ~ is_text awayPct \/ ~ is_text drawPct)
  \/ exists home away draw,
       parsePct homePct = Ok home /\ parsePct awayPct = Ok away
       /\ parsePct drawPct = Ok draw
       /\ ((rule1 home away /\ toStr homeName = Throw)
           \/ (~ rule1 home away /\ rule2 home away
               /\ (~ has_includes homeName
                   \/ (has_includes homeName
                       /\ existsb (name_has homeName) bigClubs = true
                       /\ toStr homeName = Throw)
                   \/ (has_includes homeName
                       /\ existsb (name_has homeName) bigClubs = false
                       /\ toStr awayName = Throw)))
           \/ (~ rule1 home away /\ ~ rule2 home away /\ rule3 home draw
               /\ toStr homeName = Throw)
           \/ (~ rule1 home away /\ ~ rule2 home away /\ ~ rule3 home draw
               /\ rule4 away draw /\ toStr awayName = Throw)
           \/ (~ rule1 home away /\ ~ rule2 home away /\ ~ rule3 home draw
               /\ ~ rule4 away draw /\ ~ rule5 draw
               /\ ((Above home away /\ toStr homeName = Throw)
                   \/ (~ Above home away /\ toStr awayName = Throw)))).
Proof.
  unfold determinePrediction.
  destruct (parsePct homePct) as [home |] eqn:Eh; cbn [bind try_catch].
  2:{ apply parsePct_throw_iff in Eh. tauto. }
  destruct (parsePct awayPct) as [away |] eqn:Ea; cbn [bind try_catch].
  2:{ apply parsePct_throw_iff in Ea. tauto. }
  destruct (parsePct drawPct) as [draw |] eqn:Ed; cbn [bind try_catch].
  2:{ apply parsePct_throw_iff in Ed. tauto. }
  assert (T : ~ (~ is_text homePct \/ ~ is_text awayPct \/ ~ is_text drawPct)).
  { intros [H | [H | H]]; apply parsePct_throw_iff in H; congruence. }
  match goal with
  | |- _ <-> _ \/ (exists h a d, _ /\ _ /\ _ /\ @?C h a d) =>
      assert (R : (~ is_text homePct \/ ~ is_text awayPct \/ ~ is_text drawPct)
                  \/ (exists h a d,
                         Ok home = Ok h /\ Ok away = Ok a /\ Ok draw = Ok d
                         /\ C h a d)
                  <-> C home away draw)
  end.
  { split.
    - intros [H | (h & a & d & Hh & Ha & Hd & HC)]; [tauto |].
      injection Hh as <-. injection Ha as <-. injection Hd as <-. exact HC.
    - intros HC. right. exists home, away, draw. auto. }
  cbv beta in R. rewrite R. clear R T Eh Ea Ed.
  unfold rule1, rule2, rule3, rule4, rule5, Above, AtLeast, ge, gt.
  assert (D : has_includes homeName \/ ~ has_includes homeName).
  { unfold has_includes. destruct homeName; eauto;
      right; intros [[? H] | [? H]]; discriminate H. }
  destruct (le (of_Z 45) home && le away (of_Z 10)) eqn:R1;
    [apply both_iff in R1 | apply both_false_iff in R1].
  { unfold returns, gagne. destruct (toStr homeName) eqn:N; cbn [bind try_catch].
    - split; [discriminate | intros HC; exfalso; intuition congruence].
    - split; [intros _; tauto | reflexivity]. }
  destruct (le (of_Z 45) away && le home (of_Z 10)) eqn:R2;
    [apply both_iff in R2 | apply both_false_iff in R2].
  { destruct D as [D | D].
    - rewrite (some_includes_ok _ _ D). cbn [bind].
      destruct (existsb (name_has homeName) bigClubs) eqn:B.
      + unfold returns, DC.
        destruct (toStr homeName) eqn:N; cbn [bind try_catch].
        * split; [discriminate | intros HC; exfalso; intuition congruence].
        * split; [intros _; tauto | reflexivity].
      + unfold returns, gagne.
        destruct (toStr awayName) eqn:N; cbn [bind try_catch].
        * split; [discriminate | intros HC; exfalso; intuition congruence].
        * split; [intros _; tauto | reflexivity].
    - pose proof (proj2 (some_bigClubs_throw_iff homeName) D) as S.
      rewrite S. cbn [bind try_catch].
      split; [intros _; tauto | reflexivity]. }
  destruct (le (of_Z 35) home && le (of_Z 35) draw) eqn:R3;
    [apply both_iff in R3 | apply both_false_iff in R3].
  { unfold returns, DC. destruct (toStr homeName) eqn:N; cbn [bind try_catch].
    - split; [discriminate | intros HC; exfalso; intuition congruence].
    - split; [intros _; tauto | reflexivity]. }
  destruct (le (of_Z 35) away && le (of_Z 35) draw) eqn:R4;
    [apply both_iff in R4 | apply both_false_iff in R4].
  { unfold returns, DC. destruct (toStr awayName) eqn:N; cbn [bind try_catch].
    - split; [discriminate | intros HC; exfalso; intuition congruence].
    - split; [intros _; tauto | reflexivity]. }
  destruct (le (of_Z 40) draw) eqn:R5;
    [apply le_iff in R5 | apply le_false_iff in R5].
  { cbn [returns bind try_catch].
    split; [discriminate | intros HC; exfalso; tauto]. }
  destruct (lt away home) eqn:R6;
    [apply lt_iff in R6 | apply lt_false_iff in R6].
  - unfold returns, DC. destruct (toStr homeName) eqn:N; cbn [bind try_catch].
    + split; [discriminate | intros HC; exfalso; intuition congruence].
    + split; [intros _; tauto | reflexivity].
  - unfold returns, DC. destruct (toStr awayName) eqn:N; cbn [bind try_catch].
    + split; [discriminate | intros HC; exfalso; intuition congruence].
    + split; [intros _; tauto | reflexivity].
Qed.

Lemma determinePrediction_default_iff_witness :
  determinePrediction (VStr "62%") (VStr "8%") (VStr "30%")
                      (VObj [("toString", VNum (of_Z 1))]) (VStr "Chelsea")
  = {| prediction := "X"; text := "Match Nul" |}.
Proof.
  apply (determinePrediction_default_iff
           (VStr "62%") (VStr "8%") (VStr "30%")
           (VObj [("toString", VNum (of_Z 1))]) (VStr "Chelsea")).
  right. exists (of_Z 62), (of_Z 8), (of_Z 30).
  split; [vm_compute; reflexivity |].
  split; [vm_compute; reflexivity |].
  split; [vm_compute; reflexivity |].
  left. split; [| reflexivity].
  split; apply le_iff; vm_compute; reflexivity.
Defined.

(** ** More on [getConfidence] *)

Lemma Math_max_NaN_inv (a b : number) :
  Math_max a b <> NaN -> a <> NaN /\ b <> NaN.
Proof. destruct a, b; simpl; intros H; split; congruence. Qed.

Lemma Math_max3_NaN_inv (a b c : number) :
  Math_max3 a b c <> NaN -> a <> NaN /\ b <> NaN /\ c <> NaN.
Proof.
  unfold Math_max3. intros H.
  destruct (Math_max_NaN_inv _ _ H) as [Hab Hc].
  destruct (Math_max_NaN_inv _ _ Hab) as [Ha Hb]. tauto.
Qed.

Lemma getConfidence_parsed
    (homePct awayPct drawPct : value) (home away draw : number) :
  parsePct homePct = Ok home ->
  parsePct awayPct = Ok away ->
  parsePct drawPct = Ok draw ->
  getConfidence homePct awayPct drawPct
  = if le (of_Z 50) (Math_max3 home away draw) then 4%Z
    else if le (of_Z 45) (Math_max3 home away draw) then 3%Z else 2%Z.
Proof.
  intros Hh Ha Hd. unfold getConfidence. rewrite Hh, Ha, Hd.
  cbn [bind]. unfold ge.
  destruct (le (of_Z 50) (Math_max3 home away draw)),
           (le (of_Z 45) (Math_max3 home away draw)); reflexivity.
Qed.

(** X3.  A tier above 2 is given exactly when the three percentages are
    strings that parse to numbers whose maximum is at least 45; a
    percentage that is not a string, or in which no number is read, gives
    tier 2. *)
Theorem getConfidence_above_2_iff (homePct awayPct drawPct : value) :
  (3 <= getConfidence homePct awayPct drawPct)%Z
  <->
  exists home away draw m,
    parsePct homePct = Ok home /\ parsePct awayPct = Ok away
    /\ parsePct drawPct = Ok draw
    /\ is_max3 m home away draw /\ AtLeast m (of_Z 45).
Proof.
  split.
  - intros H.
    destruct (parsePct homePct) as [home |] eqn:Eh;
      [| unfold getConfidence in H; rewrite Eh in H; cbn in H; lia].
    destruct (parsePct awayPct) as [away |] eqn:Ea;
      [| unfold getConfidence in H; rewrite Eh, Ea in H; cbn in H; lia].
    destruct (parsePct drawPct) as [draw |] eqn:Ed;
      [| unfold getConfidence in H; rewrite Eh, Ea, Ed in H; cbn in H; lia].
    rewrite (getConfidence_parsed _ _ _ _ _ _ Eh Ea Ed) in H.
    assert (G : AtMost (of_Z 45) (Math_max3 home away draw)).
    { destruct (le (of_Z 50) (Math_max3 home away draw)) eqn:E50.
      - apply fifty_above_45. now apply le_iff.
      - destruct (le (of_Z 45) (Math_max3 home away draw)) eqn:E45;
          [now apply le_iff | lia]. }
    exists home, away, draw, (Math_max3 home away draw).
    repeat split; try reflexivity; try exact G.
    + destruct (Math_max3_NaN_inv home away draw
                  (proj2 (AtMost_not_NaN _ _ G))) as (A & B & C).
      now apply Math_max3_is_max.
    + destruct (Math_max3_NaN_inv home away draw
                  (proj2 (AtMost_not_NaN _ _ G))) as (A & B & C).
      now apply Math_max3_is_max.
    + destruct (Math_max3_NaN_inv home away draw
                  (proj2 (AtMost_not_NaN _ _ G))) as (A & B & C).
      now apply Math_max3_is_max.
    + destruct (Math_max3_NaN_inv home away draw
                  (proj2 (AtMost_not_NaN _ _ G))) as (A & B & C).
      now apply Math_max3_is_max.
  - intros (home & away & draw & m & Eh & Ea & Ed & Hm & G).
    rewrite (getConfidence_of_max _ _ _ _ _ _ m Eh Ea Ed Hm).
    apply le_iff in G. rewrite G. destruct (le (of_Z 50) m); lia.
Qed.

Lemma getConfidence_above_2_iff_witness :
  (3 <= getConfidence (VStr "47%") (VStr "20%") (VStr "33%"))%Z.
Proof.
  apply (getConfidence_above_2_iff (VStr "47%") (VStr "20%") (VStr "33%")).
  exists (of_Z 47), (of_Z 20), (of_Z 33), (of_Z 47).
  split; [vm_compute; reflexivity |].
  split; [vm_compute; reflexivity |].
  split; [vm_compute; reflexivity |].
  split.
  - split; [now left |].
    repeat split; apply AtMost_fin; unfold Qle; simpl; lia.
  - apply AtMost_fin. unfold Qle. simpl. lia.
Defined.

Lemma is_max3_swap12 (m a b c : number) : is_max3 m a b c -> is_max3 m b a c.
Proof. unfold is_max3. tauto. Qed.

Lemma is_max3_swap23 (m a b c : number) : is_max3 m a b c -> is_max3 m a c b.
Proof. unfold is_max3. tauto. Qed.

Lemma Math_max3_NaN_iff (a b c : number) :
  Math_max3 a b c = NaN <-> a = NaN \/ b = NaN \/ c = NaN.
Proof.
  split.
  - intros H.
    destruct a; [tauto | | |]; (destruct b; [tauto | | |]);
      (destruct c; [tauto | | |]); exfalso;
      refine (Math_max_not_NaN _ _ _ _ H);
      try discriminate; apply Math_max_not_NaN; discriminate.
  - unfold Math_max3. intros [-> | [-> | ->]].
    + reflexivity.
    + destruct a; reflexivity.
    + destruct (Math_max a b); reflexivity.
Qed.

Lemma le_Math_max3_perm (k a b c : number) :
  le k (Math_max3 a b c) = le k (Math_max3 b a c)
  /\ le k (Math_max3 a b c) = le k (Math_max3 a c b).
Proof.
  assert (D : (a = NaN \/ b = NaN \/ c = NaN)
              \/ (a <> NaN /\ b <> NaN /\ c <> NaN)).
  { destruct a; [tauto | | |]; (destruct b; [tauto | | |]);
      (destruct c; [tauto | | |]); right; repeat split; discriminate. }
  destruct D as [N | (A & B & C)].
  - assert (E1 : Math_max3 a b c = NaN) by now apply Math_max3_NaN_iff.
    assert (E2 : Math_max3 b a c = NaN) by (apply Math_max3_NaN_iff; tauto).
    assert (E3 : Math_max3 a c b = NaN) by (apply Math_max3_NaN_iff; tauto).
    rewrite E1, E2, E3. split; reflexivity.
  - pose proof (Math_max3_is_max a b c A B C) as M1.
    pose proof (Math_max3_is_max b a c B A C) as M2.
    pose proof (Math_max3_is_max a c b A C B) as M3.
    apply is_max3_swap12 in M2. apply is_max3_swap23 in M3.
    split; apply le_congr; eapply is_max3_unique; eassumption.
Qed.

(** X4.  The tier does not depend on the order in which the three percentages
    are passed. *)
Theorem getConfidence_order_irrelevant (p1 p2 p3 : value) :
  getConfidence p1 p2 p3 = getConfidence p2 p1 p3
  /\ getConfidence p1 p2 p3 = getConfidence p1 p3 p2.
Proof.
  destruct (parsePct p1) as [n1 |] eqn:E1,
           (parsePct p2) as [n2 |] eqn:E2,
           (parsePct p3) as [n3 |] eqn:E3;
    try (unfold getConfidence; rewrite E1, E2, E3; split; reflexivity).
  rewrite (getConfidence_parsed _ _ _ _ _ _ E1 E2 E3),
          (getConfidence_parsed _ _ _ _ _ _ E2 E1 E3),
          (getConfidence_parsed _ _ _ _ _ _ E1 E3 E2).
  destruct (le_Math_max3_perm (of_Z 50) n1 n2 n3) as [A1 A2].
  destruct (le_Math_max3_perm (of_Z 45) n1 n2 n3) as [B1 B2].
  rewrite <- A1, <- A2, <- B1, <- B2. split; reflexivity.
Qed.

(** ** [determinePrediction] and [getConfidence] together *)

Lemma max3_at_least_first (a b c k : number) :
  b <> NaN -> c <> NaN -> AtMost k a -> AtMost k (Math_max3 a b c).
Proof.
  intros B C H.
  pose proof (proj2 (AtMost_not_NaN _ _ H)) as A.
  destruct (Math_max3_is_max a b c A B C) as (_ & L & _).
  eapply AtMost_trans; eassumption.
Qed.

(** X5.  A straight win, "1" or "2", is only predicted from percentages whose
    tier is 3 or 4, provided a number is read in the draw percentage. *)
Theorem straight_win_is_confident
    (homePct awayPct drawPct homeName awayName : value) (draw : number) :
  parsePct drawPct = Ok draw ->
  draw <> NaN ->
  prediction (determinePrediction homePct awayPct drawPct homeName awayName) = "1"
  \/ prediction (determinePrediction homePct awayPct drawPct homeName awayName)
     = "2" ->
  (3 <= getConfidence homePct awayPct drawPct)%Z.
Proof.
  intros Ed Nd H.
  unfold determinePrediction in H.
  destruct (parsePct homePct) as [home |] eqn:Eh; cbn [bind try_catch] in H;
    [| cbn in H; destruct H; discriminate].
  destruct (parsePct awayPct) as [away |] eqn:Ea; cbn [bind try_catch] in H;
    [| cbn in H; destruct H; discriminate].
  rewrite Ed in H. cbn [bind try_catch] in H.
  rewrite (getConfidence_parsed _ _ _ _ _ _ Eh Ea Ed).
  assert (G : AtMost (of_Z 45) (Math_max3 home away draw)).
  { unfold ge in H.
    destruct (le (of_Z 45) home && le away (of_Z 10)) eqn:R1.
    { apply andb_true_iff in R1. destruct R1 as [A B].
      apply le_iff in A. apply le_iff in B.
      apply max3_at_least_first; try assumption.
      exact (proj1 (AtMost_not_NaN _ _ B)). }
    destruct (le (of_Z 45) away && le home (of_Z 10)) eqn:R2.
    { apply andb_true_iff in R2. destruct R2 as [A B].
      apply le_iff in A. apply le_iff in B.
      pose proof (proj2 (AtMost_not_NaN _ _ A)) as Na.
      pose proof (proj1 (AtMost_not_NaN _ _ B)) as Nh.
      destruct (Math_max3_is_max home away draw Nh Na Nd) as (_ & _ & L & _).
      eapply AtMost_trans; eassumption. }
    exfalso.
    assert (F : forall code name,
               prediction (try_catch (returns code (DC name))
                             {| prediction := "X"; text := "Match Nul" |}) = "1"
               \/ prediction (try_catch (returns code (DC name))
                                {| prediction := "X"; text := "Match Nul" |})
                  = "2" ->
               code <> "1" -> code <> "2" -> False).
    { intros code name [F | F] N1 N2;
        destruct (returns_cases code (DC name)) as [[_ E] | (t & _ & E)];
        rewrite E in F; cbn in F; congruence. }
    destruct (le (of_Z 35) home && le (of_Z 35) draw);
      [apply (F _ _ H); discriminate |].
    destruct (le (of_Z 35) away && le (of_Z 35) draw);
      [apply (F _ _ H); discriminate |].
    destruct (le (of_Z 40) draw); [cbn in H; destruct H; discriminate |].
    destruct (gt home away);
      apply (F _ _ H); discriminate. }
  apply le_iff in G. rewrite G.
  destruct (le (of_Z 50) (Math_max3 home away draw)); lia.
Qed.

Lemma straight_win_is_confident_witness :
  (3 <= getConfidence (VStr "62%") (VStr "8%") (VStr "30%"))%Z.
Proof.
  apply (straight_win_is_confident (VStr "62%") (VStr "8%") (VStr "30%")
           (VStr "Arsenal") (VStr "Chelsea") (of_Z 30)).
  - vm_compute. reflexivity.
  - discriminate.
  - left. vm_compute. reflexivity.
Defined.

(** Without that proviso it fails: with a draw percentage in which no
    number is read, "1" is predicted at tier 2. *)
Example straight_win_unparsed_draw :
  prediction (determinePrediction (VStr "62%") (VStr "8%") (VStr "n/a")
                                  (VStr "Arsenal") (VStr "Chelsea")) = "1"
  /\ getConfidence (VStr "62%") (VStr "8%") (VStr "n/a") = 2%Z.
Proof. vm_compute. split; reflexivity. Qed.

(** ** [determineOverUnder]: labels and failure *)

(** The [try] block returns a label exactly when both estimates are
    present and the conversions it has to make succeed and find "3.5" or
    "2.5". *)
Lemma overUnderFromGoals_cases (goalsHome goalsAway : value) :
  let from_goals :=
    truthy goalsHome = true /\ truthy goalsAway = true
    /\ exists th,
         toStr goalsHome = Ok th
         /\ (includes "3.5" th = true
             \/ exists ta,
                  toStr goalsAway = Ok ta
                  /\ (includes "3.5" ta = true
                      \/ includes "2.5" th = true
                      \/ includes "2.5" ta = true)) in
  (from_goals
   /\ (overUnderFromGoals goalsHome goalsAway = Some "Over 2.5"
       \/ overUnderFromGoals goalsHome goalsAway = Some "Under 3.5"))
  \/ (~ from_goals /\ overUnderFromGoals goalsHome goalsAway = None).
Proof.
  intros from_goals. subst from_goals.
  destruct (truthy goalsHome) eqn:Th.
  2:{ right. split; [intros (H & _); discriminate H |].
      apply overUnderFromGoals_absent. now left. }
  destruct (truthy goalsAway) eqn:Ta.
  2:{ right. split; [intros (_ & H & _); discriminate H |].
      apply overUnderFromGoals_absent. now right. }
  destruct (toStr goalsHome) as [th |] eqn:Eh.
  2:{ right. split; [intros (_ & _ & t & H & _); discriminate H |].
      apply overUnderFromGoals_unconvertible. now left. }
  destruct (includes "3.5" th) eqn:H35.
  { left. split; [| left; now apply (overUnderFromGoals_home _ _ th)].
    split; [reflexivity |]. split; [reflexivity |].
    exists th. split; [reflexivity | now left]. }
  destruct (toStr goalsAway) as [ta |] eqn:Ea.
  2:{ right. split.
      - intros (_ & _ & t & H & [F | (t' & F & _)]); [| discriminate F].
        injection H as <-. congruence.
      - apply overUnderFromGoals_unconvertible. right.
        exists th. repeat split; assumption. }
  pose proof (overUnderFromGoals_texts _ _ _ _ Th Ta Eh Ea) as E.
  rewrite H35 in E. cbn [orb] in E.
  destruct (includes "3.5" ta) eqn:A35.
  { left. split; [| now left].
    split; [reflexivity |]. split; [reflexivity |].
    exists th. split; [reflexivity |]. right. exists ta. tauto. }
  destruct (includes "2.5" th) eqn:H25.
  { left. split; [| now right].
    split; [reflexivity |]. split; [reflexivity |].
    exists th. split; [reflexivity |]. right. exists ta. tauto. }
  destruct (includes "2.5" ta) eqn:A25.
  { left. split; [| now right].
    split; [reflexivity |]. split; [reflexivity |].
    exists th. split; [reflexivity |]. right. exists ta. tauto. }
  right. split; [| exact E].
  intros (_ & _ & t & H & [F | (t' & F & G)]).
  - injection H as <-. congruence.
  - injection H as <-. injection F as <-.
    destruct G as [G | [G | G]]; congruence.
Qed.

(** X6.  The function returns one of three labels, and it throws exactly when
    the goal estimates give no label and the advice is truthy but has no
    [includes] (it is neither a string nor an array).  The estimates give
    a label when both are present, the home text [th] can be made and
    contains "3.5", or else the away text [ta] can be made too and one of
    them contains "3.5" or "2.5". *)
Theorem determineOverUnder_outcomes (goalsHome goalsAway advice : value) :
  let from_goals :=
    truthy goalsHome = true /\ truthy goalsAway = true
    /\ exists th,
         toStr goalsHome = Ok th
         /\ (includes "3.5" th = true
             \/ exists ta,
                  toStr goalsAway = Ok ta
                  /\ (includes "3.5" ta = true
                      \/ includes "2.5" th = true
                      \/ includes "2.5" ta = true)) in
  (forall label,
      determineOverUnder goalsHome goalsAway advice = Ok label ->
      In label ["Over 2.5"; "Under 3.5"; "Under 2.5"])
  /\ (determineOverUnder goalsHome goalsAway advice = Throw
      <-> ~ from_goals /\ truthy advice = true /\ ~ has_includes advice).
Proof.
  intros from_goals. subst from_goals. unfold determineOverUnder.
  destruct (overUnderFromGoals_cases goalsHome goalsAway)
    as [[F [E | E]] | [N E]]; rewrite E.
  - split.
    + intros label H. injection H as <-. simpl. tauto.
    + split; [discriminate | tauto].
  - split.
    + intros label H. injection H as <-. simpl. tauto.
    + split; [discriminate | tauto].
  - destruct (truthy advice) eqn:T.
    2:{ split.
        - intros label H. injection H as <-. simpl. tauto.
        - split; [discriminate | intros (_ & H & _); discriminate H]. }
    destruct (call_includes advice "+2.5") as [p25 |] eqn:C1.
    2:{ cbn [bind]. split; [discriminate |].
        split; [| reflexivity]. intros _.
        apply call_includes_throw_iff in C1. tauto. }
    assert (Hinc : has_includes advice).
    { destruct advice; try discriminate C1; [left | right]; eauto. }
    assert (forall s, exists b, call_includes advice s = Ok b) as Hok.
    { intros s. destruct Hinc as [[t ->] | [xs ->]]; eexists; reflexivity. }
    destruct (Hok "+3.5") as [p35 ->].
    destruct (Hok "-2.5") as [m25 ->].
    destruct (Hok "-3.5") as [m35 ->].
    cbn [bind].
    split.
    + intros label H.
      destruct p25, p35, m25, m35; cbn [bind] in H; injection H as <-;
        simpl; tauto.
    + split; [| tauto].
      destruct p25, p35, m25, m35; cbn [bind]; discriminate.
Qed.

Lemma determineOverUnder_outcomes_witness :
  determineOverUnder (VObj [("toString", VNum (of_Z 1))]) (VStr "3.5")
                     (VBool true) = Throw.
Proof.
  apply (determineOverUnder_outcomes (VObj [("toString", VNum (of_Z 1))])
           (VStr "3.5") (VBool true)).
  split; [| split].
  - intros (_ & _ & th & H & _). discriminate H.
  - reflexivity.
  - intros [[s H] | [xs H]]; discriminate H.
Defined.

(** ** [determineBTTS]: missing statistics *)

(** X7.  When one of the four averages is missing (or falsy) the answer is
    "Non": a missing against-average reads as a solid defence, a missing
    for-average as no attack. *)
Theorem determineBTTS_missing_average
    (teams comparison : value) (side kind : string) :
  In side ["home"; "away"] ->
  In kind ["for"; "against"] ->
  truthy (opt_chain teams [side; "league"; "goals"; kind; "average"; "total"])
  = false ->
  determineBTTS teams comparison = "Non".
Proof.
  intros Hs Hk Hf.
  pose proof (average_default_zero teams side kind "total" Hf) as Z0.
  assert (L8 : forall x, lt (literal 8 (-1)) (of_Z 0) && x = false)
    by (intros x; vm_compute; reflexivity).
  assert (L5 : lt (of_Z 0) (literal 5 (-1)) = true)
    by (vm_compute; reflexivity).
  assert (L1 : lt (of_Z 1) (of_Z 0) = false) by (vm_compute; reflexivity).
  unfold determineBTTS, gt.
  simpl in Hs, Hk.
  destruct Hs as [<- | [<- | []]]; destruct Hk as [<- | [<- | []]];
    rewrite Z0;
    repeat match goal with
           | |- context [average ?t ?s ?k ?sp ?d] =>
               destruct (average t s k sp d) as [? |]
           end;
    cbn [bind try_catch]; try reflexivity;
    rewrite ?L5, ?L1;
    repeat match goal with
           | |- context [lt ?a ?b] =>
               lazymatch a with
               | of_Z 0 => fail
               | _ => lazymatch b with
                      | of_Z 0 => fail
                      | _ => destruct (lt a b)
                      end
               end
           end;
    cbn [andb orb]; try reflexivity;
    try (replace (lt (literal 8 (-1)) (of_Z 0)) with false
           by (vm_compute; reflexivity); cbn [andb orb]; reflexivity).
Qed.

Lemma determineBTTS_missing_average_witness :
  determineBTTS (VObj [("home", Samples.side
                                  (Samples.averages (VStr "2.1") (VStr "1.9") (VStr "2.0"))
                                  VNull);
                       ("away", Samples.side
                                  (Samples.averages (VStr "1.6") (VStr "1.2") (VStr "1.4"))
                                  (Samples.averages (VStr "1.0") (VStr "1.3") (VStr "1.2")))])
                VUndef
  = "Non".
Proof.
  apply (determineBTTS_missing_average _ VUndef "home" "against").
  - simpl. tauto.
  - simpl. tauto.
  - vm_compute. reflexivity.
Defined.

(** *** The shape of the score on every input *)

Lemma clamp_NaN (hi : Z) : clamp NaN hi = NaN.
Proof. reflexivity. Qed.

Lemma Math_max_NaN_or (a b : number) :
  (a = NaN \/ integral a) -> (b = NaN \/ integral b) ->
  Math_max a b = NaN \/ integral (Math_max a b).
Proof.
  intros [-> | Ha] [-> | Hb].
  - now left.
  - now left.
  - left. destruct a; reflexivity.
  - right. now apply Math_max_integral.
Qed.

Lemma add_one_NaN_or (a : number) :
  (a = NaN \/ integral a) ->
  add a (of_Z 1) = NaN \/ integral (add a (of_Z 1)).
Proof.
  intros [-> | Ha]; [now left | right; now apply add_one_integral].
Qed.

Lemma Math_round_NaN_or (x : number) :
  Math_round x = NaN \/ integral (Math_round x).
Proof.
  destruct x; try (now left); right; apply Math_round_integral; discriminate.
Qed.

Lemma clamp_string (x : number) (hi : Z) :
  (0 <= hi <= 4)%Z ->
  (x = NaN \/ integral x) ->
  number_to_string (clamp x hi) = "NaN"
  \/ exists z, (0 <= z <= hi)%Z /\ number_to_string (clamp x hi) = digits_of z.
Proof.
  intros Hhi [-> | Hx].
  - left. reflexivity.
  - right. destruct (clamp_integral x hi ltac:(lia) Hx) as (q & z & -> & E & R).
    exists z. split; [exact R |].
    apply number_to_string_small; [exact E | lia].
Qed.

Lemma digit_cases (z hi : Z) (l : list string) :
  (0 <= z <= hi)%Z ->
  (forall k, (0 <= k <= hi)%Z -> In (digits_of k) l) ->
  In (digits_of z) l.
Proof. intros H G. now apply G. Qed.

(** X8.  On every input the score has the form "H-A" where H is a digit from
    0 to 4 or "NaN" and A a digit from 0 to 3 or "NaN"; and when neither
    average is NaN both parts are digits. *)
Theorem determineExactScore_shape
    (prediction teams goalsHome goalsAway : value) :
  (exists H A : string,
      determineExactScore prediction teams goalsHome goalsAway
      = H ++ "-" ++ A
      /\ In H ["0"; "1"; "2"; "3"; "4"; "NaN"]
      /\ In A ["0"; "1"; "2"; "3"; "NaN"])
  /\ (average teams "home" "for" "home" (literal 12 (-1)) <> Ok NaN ->
      average teams "away" "for" "away" (literal 9 (-1)) <> Ok NaN ->
      exists H A : Z,
        (0 <= H <= 4)%Z /\ (0 <= A <= 3)%Z
        /\ determineExactScore prediction teams goalsHome goalsAway
           = digits_of H ++ "-" ++ digits_of A).
Proof.
  split; [| apply determineExactScore_in_range].
  destruct (average teams "home" "for" "home" (literal 12 (-1)))
    as [h |] eqn:Eh.
  2:{ exists "1", "1". split; [| simpl; tauto].
      apply determineExactScore_unread. now left. }
  destruct (average teams "away" "for" "away" (literal 9 (-1)))
    as [a |] eqn:Ea.
  2:{ exists "1", "1". split; [| simpl; tauto].
      apply determineExactScore_unread. now right. }
  rewrite (determineExactScore_read _ _ _ _ _ _ Eh Ea). cbv zeta.
  pose proof (Math_round_NaN_or h) as Ih.
  pose proof (Math_round_NaN_or a) as Ia.
  set (h0 := Math_round h) in *.
  set (a0 := Math_round a) in *.
  assert (G : forall h a,
             (h = NaN \/ integral h) -> (a = NaN \/ integral a) ->
             exists H A : string,
               number_to_string (clamp h 4) ++ "-" ++ number_to_string (clamp a 3)
               = H ++ "-" ++ A
               /\ In H ["0"; "1"; "2"; "3"; "4"; "NaN"]
               /\ In A ["0"; "1"; "2"; "3"; "NaN"]).
  { intros h' a' Hh Ha.
    exists (number_to_string (clamp h' 4)), (number_to_string (clamp a' 3)).
    split; [reflexivity |]. split.
    - destruct (clamp_string h' 4 ltac:(lia) Hh) as [-> | (z & R & ->)].
      + simpl. tauto.
      + assert (C : (z = 0 \/ z = 1 \/ z = 2 \/ z = 3 \/ z = 4)%Z) by lia.
        destruct C as [-> | [-> | [-> | [-> | ->]]]]; simpl; tauto.
    - destruct (clamp_string a' 3 ltac:(lia) Ha) as [-> | (z & R & ->)].
      + simpl. tauto.
      + assert (C : (z = 0 \/ z = 1 \/ z = 2 \/ z = 3)%Z) by lia.
        destruct C as [-> | [-> | [-> | ->]]]; simpl; tauto. }
  destruct (is_string prediction "1" || is_string prediction "1X").
  { apply G; [apply Math_max_NaN_or; [| apply add_one_NaN_or] |]; assumption. }
  destruct (is_string prediction "2" || is_string prediction "X2").
  { apply G; [| apply Math_max_NaN_or; [| apply add_one_NaN_or]]; assumption. }
  destruct (is_string prediction "X"); apply G; assumption.
Qed.

Lemma determineExactScore_shape_witness :
  exists H A : Z,
    (0 <= H <= 4)%Z /\ (0 <= A <= 3)%Z
    /\ determineExactScore (VStr "X2") Samples.open_match VUndef VUndef
       = digits_of H ++ "-" ++ digits_of A.
Proof.
  apply (determineExactScore_shape (VStr "X2") Samples.open_match
           VUndef VUndef).
  - vm_compute. discriminate.
  - vm_compute. discriminate.
Defined.

(** ** [determineExactScore]: the score and the prediction *)

Import IntegerView.

Lemma reads_integral (x : number) : integral x <-> exists e, reads x e.
Proof.
  split.
  - intros [-> | [-> | (q & z & -> & E)]].
    + now exists PosInf.
    + now exists NegInf.
    + now exists (Int z).
  - intros [e H]. destruct x, e; simpl in H; try contradiction;
      unfold integral; try tauto.
    right. right. now exists q, z.
Qed.

Lemma reads_Math_max (a b : number) (ea eb : ext) :
  reads a ea -> reads b eb -> reads (Math_max a b) (ext_max ea eb).
Proof.
  destruct a, ea; simpl; try contradiction;
    destruct b, eb; simpl; try contradiction; try tauto.
  intros Ha Hb. destruct (Qltb q q0) eqn:L; simpl.
  - apply Qltb_iff in L. rewrite Ha, Hb in L. rewrite <- Zlt_Qlt in L.
    rewrite Z.max_r by lia. exact Hb.
  - assert (N : ~ (q < q0)%Q) by (intro H; apply Qltb_iff in H; congruence).
    rewrite Ha, Hb in N. rewrite <- Zlt_Qlt in N.
    rewrite Z.max_l by lia. exact Ha.
Qed.

Lemma reads_clamp (x : number) (e : ext) (hi : Z) :
  (0 <= hi)%Z -> reads x e ->
  exists q, clamp x hi = Fin q /\ (q == inject_Z (ext_clamp hi e))%Q.
Proof.
  intros Hhi H. unfold clamp.
  destruct x, e; simpl in H; try contradiction.
  - exists (inject_Z hi). split; [reflexivity |]. simpl. reflexivity.
  - exists (inject_Z 0). split.
    + cbn [Math_max lt of_Z Math_min].
      destruct (Qltb (inject_Z hi) (inject_Z 0)) eqn:L; [| reflexivity].
      apply Qltb_iff in L. rewrite <- Zlt_Qlt in L. lia.
    + simpl. reflexivity.
  - cbn [Math_max lt of_Z ext_clamp].
    destruct (Qltb q (inject_Z 0)) eqn:L0.
    + apply Qltb_iff in L0. rewrite H in L0. rewrite <- Zlt_Qlt in L0.
      cbn [Math_min lt of_Z].
      destruct (Qltb (inject_Z hi) (inject_Z 0)) eqn:L.
      { apply Qltb_iff in L. rewrite <- Zlt_Qlt in L. lia. }
      exists (inject_Z 0). split; [reflexivity |].
      rewrite Z.max_r by lia. rewrite Z.min_l by lia. reflexivity.
    + assert (N0 : ~ (q < inject_Z 0)%Q)
        by (intro K; apply Qltb_iff in K; congruence).
      rewrite H in N0. rewrite <- Zlt_Qlt in N0.
      cbn [Math_min lt of_Z]. destruct (Qltb (inject_Z hi) q) eqn:L.
      * apply Qltb_iff in L. rewrite H in L. rewrite <- Zlt_Qlt in L.
        exists (inject_Z hi). split; [reflexivity |].
        rewrite Z.max_l by lia. rewrite Z.min_r by lia. reflexivity.
      * assert (N : ~ (inject_Z hi < q)%Q)
          by (intro K; apply Qltb_iff in K; congruence).
        rewrite H in N. rewrite <- Zlt_Qlt in N.
        exists q. split; [reflexivity |].
        rewrite Z.max_l by lia. rewrite Z.min_l by lia. exact H.
Qed.

Lemma round_half_even_floor (n d : Z) : (n / d <= round_half_even n d)%Z.
Proof.
  unfold round_half_even.
  destruct (2 * (n mod d) >? d)%Z; [lia |].
  destruct (2 * (n mod d) =? d)%Z; [| lia].
  destruct (Z.odd (n / d)); lia.
Qed.

(** At an exponent that is not positive an integer is kept as it is. *)
Lemma dyadic_exact (z e : Z) :
  (e <= 0)%Z ->
  (dyadic (Z.sgn z * round_half_even (scaled_num (Z.abs z) e) (scaled_den 1 e)) e
   == inject_Z z)%Q.
Proof.
  intros He. unfold dyadic, scaled_num, scaled_den.
  rewrite (Z.max_l 0 e) by lia. rewrite (Z.max_r 0 (- e)) by lia.
  rewrite Z.pow_0_r, Z.mul_1_r, round_half_even_unit.
  destruct (0 <=? e)%Z eqn:E.
  - apply Z.leb_le in E. assert (e = 0)%Z as -> by lia.
    cbn [Z.opp]. rewrite Z.pow_0_r, !Z.mul_1_r.
    destruct z; reflexivity.
  - rewrite Qred_correct. unfold Qeq, inject_Z. cbn [Qnum Qden].
    assert (P : (0 < 2 ^ (- e))%Z) by (apply Z.pow_pos_nonneg; lia).
    rewrite Z2Pos.id by exact P.
    generalize (2 ^ (- e))%Z. intros k.
    destruct z; cbn [Z.sgn Z.abs]; lia.
Qed.

(** Rounding an integer [n >= 5] to a double gives an infinity or an
    integer that is at least 4. *)
Lemma round_double_at_least_4 (n : Z) :
  (5 <= n)%Z ->
  exists e, reads (round_double (inject_Z n)) e
            /\ (e = PosInf \/ exists w, e = Int w /\ (4 <= w)%Z).
Proof.
  intros Hn. unfold round_double. rewrite Qred_inject_Z.
  change (Qnum (inject_Z n)) with n. change (QDen (inject_Z n)) with 1%Z.
  destruct n as [| p | p]; try lia.
  cbn [Z.abs Z.sgn]. change (Z.log2 1) with 0%Z.
  set (e0 := (Z.log2 (Z.pos p) - 0 - 52)%Z).
  set (e1 := if (scaled_num (Z.pos p) e0 >=? 2 ^ 52 * scaled_den 1 e0)%Z
             then e0 else (e0 - 1)%Z).
  assert (He1 : (e1 <= e0)%Z)
    by (unfold e1; destruct (_ >=? _)%Z; lia).
  set (e := Z.max e1 (-1074)).
  set (m := round_half_even (scaled_num (Z.pos p) e) (scaled_den 1 e)).
  destruct (1024 <=? Z.log2 m + e)%Z.
  { exists PosInf. simpl. tauto. }
  destruct (Z_le_gt_dec e 0) as [Le | Ge].
  - exists (Int (Z.pos p)). split.
    + simpl. exact (dyadic_exact (Z.pos p) e Le).
    + right. exists (Z.pos p). split; [reflexivity | lia].
  - assert (Ee : e = e1) by (unfold e in *; lia).
    assert (Hm : (2 ^ 52 <= m)%Z).
    { unfold m, scaled_num, scaled_den.
      rewrite (Z.max_r 0 e) by lia. rewrite (Z.max_l 0 (- e)) by lia.
      rewrite Z.pow_0_r, Z.mul_1_r, Z.mul_1_l.
      eapply Z.le_trans; [| apply round_half_even_floor].
      apply Z.div_le_lower_bound; [apply Z.pow_pos_nonneg; lia |].
      rewrite <- Z.pow_add_r by lia.
      destruct (Z.log2_spec (Z.pos p)) as [Hlo _]; [lia |].
      eapply Z.le_trans; [| exact Hlo].
      apply Z.pow_le_mono_r; unfold e0 in *; lia. }
    exists (Int (1 * m * 2 ^ e)). split.
    + simpl. unfold dyadic.
      destruct (0 <=? e)%Z eqn:E; [reflexivity |].
      apply Z.leb_gt in E. lia.
    + right. eexists. split; [reflexivity |].
      assert (P : (1 <= 2 ^ e)%Z)
        by (apply (Z.pow_le_mono_r 2 0 e); lia).
      assert (Q4 : (4 <= 2 ^ 52)%Z) by (vm_compute; discriminate).
      nia.
Qed.

(** [x + 1] on a natural number: the successor up to 4, and from 3 on
    something that is at least 4. *)
Lemma reads_add_one (x : number) (z : Z) :
  (0 <= z)%Z -> reads x (Int z) ->
  exists e, reads (add x (of_Z 1)) e
            /\ ((z <= 3)%Z -> e = Int (z + 1))
            /\ ((3 <= z)%Z -> e = PosInf \/ exists w, e = Int w /\ (4 <= w)%Z).
Proof.
  intros Hz H. destruct x; simpl in H; try contradiction.
  cbn [add of_Z].
  rewrite (round_double_Qeq _ (inject_Z (z + 1)))
    by (rewrite H, inject_Z_plus; reflexivity).
  destruct (Z_le_gt_dec z 3) as [Small | Big].
  - exists (Int (z + 1)).
    assert (C : (z = 0 \/ z = 1 \/ z = 2 \/ z = 3)%Z) by lia.
    split; [| split].
    + destruct C as [-> | [-> | [-> | ->]]]; vm_compute; reflexivity.
    + reflexivity.
    + intros K. right. exists (z + 1)%Z. split; [reflexivity | lia].
  - destruct (round_double_at_least_4 (z + 1) ltac:(lia)) as (e & R & B).
    exists e. split; [exact R |]. split; [lia | tauto].
Qed.

Lemma reads_add_one_inf (x : number) :
  reads x PosInf -> reads (add x (of_Z 1)) PosInf.
Proof. destruct x; simpl; tauto. Qed.

Lemma reads_Math_round (x : number) : x <> NaN -> exists e, reads (Math_round x) e.
Proof. intros H. apply reads_integral. now apply Math_round_integral. Qed.

Lemma reads_AtLeast (x : number) (e : ext) (k : Z) :
  reads x e -> AtLeast x (of_Z k) ->
  e = PosInf \/ exists z, e = Int z /\ (k <= z)%Z.
Proof.
  intros R H. unfold AtLeast in H.
  destruct x, e; simpl in R; try contradiction.
  - now left.
  - inversion H; subst; congruence.
  - right. exists z. split; [reflexivity |].
    unfold of_Z in H. apply AtMost_fin_iff in H.
    rewrite R in H. rewrite <- Zle_Qle in H. exact H.
Qed.

Lemma score_string (h a : number) (eh ea : ext) :
  reads h eh -> reads a ea ->
  number_to_string (clamp h 4) ++ "-" ++ number_to_string (clamp a 3)
  = digits_of (ext_clamp 4 eh) ++ "-" ++ digits_of (ext_clamp 3 ea).
Proof.
  intros Hh Ha.
  destruct (reads_clamp h eh 4 ltac:(lia) Hh) as (qh & -> & Eh).
  destruct (reads_clamp a ea 3 ltac:(lia) Ha) as (qa & -> & Ea).
  rewrite (number_to_string_small _ _ Eh)
    by (destruct eh; simpl; lia).
  rewrite (number_to_string_small _ _ Ea)
    by (destruct ea; simpl; lia).
  reflexivity.
Qed.

(** X9.  With "1" or "1X" the score has the home side strictly ahead, as soon
    as the two averages can be read, the home average is a number and the
    away average rounds to a natural number (or is +Infinity). *)
Theorem determineExactScore_home_ahead
    (prediction teams goalsHome goalsAway : value)
    (homeAvgFor awayAvgFor : number) :
  prediction = VStr "1" \/ prediction = VStr "1X" ->
  average teams "home" "for" "home" (literal 12 (-1)) = Ok homeAvgFor ->
  average teams "away" "for" "away" (literal 9 (-1)) = Ok awayAvgFor ->
  homeAvgFor <> NaN ->
  AtLeast (Math_round awayAvgFor) (of_Z 0) ->
  exists H A : Z,
    (0 <= A < H)%Z /\ (H <= 4)%Z
    /\ determineExactScore prediction teams goalsHome goalsAway
       = digits_of H ++ "-" ++ digits_of A.
Proof.
  intros Hp Eh Ea Nh Pa.
  rewrite (determineExactScore_read _ _ _ _ _ _ Eh Ea). cbv zeta.
  assert (E : is_string prediction "1" || is_string prediction "1X" = true)
    by (destruct Hp as [-> | ->]; reflexivity).
  rewrite E.
  destruct (reads_Math_round _ Nh) as [eh Rh].
  assert (Na : Math_round awayAvgFor <> NaN)
    by exact (proj2 (AtMost_not_NaN _ _ Pa)).
  assert (Na' : awayAvgFor <> NaN)
    by (intro K; rewrite K in Na; now apply Na).
  destruct (reads_Math_round _ Na') as [ea Ra].
  set (h0 := Math_round homeAvgFor) in *.
  set (a0 := Math_round awayAvgFor) in *.
  destruct (reads_AtLeast _ _ _ Ra Pa) as [-> | (z & -> & Hz)].
  - pose proof (reads_Math_max _ _ _ _ Rh (reads_add_one_inf _ Ra)) as Rm.
    rewrite (score_string _ _ _ _ Rm Ra).
    exists 4%Z, 3%Z. repeat split; try lia.
    destruct eh; reflexivity.
  - destruct (reads_add_one _ _ Hz Ra) as (e1 & R1 & Small & Big).
    pose proof (reads_Math_max _ _ _ _ Rh R1) as Rm.
    rewrite (score_string _ _ _ _ Rm Ra).
    exists (ext_clamp 4 (ext_max eh e1)), (ext_clamp 3 (Int z)).
    split; [| split; [| reflexivity]].
    + destruct (Z_le_gt_dec z 3) as [S | B].
      * rewrite (Small S). destruct eh; simpl; lia.
      * destruct (Big ltac:(lia)) as [-> | (w & -> & Hw)];
          destruct eh; simpl; lia.
    + destruct (ext_max eh e1); simpl; lia.
Qed.

Lemma determineExactScore_home_ahead_witness :
  exists H A : Z,
    (0 <= A < H)%Z /\ (H <= 4)%Z
    /\ determineExactScore (VStr "1X") Samples.open_match VUndef VUndef
       = digits_of H ++ "-" ++ digits_of A.
Proof.
  apply (determineExactScore_home_ahead (VStr "1X") Samples.open_match
           VUndef VUndef (parseFloat "1.8") (parseFloat "0.7")).
  - right. reflexivity.
  - apply average_of_text; [reflexivity | discriminate].
  - apply average_of_text; [reflexivity | discriminate].
  - vm_compute. discriminate.
  - apply le_iff. vm_compute. reflexivity.
Defined.

Lemma reads_AtMost (x : number) (e : ext) (k : Z) :
  reads x e -> AtMost x (of_Z k) ->
  e = NegInf \/ exists z, e = Int z /\ (z <= k)%Z.
Proof.
  intros R H.
  destruct x, e; simpl in R; try contradiction.
  - inversion H; subst; congruence.
  - now left.
  - right. exists z. split; [reflexivity |].
    unfold of_Z in H. apply AtMost_fin_iff in H.
    rewrite R in H. rewrite <- Zle_Qle in H. exact H.
Qed.

(** X10.  With "2" or "X2" the score has the away side strictly ahead when the
    two averages can be read, the home average rounds to 0, 1 or 2 and the
    away average is a number. *)
Theorem determineExactScore_away_ahead
    (prediction teams goalsHome goalsAway : value)
    (homeAvgFor awayAvgFor : number) :
  prediction = VStr "2" \/ prediction = VStr "X2" ->
  average teams "home" "for" "home" (literal 12 (-1)) = Ok homeAvgFor ->
  average teams "away" "for" "away" (literal 9 (-1)) = Ok awayAvgFor ->
  AtLeast (Math_round homeAvgFor) (of_Z 0) ->
  AtMost (Math_round homeAvgFor) (of_Z 2) ->
  awayAvgFor <> NaN ->
  exists H A : Z,
    (0 <= H < A)%Z /\ (A <= 3)%Z
    /\ determineExactScore prediction teams goalsHome goalsAway
       = digits_of H ++ "-" ++ digits_of A.
Proof.
  intros Hp Eh Ea Lo Hi Na.
  rewrite (determineExactScore_read _ _ _ _ _ _ Eh Ea). cbv zeta.
  assert (E : is_string prediction "1" || is_string prediction "1X" = false)
    by (destruct Hp as [-> | ->]; reflexivity).
  assert (E' : is_string prediction "2" || is_string prediction "X2" = true)
    by (destruct Hp as [-> | ->]; reflexivity).
  rewrite E, E'.
  destruct (reads_Math_round _ Na) as [ea Ra].
  assert (Nh : homeAvgFor <> NaN).
  { intro K. rewrite K in Lo. apply AtMost_not_NaN in Lo. now destruct Lo. }
  destruct (reads_Math_round _ Nh) as [eh Rh].
  set (h0 := Math_round homeAvgFor) in *.
  set (a0 := Math_round awayAvgFor) in *.
  destruct (reads_AtLeast _ _ _ Rh Lo) as [-> | (h & -> & Hlo)].
  { destruct (reads_AtMost _ _ _ Rh Hi) as [K | (z & K & _)]; discriminate K. }
  destruct (reads_AtMost _ _ _ Rh Hi) as [K | (z & K & Hhi)];
    [discriminate K |]. injection K as <-.
  destruct (reads_add_one _ _ Hlo Rh) as (e1 & R1 & Small & _).
  rewrite (Small ltac:(lia)) in R1.
  pose proof (reads_Math_max _ _ _ _ Ra R1) as Rm.
  rewrite (score_string _ _ _ _ Rh Rm).
  exists (ext_clamp 4 (Int h)), (ext_clamp 3 (ext_max ea (Int (h + 1)))).
  split; [| split; [| reflexivity]].
  - destruct ea; cbn [ext_clamp ext_max]; lia.
  - destruct ea; cbn [ext_clamp ext_max]; lia.
Qed.

Lemma determineExactScore_away_ahead_witness :
  exists H A : Z,
    (0 <= H < A)%Z /\ (A <= 3)%Z
    /\ determineExactScore (VStr "2") Samples.open_match VUndef VUndef
       = digits_of H ++ "-" ++ digits_of A.
Proof.
  apply (determineExactScore_away_ahead (VStr "2") Samples.open_match
           VUndef VUndef (parseFloat "1.8") (parseFloat "0.7")).
  - left. reflexivity.
  - apply average_of_text; [reflexivity | discriminate].
  - apply average_of_text; [reflexivity | discriminate].
  - apply le_iff. vm_compute. reflexivity.
  - apply le_iff. vm_compute. reflexivity.
  - vm_compute. discriminate.
Defined.

(** X11.  With "2" or "X2", two averages that can be read and a home average
    that rounds to 3 or more, the away side is not ahead: the away goals
    are capped at 3 while the home goals stay at 3 or 4, so the score is
    "3-3" or "4-3". *)
Theorem determineExactScore_away_capped
    (prediction teams goalsHome goalsAway : value)
    (homeAvgFor awayAvgFor : number) :
  prediction = VStr "2" \/ prediction = VStr "X2" ->
  average teams "home" "for" "home" (literal 12 (-1)) = Ok homeAvgFor ->
  average teams "away" "for" "away" (literal 9 (-1)) = Ok awayAvgFor ->
  AtLeast (Math_round homeAvgFor) (of_Z 3) ->
  awayAvgFor <> NaN ->
  determineExactScore prediction teams goalsHome goalsAway = "3-3"
  \/ determineExactScore prediction teams goalsHome goalsAway = "4-3".
Proof.
  intros Hp Eh Ea Lo Na.
  rewrite (determineExactScore_read _ _ _ _ _ _ Eh Ea). cbv zeta.
  assert (E : is_string prediction "1" || is_string prediction "1X" = false)
    by (destruct Hp as [-> | ->]; reflexivity).
  assert (E' : is_string prediction "2" || is_string prediction "X2" = true)
    by (destruct Hp as [-> | ->]; reflexivity).
  rewrite E, E'.
  destruct (reads_Math_round _ Na) as [ea Ra].
  assert (Nh : homeAvgFor <> NaN).
  { intro K. rewrite K in Lo. apply AtMost_not_NaN in Lo. now destruct Lo. }
  destruct (reads_Math_round _ Nh) as [eh Rh].
  set (h0 := Math_round homeAvgFor) in *.
  set (a0 := Math_round awayAvgFor) in *.
  assert (A3 : forall e1,
             e1 = PosInf \/ (exists w, e1 = Int w /\ (4 <= w)%Z) ->
             ext_clamp 3 (ext_max ea e1) = 3%Z).
  { intros e1 [-> | (w & -> & Hw)]; destruct ea; cbn [ext_clamp ext_max]; lia. }
  destruct (reads_AtLeast _ _ _ Rh Lo) as [-> | (h & -> & Hlo)].
  - pose proof (reads_Math_max _ _ _ _ Ra (reads_add_one_inf _ Rh)) as Rm.
    rewrite (score_string _ _ _ _ Rh Rm).
    rewrite (A3 PosInf) by tauto. right. reflexivity.
  - assert (H0 : (0 <= h)%Z) by lia.
    destruct (reads_add_one _ _ H0 Rh) as (e1 & R1 & _ & Big).
    pose proof (reads_Math_max _ _ _ _ Ra R1) as Rm.
    rewrite (score_string _ _ _ _ Rh Rm).
    rewrite (A3 e1) by (apply Big; lia).
    cbn [ext_clamp].
    destruct (Z.eq_dec h 3) as [-> | N].
    + left. reflexivity.
    + right. replace (Z.min (Z.max h 0) 4) with 4%Z by lia. reflexivity.
Qed.

Lemma determineExactScore_away_capped_witness :
  determineExactScore (VStr "2") Samples.prolific_home VUndef VUndef = "3-3"
  \/ determineExactScore (VStr "2") Samples.prolific_home VUndef VUndef = "4-3".
Proof.
  apply (determineExactScore_away_capped (VStr "2") Samples.prolific_home
           VUndef VUndef (parseFloat "3.6") (parseFloat "0.7")).
  - left. reflexivity.
  - apply average_of_text; [reflexivity | discriminate].
  - apply average_of_text; [reflexivity | discriminate].
  - apply le_iff. vm_compute. reflexivity.
  - vm_compute. discriminate.
Defined.

Lemma is_string_false (v : value) (s : string) :
  v <> VStr s -> is_string v s = false.
Proof.
  intros H. destruct v; try reflexivity. simpl.
  destruct (String.eqb_spec s0 s); [subst; now destruct H | reflexivity].
Qed.

(** X12.  Without statistics (both averages missing or falsy) the score follows
    the prediction alone: "2-1" for "1" and "1X", "1-2" for "2" and "X2",
    "1-1" for anything else. *)
Theorem determineExactScore_without_stats
    (prediction teams goalsHome goalsAway : value) :
  truthy (opt_chain teams ["home"; "league"; "goals"; "for"; "average"; "home"])
  = false ->
  truthy (opt_chain teams ["away"; "league"; "goals"; "for"; "average"; "away"])
  = false ->
  (prediction = VStr "1" \/ prediction = VStr "1X" ->
     determineExactScore prediction teams goalsHome goalsAway = "2-1")
  /\ (prediction = VStr "2" \/ prediction = VStr "X2" ->
      determineExactScore prediction teams goalsHome goalsAway = "1-2")
  /\ (prediction <> VStr "1" -> prediction <> VStr "1X" ->
      prediction <> VStr "2" -> prediction <> VStr "X2" ->
      determineExactScore prediction teams goalsHome goalsAway = "1-1").
Proof.
  intros Hh Ha.
  assert (Eh : average teams "home" "for" "home" (literal 12 (-1))
               = Ok (literal 12 (-1))).
  { unfold average, or_else. rewrite Hh. vm_compute. reflexivity. }
  assert (Ea : average teams "away" "for" "away" (literal 9 (-1))
               = Ok (literal 9 (-1))).
  { unfold average, or_else. rewrite Ha. vm_compute. reflexivity. }
  unfold determineExactScore. rewrite Eh, Ea. cbn [bind try_catch].
  split; [| split].
  - intros [-> | ->]; vm_compute; reflexivity.
  - intros [-> | ->]; vm_compute; reflexivity.
  - intros N1 N2 N3 N4.
    rewrite (is_string_false _ _ N1), (is_string_false _ _ N2),
      (is_string_false _ _ N3), (is_string_false _ _ N4).
    cbn [orb]. destruct (is_string prediction "X"); vm_compute; reflexivity.
Qed.

Lemma determineExactScore_without_stats_witness :
  determineExactScore (VStr "1") (VObj []) VUndef VUndef = "2-1".
Proof.
  apply (determineExactScore_without_stats (VStr "1") (VObj []) VUndef VUndef).
  - reflexivity.
  - reflexivity.
  - left. reflexivity.
Defined.

(** ** [fetchPrediction] *)

Import Handler.

Lemma overUnder_label_in (goalsHome goalsAway advice : value) (label : string) :
  determineOverUnder goalsHome goalsAway advice = Ok label ->
  In label ["Over 2.5"; "Under 3.5"; "Under 2.5"].
Proof.
  unfold determineOverUnder.
  destruct (overUnderFromGoals_cases goalsHome goalsAway)
    as [[_ [E | E]] | [_ E]]; rewrite E;
    try (intros H; injection H as <-; simpl; tauto).
  destruct (truthy advice); [| intros H; injection H as <-; simpl; tauto].
  destruct (call_includes advice "+2.5") as [[|] |]; cbn [bind];
    try discriminate; try (intros H; injection H as <-; simpl; tauto).
  destruct (call_includes advice "+3.5") as [[|] |]; cbn [bind];
    try discriminate; try (intros H; injection H as <-; simpl; tauto).
  destruct (call_includes advice "-2.5") as [[|] |]; cbn [bind];
    try discriminate; try (intros H; injection H as <-; simpl; tauto).
  destruct (call_includes advice "-3.5") as [[|] |]; cbn [bind];
    try discriminate; intros H; injection H as <-; simpl; tauto.
Qed.

Lemma overUnder_text_advice (goalsHome goalsAway : value) (a : string) :
  exists label, determineOverUnder goalsHome goalsAway (VStr a) = Ok label.
Proof.
  destruct (overUnderFromGoals goalsHome goalsAway) as [l |] eqn:E.
  - exists l. unfold determineOverUnder. now rewrite E.
  - eexists. exact (determineOverUnder_advice _ _ _ E).
Qed.

Lemma btts_in (teams comparison : value) :
  In (determineBTTS teams comparison) ["Oui"; "Non"].
Proof.
  unfold determineBTTS.
  repeat match goal with
         | |- context [average ?t ?s ?k ?sp ?d] =>
             destruct (average t s k sp d) as [? |];
             cbn [bind try_catch]; [| simpl; tauto]
         end.
  repeat match goal with
         | |- context [if ?b then _ else _] => destruct b
         end; simpl; tauto.
Qed.

(** The payload that [classify] reads the percentages and the advice
    from: [pred.predictions || {}] of the first entry of the response. *)
Lemma classify_some_inv (fixtureId : value) (fixtureInfo : fixture_info)
    (data : value) (r : row) :
  classify fixtureId fixtureInfo data = Ok (Some r) ->
  let pred := opt_first (own "response" data) in
  let predictions := or_else (own "predictions" pred) (VObj []) in
  let percent := or_else (own "percent" predictions) (VObj []) in
  let goals := or_else (own "goals" predictions) (VObj []) in
  let teams := or_else (own "teams" pred) (VObj []) in
  let homePct := or_else (own "home" percent) (VStr "33%") in
  let drawPct := or_else (own "draw" percent) (VStr "33%") in
  let awayPct := or_else (own "away" percent) (VStr "33%") in
  let o := determinePrediction homePct awayPct drawPct
             (fix_home fixtureInfo) (fix_away fixtureInfo) in
  truthy pred = true
  /\ exists overUnder,
       determineOverUnder (own "home" goals) (own "away" goals)
         (or_else (own "advice" predictions) (VStr "")) = Ok overUnder
       /\ r = {| id := fixtureId;
                 time := fix_time fixtureInfo;
                 league := fix_league fixtureInfo;
                 home := fix_home fixtureInfo;
                 away := fix_away fixtureInfo;
                 home_pct := homePct;
                 draw_pct := drawPct;
                 away_pct := awayPct;
                 row_prediction := prediction o;
                 prediction_text := text o;
                 over_under := overUnder;
                 btts := determineBTTS teams
                           (or_else (own "comparison" pred) (VObj []));
                 exact_score :=
                   determineExactScore (VStr (prediction o)) teams
                     (own "home" goals) (own "away" goals);
                 confidence := getConfidence homePct awayPct drawPct;
                 advice := or_else (own "advice" predictions) (VStr "") |}.
Proof.
  unfold classify, get.
  destruct data; cbn [bind]; try discriminate;
    (destruct (truthy (opt_first _)) eqn:T; cbn [negb]; [| discriminate];
     match goal with
     | |- context [determineOverUnder ?a ?b ?c] =>
         destruct (determineOverUnder a b c) as [ou |] eqn:E
     end; cbn [bind]; [| discriminate];
     intros H; injection H as <-;
     split; [reflexivity | exists ou; split; reflexivity]).
Qed.

(** [fetchPrediction] on an id that can be converted: one request, and
    [null] for whatever goes wrong after it. *)
Lemma fetchPrediction_convertible (w : world) (fixtureId : value)
    (fixtureInfo : fixture_info) (log : list string) (url : string) :
  predictions_url fixtureId = Ok url ->
  fetchPrediction w fixtureId fixtureInfo log
  = (Ok (try_catch (bind (respond w log url)
                         (fun data => classify fixtureId fixtureInfo data))
                   None),
     (log ++ [url])%list).
Proof.
  intros E. unfold fetchPrediction, andThen, fetch_json, ret. rewrite E.
  assert (M : error_message fixtureId <> Throw).
  { unfold predictions_url in E. unfold error_message.
    destruct (toStr fixtureId); [discriminate | discriminate E]. }
  destruct (respond w log url) as [data |]; cbn [bind try_catch].
  - destruct (classify fixtureId fixtureInfo data) as [r |];
      cbn [try_catch]; [reflexivity |].
    destruct (error_message fixtureId); [reflexivity | now destruct M].
  - destruct (error_message fixtureId); [reflexivity | now destruct M].
Qed.

(** On an id that cannot be converted the promise is rejected before any
    request. *)
Lemma fetchPrediction_unconvertible (w : world) (fixtureId : value)
    (fixtureInfo : fixture_info) (log : list string) :
  toStr fixtureId = Throw ->
  fetchPrediction w fixtureId fixtureInfo log = (Throw, log).
Proof.
  intros E.
  unfold fetchPrediction, predictions_url, error_message, andThen, ret.
  rewrite E. reflexivity.
Qed.

Lemma fetchPrediction_some_inv (w : world) (fixtureId : value)
    (fixtureInfo : fixture_info) (log : list string) (r : row) :
  fst (fetchPrediction w fixtureId fixtureInfo log) = Ok (Some r) ->
  exists url data,
    predictions_url fixtureId = Ok url
    /\ respond w log url = Ok data
    /\ classify fixtureId fixtureInfo data = Ok (Some r).
Proof.
  destruct (predictions_url fixtureId) as [url |] eqn:U.
  - rewrite (fetchPrediction_convertible _ _ _ _ _ U). cbn [fst].
    destruct (respond w log url) as [data |] eqn:R; cbn [bind try_catch];
      [| discriminate].
    destruct (classify fixtureId fixtureInfo data) as [[r' |] |] eqn:C;
      cbn [try_catch]; try discriminate.
    intros H. injection H as <-. exists url, data. auto.
  - unfold predictions_url in U.
    destruct (toStr fixtureId) eqn:T; [discriminate U |].
    rewrite (fetchPrediction_unconvertible _ _ _ _ T). discriminate.
Qed.

(** X13.  Every row that [fetchPrediction] returns is well formed: it carries
    the fixture's identity, one of the five outcome codes, a tier from 2
    to 4, one of the three over/under labels and "Oui" or "Non"; its
    percentages are never empty; and its prediction, text and tier are
    those of [determinePrediction] and [getConfidence] on the percentages
    and names stored in the row itself. *)
Theorem fetchPrediction_row_well_formed (w : world) (fixtureId : value)
    (fixtureInfo : fixture_info) (log : list string) (r : row) :
  fst (fetchPrediction w fixtureId fixtureInfo log) = Ok (Some r) ->
  (Handler.id r = fixtureId /\ Handler.time r = fix_time fixtureInfo
   /\ Handler.home r = fix_home fixtureInfo
   /\ Handler.away r = fix_away fixtureInfo)
  /\ In (row_prediction r) outcome_codes
  /\ (2 <= Handler.confidence r <= 4)%Z
  /\ In (over_under r) ["Over 2.5"; "Under 3.5"; "Under 2.5"]
  /\ In (Handler.btts r) ["Oui"; "Non"]
  /\ (truthy (home_pct r) = true /\ truthy (draw_pct r) = true
      /\ truthy (away_pct r) = true)
  /\ {| prediction := row_prediction r; text := prediction_text r |}
     = determinePrediction (home_pct r) (away_pct r) (draw_pct r)
         (Handler.home r) (Handler.away r)
  /\ Handler.confidence r
     = getConfidence (home_pct r) (away_pct r) (draw_pct r).
Proof.
  intros H.
  destruct (fetchPrediction_some_inv _ _ _ _ _ H) as (url & data & _ & _ & C).
  destruct (classify_some_inv _ _ _ _ C) as (_ & ou & Hou & ->).
  cbn [Handler.id Handler.time Handler.home Handler.away row_prediction
       Handler.confidence over_under Handler.btts home_pct draw_pct away_pct
       prediction_text].
  assert (Tr : forall v, truthy (or_else v (VStr "33%")) = true).
  { intros v. unfold or_else. destruct (truthy v) eqn:T; [exact T | reflexivity]. }
  repeat split; try apply Tr.
  - apply prediction_in_codes.
  - match goal with
    | |- context [getConfidence ?a ?b ?c] =>
        pose proof (getConfidence_range a b c) as G
    end.
    cbv zeta in G. lia.
  - match goal with
    | |- context [getConfidence ?a ?b ?c] =>
        pose proof (getConfidence_range a b c) as G
    end.
    cbv zeta in G. lia.
  - exact (overUnder_label_in _ _ _ _ Hou).
  - apply btts_in.
  - destruct (determinePrediction _ _ _ _ _). reflexivity.
Qed.

Lemma fetchPrediction_row_well_formed_witness :
  exists r,
    fst (fetchPrediction Samples.busy_day (VNum (of_Z 7))
           {| fix_id := VNum (of_Z 7); fix_time := "20:45";
              fix_league := VStr "Premier League";
              fix_home := VStr "Arsenal"; fix_away := VStr "Chelsea" |} [])
    = Ok (Some r)
    /\ In (row_prediction r) outcome_codes
    /\ (2 <= Handler.confidence r <= 4)%Z.
Proof.
  eexists. split; [vm_compute; reflexivity |].
  match goal with
  | |- In (row_prediction ?R) _ /\ _ =>
      destruct (fetchPrediction_row_well_formed Samples.busy_day
                  (VNum (of_Z 7))
                  {| fix_id := VNum (of_Z 7); fix_time := "20:45";
                     fix_league := VStr "Premier League";
                     fix_home := VStr "Arsenal"; fix_away := VStr "Chelsea" |}
                  [] R)
        as (_ & Hc & Hconf & _);
        [vm_compute; reflexivity | split; assumption]
  end.
Defined.

(** X14.  What becomes of a fixture.  When its id cannot be converted to a
    string the promise of [fetchPrediction] is rejected and no request is
    made.  Otherwise one request is made, and the result is [null] if the
    request fails, if the decoded body is [null] or has no first entry
    under [response]; it is a row if there is such an entry and its
    advice is a string or is missing. *)
Theorem fetchPrediction_dropped_or_kept (w : world) (fixtureId : value)
    (fixtureInfo : fixture_info) (log : list string) :
  (toStr fixtureId = Throw ->
   fetchPrediction w fixtureId fixtureInfo log = (Throw, log))
  /\ (forall url,
        predictions_url fixtureId = Ok url ->
        let answer := respond w log url in
        snd (fetchPrediction w fixtureId fixtureInfo log) = (log ++ [url])%list
        /\ (answer = Throw
            \/ (exists data,
                   answer = Ok data
                   /\ (nullish data
                       \/ truthy (opt_first (own "response" data)) = false)) ->
            fst (fetchPrediction w fixtureId fixtureInfo log) = Ok None)
        /\ (forall data,
              answer = Ok data ->
              truthy (opt_first (own "response" data)) = true ->
              let predictions :=
                or_else (own "predictions" (opt_first (own "response" data)))
                        (VObj []) in
              is_text (own "advice" predictions)
              \/ truthy (own "advice" predictions) = false ->
              exists r,
                fst (fetchPrediction w fixtureId fixtureInfo log)
                = Ok (Some r))).
Proof.
  split; [apply fetchPrediction_unconvertible |].
  intros url U answer. subst answer.
  rewrite (fetchPrediction_convertible _ _ _ _ _ U). cbn [fst snd].
  split; [reflexivity |]. split.
  - intros [-> | (data & -> & [[-> | ->] | F])]; try reflexivity.
    cbn [bind try_catch]. unfold classify, get.
    destruct data; cbn [bind try_catch]; try reflexivity;
      rewrite F; reflexivity.
  - intros data -> T Hadv.
    cbn [bind try_catch]. unfold classify, get.
    set (predictions :=
           or_else (own "predictions" (opt_first (own "response" data)))
                   (VObj [])) in *.
    assert (Nn : data <> VUndef /\ data <> VNull).
    { split; intros ->; simpl in T; discriminate T. }
    assert (A : exists a,
               or_else (own "advice" predictions) (VStr "") = VStr a).
    { unfold or_else. destruct Hadv as [[a Ha] | F].
      - rewrite Ha. destruct (truthy (VStr a)); eauto.
      - rewrite F. eauto. }
    destruct A as [a Ea]. subst predictions.
    destruct data; try (now destruct Nn); cbn [bind try_catch];
      rewrite T; cbn [negb]; rewrite Ea;
      match goal with
      | |- context [determineOverUnder ?x ?y (VStr a)] =>
          destruct (overUnder_text_advice x y a) as [l ->]
      end; cbn [bind try_catch]; eexists; reflexivity.
Qed.

Lemma fetchPrediction_dropped_or_kept_witness :
  fetchPrediction Samples.busy_day (VObj [("toString", VNum (of_Z 1))])
    {| fix_id := VObj [("toString", VNum (of_Z 1))]; fix_time := "20:45";
       fix_league := VStr "Premier League";
       fix_home := VStr "Arsenal"; fix_away := VStr "Chelsea" |} []
  = (Throw, [])
  /\ exists r,
       fst (fetchPrediction Samples.busy_day (VNum (of_Z 7))
              {| fix_id := VNum (of_Z 7); fix_time := "20:45";
                 fix_league := VStr "Premier League";
                 fix_home := VStr "Arsenal"; fix_away := VStr "Chelsea" |} [])
       = Ok (Some r).
Proof.
  split.
  - apply (fetchPrediction_dropped_or_kept Samples.busy_day
             (VObj [("toString", VNum (of_Z 1))])).
    reflexivity.
  - destruct (fetchPrediction_dropped_or_kept Samples.busy_day (VNum (of_Z 7))
                {| fix_id := VNum (of_Z 7); fix_time := "20:45";
                   fix_league := VStr "Premier League";
                   fix_home := VStr "Arsenal"; fix_away := VStr "Chelsea" |} [])
      as (_ & H).
    destruct (H _ eq_refl) as (_ & _ & K).
    apply (K Samples.prediction_payload).
    + vm_compute. reflexivity.
    + vm_compute. reflexivity.
    + left. eexists. vm_compute. reflexivity.
Defined.

(** X15.  A payload without percentages is read as 33% / 33% / 33%, at tier
    2: the row says "X2" for the away side when the away name can be
    written in the text, and falls back to ("X", "Match Nul") when it
    cannot. *)
Theorem fetchPrediction_without_percentages (w : world) (fixtureId : value)
    (fixtureInfo : fixture_info) (log : list string) (url : string)
    (data : value) (r : row) :
  predictions_url fixtureId = Ok url ->
  respond w log url = Ok data ->
  fst (fetchPrediction w fixtureId fixtureInfo log) = Ok (Some r) ->
  let percent :=
    or_else (own "percent"
               (or_else (own "predictions" (opt_first (own "response" data)))
                        (VObj [])))
            (VObj []) in
  truthy (own "home" percent) = false ->
  truthy (own "draw" percent) = false ->
  truthy (own "away" percent) = false ->
  home_pct r = VStr "33%" /\ draw_pct r = VStr "33%"
  /\ away_pct r = VStr "33%"
  /\ Handler.confidence r = 2%Z
  /\ (forall awayName,
        toStr (fix_away fixtureInfo) = Ok awayName ->
        row_prediction r = "X2" /\ prediction_text r = "DC " ++ awayName)
  /\ (toStr (fix_away fixtureInfo) = Throw ->
      row_prediction r = "X" /\ prediction_text r = "Match Nul").
Proof.
  intros U Hresp Hr percent Fh Fd Fa.
  rewrite (fetchPrediction_convertible _ _ _ _ _ U) in Hr. cbn [fst] in Hr.
  rewrite Hresp in Hr. cbn [bind try_catch] in Hr.
  destruct (classify fixtureId fixtureInfo data) as [[r' |] |] eqn:C;
    cbn [try_catch] in Hr; try discriminate Hr.
  injection Hr as <-.
  destruct (classify_some_inv _ _ _ _ C) as (_ & ou & _ & ->).
  fold percent.
  cbn [home_pct draw_pct away_pct row_prediction prediction_text
       Handler.confidence].
  assert (Eh : or_else (own "home" percent) (VStr "33%") = VStr "33%")
    by (unfold or_else; now rewrite Fh).
  assert (Ed : or_else (own "draw" percent) (VStr "33%") = VStr "33%")
    by (unfold or_else; now rewrite Fd).
  assert (Ea : or_else (own "away" percent) (VStr "33%") = VStr "33%")
    by (unfold or_else; now rewrite Fa).
  rewrite Eh, Ed, Ea.
  assert (P : parsePct (VStr "33%") = Ok (of_Z 33)) by (vm_compute; reflexivity).
  assert (D : determinePrediction (VStr "33%") (VStr "33%") (VStr "33%")
                (fix_home fixtureInfo) (fix_away fixtureInfo)
              = try_catch (returns "X2" (DC (fix_away fixtureInfo)))
                          {| prediction := "X"; text := "Match Nul" |}).
  { unfold determinePrediction. rewrite P. cbn [bind try_catch].
    replace (ge (of_Z 33) (of_Z 45)) with false by (vm_compute; reflexivity).
    replace (ge (of_Z 33) (of_Z 35)) with false by (vm_compute; reflexivity).
    replace (ge (of_Z 33) (of_Z 40)) with false by (vm_compute; reflexivity).
    replace (gt (of_Z 33) (of_Z 33)) with false by (vm_compute; reflexivity).
    reflexivity. }
  rewrite D.
  split; [reflexivity |]. split; [reflexivity |]. split; [reflexivity |].
  split; [vm_compute; reflexivity |].
  split.
  - intros an Hn. rewrite (returns_DC _ _ _ Hn). split; reflexivity.
  - intros Hn. rewrite (returns_DC_throw _ _ Hn). split; reflexivity.
Qed.

Lemma fetchPrediction_without_percentages_witness :
  exists r,
    fst (fetchPrediction
           {| respond := fun _ _ => Ok (VObj [("response", VArr [VObj [("predictions", VObj [("advice", VStr "No predictions available")])]])]);
              localeCompare := fun _ _ => 0%Z |}
           (VNum (of_Z 7))
           {| fix_id := VNum (of_Z 7); fix_time := "20:45";
              fix_league := VStr "Premier League";
              fix_home := VStr "Arsenal"; fix_away := VStr "Chelsea" |} [])
    = Ok (Some r)
    /\ row_prediction r = "X2" /\ Handler.confidence r = 2%Z.
Proof.
  eexists. split; [vm_compute; reflexivity |].
  match goal with
  | |- row_prediction ?R = _ /\ _ =>
      destruct (fetchPrediction_without_percentages
                  {| respond := fun _ _ => Ok (VObj [("response", VArr [VObj [("predictions", VObj [("advice", VStr "No predictions available")])]])]);
                     localeCompare := fun _ _ => 0%Z |}
                  (VNum (of_Z 7))
                  {| fix_id := VNum (of_Z 7); fix_time := "20:45";
                     fix_league := VStr "Premier League";
                     fix_home := VStr "Arsenal"; fix_away := VStr "Chelsea" |}
                  [] _ _ R eq_refl eq_refl)
        as (_ & _ & _ & Hc & Hp & _);
        [ vm_compute; reflexivity | reflexivity | reflexivity | reflexivity
        | split; [exact (proj1 (Hp "Chelsea" eq_refl)) | exact Hc] ]
  end.
Defined.

(** ** The fixture filter *)

Import FixtureView.

Lemma get_ok_inv (k : string) (v x : value) :
  get k v = Ok x -> x = own k v /\ ~ nullish v.
Proof.
  unfold get, nullish.
  destruct v; intros H; try discriminate H; injection H as <-;
    (split; [reflexivity | intros [K | K]; discriminate K]).
Qed.

Lemma get_throw_iff (k : string) (v : value) : get k v = Throw <-> nullish v.
Proof.
  unfold get, nullish. destruct v; split; intros H;
    try reflexivity; try discriminate H; try tauto;
    destruct H as [K | K]; discriminate K.
Qed.

Lemma some_includes_inv (name : value) (kws : list string) (b : bool) :
  some (fun kw => call_includes name kw) kws = Ok b ->
  b = existsb (name_has name) kws.
Proof.
  revert b. induction kws as [| kw kws IH]; intros b H.
  - injection H as <-. reflexivity.
  - cbn [some existsb] in *.
    destruct name; cbn [call_includes bind name_has] in *;
      try discriminate H.
    + destruct (includes kw s); [now injection H as <- | now apply IH].
    + destruct (existsb (fun x => is_string x kw) xs);
        [now injection H as <- | now apply IH].
Qed.

Lemma importantFixtures_ok_inv (fixtures : list value)
    (important : list fixture_info) :
  importantFixtures fixtures = Ok important ->
  important = map info_of (filter is_important fixtures).
Proof.
  revert important.
  induction fixtures as [| f rest IH]; intros important H.
  - injection H as <-. reflexivity.
  - cbn [importantFixtures] in H. cbn [filter].
    destruct (get "league" f) as [lg |] eqn:E1; cbn [bind] in H;
      [| discriminate H].
    apply get_ok_inv in E1. destruct E1 as [-> _].
    destruct (get "id" (own "league" f)) as [lid |] eqn:E2; cbn [bind] in H;
      [| discriminate H].
    apply get_ok_inv in E2. destruct E2 as [-> _].
    destruct (get "name" (own "league" f)) as [lname |] eqn:E3;
      cbn [bind] in H; [| discriminate H].
    apply get_ok_inv in E3. destruct E3 as [-> _].
    fold (league_id f) in H. fold (league_name f) in H.
    destruct (in_PRIORITY_LEAGUES (league_id f)) as [isPriority |] eqn:P;
      cbn [bind] in H; [| discriminate H].
    destruct (some _ important_keywords) as [kwd |] eqn:E4; cbn [bind] in H;
      [| discriminate H].
    apply some_includes_inv in E4. subst kwd.
    unfold is_important at 1. rewrite P. cbn [try_catch].
    destruct (isPriority
              || existsb (name_has (league_name f)) important_keywords).
    + destruct (get "fixture" f) as [fx |] eqn:F1; cbn [bind] in H;
        [| discriminate H].
      apply get_ok_inv in F1. destruct F1 as [-> _].
      destruct (get "id" (own "fixture" f)) as [fid |] eqn:F2;
        cbn [bind] in H; [| discriminate H].
      apply get_ok_inv in F2. destruct F2 as [-> _].
      destruct (get "date" (own "fixture" f)) as [date |] eqn:F3;
        cbn [bind] in H; [| discriminate H].
      apply get_ok_inv in F3. destruct F3 as [-> _].
      destruct (call_substring (own "date" (own "fixture" f)) 11 16)
        as [tm |] eqn:F4; cbn [bind] in H; [| discriminate H].
      assert (Etm : tm = substring 11 16 (text_of (own "date" (own "fixture" f)))).
      { destruct (own "date" (own "fixture" f)); try discriminate F4.
        now injection F4 as <-. }
      subst tm.
      destruct (get "teams" f) as [teams |] eqn:T1; cbn [bind] in H;
        [| discriminate H].
      apply get_ok_inv in T1. destruct T1 as [-> _].
      destruct (get "home" (own "teams" f)) as [th |] eqn:T2;
        cbn [bind] in H; [| discriminate H].
      apply get_ok_inv in T2. destruct T2 as [-> _].
      destruct (get "name" (own "home" (own "teams" f))) as [hn |] eqn:T3;
        cbn [bind] in H; [| discriminate H].
      apply get_ok_inv in T3. destruct T3 as [-> _].
      destruct (get "away" (own "teams" f)) as [ta |] eqn:T4;
        cbn [bind] in H; [| discriminate H].
      apply get_ok_inv in T4. destruct T4 as [-> _].
      destruct (get "name" (own "away" (own "teams" f))) as [an |] eqn:T5;
        cbn [bind] in H; [| discriminate H].
      apply get_ok_inv in T5. destruct T5 as [-> _].
      destruct (importantFixtures rest) as [more |]; cbn [bind] in H;
        [| discriminate H].
      injection H as <-. cbn [map]. rewrite (IH more eq_refl). reflexivity.
    + now apply IH.
Qed.

Lemma get_ok (k : string) (v : value) : ~ nullish v -> get k v = Ok (own k v).
Proof.
  unfold get, nullish. destruct v; intros H; try reflexivity; tauto.
Qed.

(** X16.  The loop over the fixtures is a filter followed by a map.  When it
    completes, what it has collected is the fixtures of a priority league
    or with an important keyword in the league name, in their order, each
    reduced to its five fields; and it does complete when every fixture
    is well formed. *)
Theorem importantFixtures_is_filter (fixtures : list value) :
  (forall important,
      importantFixtures fixtures = Ok important ->
      important = map info_of (filter is_important fixtures))
  /\ (Forall well_formed fixtures ->
      importantFixtures fixtures
      = Ok (map info_of (filter is_important fixtures))).
Proof.
  split; [apply importantFixtures_ok_inv |].
  induction 1 as [| f rest Hf _ IH]; [reflexivity |].
  destruct Hf as (N0 & N1 & [key Hkey] & Hinc & Hkept).
  cbn [importantFixtures filter].
  rewrite (get_ok "league" f N0). cbn [bind].
  rewrite (get_ok "id" _ N1), (get_ok "name" _ N1). cbn [bind].
  fold (league_name f). fold (league_id f).
  assert (P : in_PRIORITY_LEAGUES (league_id f)
              = Ok (try_catch (in_PRIORITY_LEAGUES (league_id f)) false)).
  { unfold in_PRIORITY_LEAGUES. rewrite Hkey. reflexivity. }
  rewrite P. cbn [bind].
  rewrite (some_includes_ok _ _ Hinc). cbn [bind].
  fold (is_important f).
  destruct (is_important f) eqn:E.
  - destruct (Hkept eq_refl) as (F0 & [d Hd] & T0 & T1 & T2).
    rewrite (get_ok "fixture" f N0). cbn [bind].
    rewrite (get_ok "id" _ F0), (get_ok "date" _ F0). cbn [bind].
    assert (S : call_substring (own "date" (own "fixture" f)) 11 16
                = Ok (substring 11 16 (text_of (own "date" (own "fixture" f)))))
      by (rewrite Hd; reflexivity).
    rewrite S. cbn [bind].
    rewrite (get_ok "teams" f N0). cbn [bind].
    rewrite (get_ok "home" _ T0). cbn [bind].
    rewrite (get_ok "name" _ T1). cbn [bind].
    rewrite (get_ok "away" _ T0). cbn [bind].
    rewrite (get_ok "name" _ T2). cbn [bind].
    rewrite IH. reflexivity.
  - exact IH.
Qed.

Lemma importantFixtures_is_filter_witness :
  importantFixtures
    [Samples.fixture 1;
     VObj [("league", VObj [("id", VNum (of_Z 4242));
                            ("name", VStr "Friendlies")])];
     Samples.fixture 2]
  = Ok [info_of (Samples.fixture 1); info_of (Samples.fixture 2)].
Proof.
  apply (importantFixtures_is_filter
           [Samples.fixture 1;
            VObj [("league", VObj [("id", VNum (of_Z 4242));
                                   ("name", VStr "Friendlies")])];
            Samples.fixture 2]).
  assert (W : forall n, well_formed (Samples.fixture n)).
  { intros n. unfold well_formed.
    split; [intros [K | K]; discriminate K |].
    split; [intros [K | K]; discriminate K |].
    split; [exists "39"; vm_compute; reflexivity |].
    split; [left; eexists; reflexivity |].
    intros _.
    split; [intros [K | K]; discriminate K |].
    split; [eexists; reflexivity |].
    split; [intros [K | K]; discriminate K |].
    split; intros [K | K]; discriminate K. }
  constructor; [apply W |].
  constructor; [| constructor; [apply W | constructor]].
  unfold well_formed.
  split; [intros [K | K]; discriminate K |].
  split; [intros [K | K]; discriminate K |].
  split; [exists "4242"; vm_compute; reflexivity |].
  split; [left; eexists; reflexivity |].
  intros K. vm_compute in K. discriminate K.
Defined.

(** One fixture without a league ([null], or with [league] missing)
    anywhere in the list makes the whole loop throw, whatever the other
    fixtures are. *)
Lemma importantFixtures_poisoned (fixtures : list value) (f : value) :
  In f fixtures ->
  nullish f \/ nullish (own "league" f) ->
  importantFixtures fixtures = Throw.
Proof.
  intros Hin Hbad.
  induction fixtures as [| f0 rest IH]; [destruct Hin |].
  cbn [importantFixtures].
  destruct Hin as [-> | Hin].
  - destruct Hbad as [N | N].
    + apply (get_throw_iff "league") in N. now rewrite N.
    + destruct (get "league" f) as [lg |] eqn:E; [| reflexivity].
      apply get_ok_inv in E. destruct E as [-> _]. cbn [bind].
      apply (get_throw_iff "id") in N. now rewrite N.
  - rewrite (IH Hin).
    repeat match goal with
           | |- context [bind ?c _] =>
               lazymatch c with
               | Throw => fail
               | _ => destruct c; cbn [bind]
               end
           | |- context [if ?b then _ else _] => destruct b
           end; reflexivity.
Qed.

(** ** The order of the rows *)

Lemma insert_by_perm (w : world) (r : row) (sorted : list row) :
  Permutation (insert_by w r sorted) (r :: sorted).
Proof.
  induction sorted as [| x rest IH]; cbn [insert_by]; [apply Permutation_refl |].
  destruct (localeCompare w (Handler.time r) (Handler.time x) <? 0)%Z.
  - apply Permutation_refl.
  - eapply Permutation_trans; [apply perm_skip; exact IH | apply perm_swap].
Qed.

Lemma sort_by_time_perm (w : world) (rows : list row) :
  Permutation (sort_by_time w rows) rows.
Proof.
  unfold sort_by_time.
  assert (G : forall acc,
             Permutation (fold_left (fun acc r => insert_by w r acc) rows acc)
                         (rows ++ acc)%list).
  { induction rows as [| r rows IH]; intros acc; cbn [fold_left app].
    - apply Permutation_refl.
    - eapply Permutation_trans; [apply IH |].
      eapply Permutation_trans;
        [apply Permutation_app_head; apply insert_by_perm |].
      apply Permutation_sym. apply Permutation_middle. }
  specialize (G []). now rewrite app_nil_r in G.
Qed.

Import RowOrder.

Lemma insert_by_HdRel (w : world) (x r : row) (l : list row) :
  HdRel (before w) x l -> before w x r -> HdRel (before w) x (insert_by w r l).
Proof.
  intros Hl Hr. destruct l as [| y rest]; cbn [insert_by].
  - now constructor.
  - destruct (localeCompare w (Handler.time r) (Handler.time y) <? 0)%Z.
    + now constructor.
    + constructor. now inversion Hl.
Qed.

Lemma insert_by_sorted (w : world) (r : row) (l : list row) :
  coherent w -> Sorted (before w) l -> Sorted (before w) (insert_by w r l).
Proof.
  intros Hc. induction l as [| x rest IH]; intros Hs; cbn [insert_by].
  - constructor; constructor.
  - destruct (localeCompare w (Handler.time r) (Handler.time x) <? 0)%Z eqn:E.
    + constructor; [exact Hs |]. constructor.
      apply Z.ltb_lt in E. unfold before. lia.
    + apply Z.ltb_ge in E. inversion Hs; subst.
      constructor; [now apply IH |].
      apply insert_by_HdRel; [assumption |].
      unfold before. now apply Hc.
Qed.

(** X17.  The rows of the response are those given to the sort, each as often,
    and each row may stand before the next as long as the comparator is
    coherent. *)
Theorem sort_by_time_sorted (w : world) (rows : list row) :
  coherent w ->
  Permutation (sort_by_time w rows) rows
  /\ Sorted (before w) (sort_by_time w rows).
Proof.
  intros Hc. split; [apply sort_by_time_perm |].
  unfold sort_by_time.
  assert (G : forall acc,
             Sorted (before w) acc ->
             Sorted (before w)
                    (fold_left (fun acc r => insert_by w r acc) rows acc)).
  { induction rows as [| r rows IH]; intros acc Hacc; cbn [fold_left].
    - exact Hacc.
    - apply IH. now apply insert_by_sorted. }
  apply G. constructor.
Qed.

Lemma byte_order_coherent : coherent byte_order.
Proof.
  intros s t. cbn [localeCompare byte_order].
  rewrite (String.compare_antisym s t).
  destruct (String.compare t s); cbn [CompOpp]; lia.
Qed.

Lemma sort_by_time_sorted_witness :
  Permutation
    (sort_by_time byte_order [row_at "20:45"; row_at "18:30"; row_at "20:00"])
    [row_at "20:45"; row_at "18:30"; row_at "20:00"]
  /\ Sorted (before byte_order)
       (sort_by_time byte_order
          [row_at "20:45"; row_at "18:30"; row_at "20:00"]).
Proof.
  apply (sort_by_time_sorted byte_order
           [row_at "20:45"; row_at "18:30"; row_at "20:00"]).
  exact byte_order_coherent.
Defined.

Example sort_by_time_sample :
  map Handler.time
      (sort_by_time byte_order [row_at "20:45"; row_at "18:30"; row_at "20:00"])
  = ["18:30"; "20:00"; "20:45"].
Proof. vm_compute. reflexivity. Qed.

(** ** The handler, case by case *)

Lemma handler_valid (w : world) (ev : event) (log : list string) (p : string) :
  is_string (httpMethod ev) "OPTIONS" = false ->
  path ev = VStr p ->
  is_date (last (split "/" p) EmptyString) = true ->
  handler w ev log
  = respond_with w (last (split "/" p) EmptyString)
      (respond w log (fixtures_url (last (split "/" p) EmptyString)))
      (log ++ [fixtures_url (last (split "/" p) EmptyString)])%list.
Proof.
  intros Hm Hp Hd. unfold handler. rewrite Hm, Hp, Hd. reflexivity.
Qed.

Lemma app_eq_self {A : Type} (l extra : list A) :
  (l ++ extra)%list = l -> extra = [].
Proof.
  intros H. apply (app_inv_head l). now rewrite app_nil_r.
Qed.

(** X18.  The upstream API is contacted exactly for the requests that are not
    OPTIONS and whose path is a string ending in a date [dddd-dd-dd]:
    every other request leaves the log of requests as it was. *)
Theorem handler_contacts_upstream_iff (w : world) (ev : event)
    (log : list string) :
  snd (handler w ev log) <> log
  <->
  is_string (httpMethod ev) "OPTIONS" = false
  /\ exists p, path ev = VStr p
               /\ is_date (last (split "/" p) EmptyString) = true.
Proof.
  split.
  - intros H. unfold handler in H.
    destruct (is_string (httpMethod ev) "OPTIONS");
      [now destruct H |].
    split; [reflexivity |].
    destruct (path ev) as [| | | | p | |]; try (now destruct H).
    exists p. split; [reflexivity |].
    destruct (is_date (last (split "/" p) EmptyString));
      [reflexivity | now destruct H].
  - intros (Hm & p & Hp & Hd) H.
    rewrite (handler_valid w ev log p Hm Hp Hd) in H.
    destruct (respond_with_spec w (last (split "/" p) EmptyString)
                (respond w log (fixtures_url (last (split "/" p) EmptyString)))
                (log ++ [fixtures_url (last (split "/" p) EmptyString)])%list)
      as (ids & _ & Hlog & _).
    rewrite Hlog, <- app_assoc in H.
    apply app_eq_self in H. discriminate H.
Qed.

Lemma handler_contacts_upstream_iff_witness :
  snd (handler Samples.busy_day Samples.get_predictions []) <> [].
Proof.
  apply (handler_contacts_upstream_iff Samples.busy_day
           Samples.get_predictions []).
  split; [reflexivity |].
  exists "/api/predictions/2026-01-15". split; reflexivity.
Defined.

(** *** The date travels from the path to the upstream request *)

Lemma split_nonempty (sep : ascii) (s : string) : split sep s <> [].
Proof.
  destruct s as [| c s]; cbn [split]; [discriminate |].
  destruct (Ascii.eqb c sep); [discriminate |].
  destruct (split sep s); discriminate.
Qed.

Lemma last_cons_nonempty {A : Type} (x : A) (l : list A) (d : A) :
  l <> [] -> last (x :: l) d = last l d.
Proof. destruct l; [congruence | reflexivity]. Qed.

Lemma split_after_separator (sep : ascii) (a b : string) :
  exists part parts,
    split sep (a ++ String sep b) = part :: parts
    /\ parts <> []
    /\ last parts EmptyString = last (split sep b) EmptyString.
Proof.
  induction a as [| c a IH]; cbn [append split].
  - rewrite Ascii.eqb_refl. exists EmptyString, (split sep b).
    split; [reflexivity |]. split; [apply split_nonempty | reflexivity].
  - destruct IH as (part & parts & E & N & L).
    destruct (Ascii.eqb c sep).
    + exists EmptyString, (split sep (a ++ String sep b)).
      split; [reflexivity |]. split; [apply split_nonempty |].
      rewrite E. rewrite (last_cons_nonempty _ _ _ N). exact L.
    + rewrite E. exists (String c part), parts. tauto.
Qed.

Lemma last_split_append (sep : ascii) (a b : string) :
  last (split sep (a ++ String sep b)) EmptyString
  = last (split sep b) EmptyString.
Proof.
  destruct (split_after_separator sep a b) as (part & parts & E & N & L).
  rewrite E, (last_cons_nonempty _ _ _ N). exact L.
Qed.

Lemma digit_not_slash (c : ascii) : is_digit c = true -> Ascii.eqb c "/" = false.
Proof.
  intros H. destruct (Ascii.eqb_spec c "/") as [-> | N]; [| reflexivity].
  vm_compute in H. discriminate H.
Qed.

Lemma dash_not_slash (c : ascii) : Ascii.eqb c "-" = true -> Ascii.eqb c "/" = false.
Proof.
  intros H. apply Ascii.eqb_eq in H. subst c. reflexivity.
Qed.

Lemma is_date_split (date : string) :
  is_date date = true -> split "/" date = [date].
Proof.
  intros H. unfold is_date in H.
  destruct date as [| c0 [| c1 [| c2 [| c3 [| c4 [| c5 [| c6 [| c7 [| c8
    [| c9 [| c10 rest]]]]]]]]]]];
    cbn [list_ascii_of_string] in H; try discriminate H.
  repeat match type of H with
         | (_ && _)%bool = true => apply andb_true_iff in H;
                                   let H1 := fresh "D" in
                                   destruct H as [H H1]
         end.
  cbn [split].
  rewrite (digit_not_slash c0), (digit_not_slash c1), (digit_not_slash c2),
    (digit_not_slash c3), (dash_not_slash c4), (digit_not_slash c5),
    (digit_not_slash c6), (dash_not_slash c7), (digit_not_slash c8),
    (digit_not_slash c9) by assumption.
  reflexivity.
Qed.

(** X19.  Whatever precedes it in the path, a date [dddd-dd-dd] after the last
    slash is the date asked of the upstream API, in the first request the
    handler makes, and the date written in the answer. *)
Theorem handler_date_round_trip (w : world) (method : value)
    (prefix date : string) (log : list string) :
  is_string method "OPTIONS" = false ->
  is_date date = true ->
  let ev := {| httpMethod := method; path := VStr (prefix ++ "/" ++ date) |} in
  (exists rest,
      snd (handler w ev log) = (log ++ fixtures_url date :: rest)%list)
  /\ (forall d n rows,
        resp_body (fst (handler w ev log)) = PredictionsBody d n rows ->
        d = date).
Proof.
  intros Hm Hd ev.
  assert (L : last (split "/" (prefix ++ "/" ++ date)) EmptyString = date).
  { change ("/" ++ date) with (String "/" date).
    rewrite last_split_append, (is_date_split date Hd). reflexivity. }
  assert (Hd' : is_date (last (split "/" (prefix ++ "/" ++ date)) EmptyString)
                = true) by now rewrite L.
  rewrite (handler_valid w ev log (prefix ++ "/" ++ date) Hm eq_refl Hd').
  rewrite L.
  destruct (respond_with_spec w date (respond w log (fixtures_url date))
              (log ++ [fixtures_url date])%list) as (chosen & _ & Hlog & Hbody).
  split.
  - exists (requests_for chosen). rewrite Hlog, <- app_assoc. reflexivity.
  - intros d n rows H. exact (proj1 (Hbody d n rows H)).
Qed.

Lemma handler_date_round_trip_witness :
  exists rest,
    snd (handler Samples.busy_day
           {| httpMethod := VStr "GET";
              path := VStr ("/.netlify/functions/predictions" ++ "/" ++ "2026-01-15") |}
           [])
    = ([] ++ fixtures_url "2026-01-15" :: rest)%list.
Proof.
  apply (handler_date_round_trip Samples.busy_day (VStr "GET")
           "/.netlify/functions/predictions" "2026-01-15" []).
  - reflexivity.
  - reflexivity.
Defined.

(** *** Days without fixtures, and days that fail *)

Lemma own_array_get (k : string) (v : value) (xs : list value) :
  own k v = VArr xs -> get k v = Ok (VArr xs).
Proof.
  intros H. destruct v; cbn [own] in H; try discriminate H.
  cbn [get own]. now rewrite H.
Qed.

(** X20.  When the upstream API lists no fixture for the date (an empty array,
    or no [response] at all), the answer is 200 with zero predictions,
    after the one request for the fixtures. *)
Theorem handler_empty_day (w : world) (ev : event) (log : list string)
    (p : string) (data : value) :
  is_string (httpMethod ev) "OPTIONS" = false ->
  path ev = VStr p ->
  let date := last (split "/" p) EmptyString in
  is_date date = true ->
  respond w log (fixtures_url date) = Ok data ->
  ~ nullish data ->
  truthy (own "response" data) = false \/ own "response" data = VArr [] ->
  handler w ev log
  = ({| statusCode := 200; resp_body := PredictionsBody date 0 [] |},
     (log ++ [fixtures_url date])%list).
Proof.
  intros Hm Hp date Hd Hr Hn He. subst date.
  rewrite (handler_valid w ev log p Hm Hp Hd), Hr.
  unfold respond_with. cbn [bind].
  assert (G : get "response" data = Ok (own "response" data)).
  { unfold get, nullish in *. destruct data; try reflexivity; tauto. }
  rewrite G. cbn [bind].
  assert (Z0 : length_is_zero (or_else (own "response" data) (VArr [])) = true).
  { unfold or_else. destruct He as [F | E].
    - rewrite F. reflexivity.
    - rewrite E. reflexivity. }
  rewrite Z0. reflexivity.
Qed.

Lemma handler_empty_day_witness :
  handler {| respond := fun _ _ => Ok (VObj [("response", VArr [])]);
             localeCompare := fun _ _ => 0%Z |}
          Samples.get_predictions []
  = ({| statusCode := 200;
        resp_body := PredictionsBody "2026-01-15" 0 [] |},
     [fixtures_url "2026-01-15"]).
Proof.
  apply (handler_empty_day
           {| respond := fun _ _ => Ok (VObj [("response", VArr [])]);
              localeCompare := fun _ _ => 0%Z |}
           Samples.get_predictions [] "/api/predictions/2026-01-15"
           (VObj [("response", VArr [])])).
  - reflexivity.
  - reflexivity.
  - reflexivity.
  - reflexivity.
  - intros [H | H]; discriminate H.
  - right. reflexivity.
Defined.

(** X21.  The whole request fails with 500, and no prediction is requested, when
    the request for the fixtures fails, when its body is [null], or when
    one fixture of the list has no league. *)
Theorem handler_fails_as_a_whole (w : world) (ev : event) (log : list string)
    (p : string) :
  is_string (httpMethod ev) "OPTIONS" = false ->
  path ev = VStr p ->
  let date := last (split "/" p) EmptyString in
  is_date date = true ->
  respond w log (fixtures_url date) = Throw
  \/ (exists data, respond w log (fixtures_url date) = Ok data /\ nullish data)
  \/ (exists data fixtures f,
        respond w log (fixtures_url date) = Ok data
        /\ own "response" data = VArr fixtures
        /\ In f fixtures
        /\ (nullish f \/ nullish (own "league" f))) ->
  handler w ev log = (server_error, (log ++ [fixtures_url date])%list).
Proof.
  intros Hm Hp date Hd H. subst date.
  rewrite (handler_valid w ev log p Hm Hp Hd).
  unfold respond_with.
  destruct H as [-> | [(data & -> & N) | (data & fixtures & f & -> & E & Hin & Hbad)]].
  - reflexivity.
  - cbn [bind]. apply (get_throw_iff "response") in N. now rewrite N.
  - cbn [bind]. rewrite (own_array_get _ _ _ E). cbn [bind].
    destruct fixtures as [| f0 rest]; [destruct Hin |].
    cbn [or_else truthy length_is_zero iterate bind].
    rewrite (importantFixtures_poisoned (f0 :: rest) f Hin Hbad).
    reflexivity.
Qed.

Lemma handler_fails_as_a_whole_witness :
  handler {| respond := fun _ _ =>
               Ok (VObj [("response",
                          VArr [Samples.fixture 1; VNull; Samples.fixture 2])]);
             localeCompare := fun _ _ => 0%Z |}
          Samples.get_predictions []
  = (server_error, [fixtures_url "2026-01-15"]).
Proof.
  apply (handler_fails_as_a_whole
           {| respond := fun _ _ =>
                Ok (VObj [("response",
                           VArr [Samples.fixture 1; VNull; Samples.fixture 2])]);
              localeCompare := fun _ _ => 0%Z |}
           Samples.get_predictions [] "/api/predictions/2026-01-15").
  - reflexivity.
  - reflexivity.
  - reflexivity.
  - right. right.
    exists (VObj [("response",
                   VArr [Samples.fixture 1; VNull; Samples.fixture 2])]),
           [Samples.fixture 1; VNull; Samples.fixture 2], VNull.
    split; [reflexivity |]. split; [reflexivity |].
    split; [simpl; tauto |]. left. right. reflexivity.
Defined.

(** *** Which predictions are requested *)

Lemma map_all_In {A B : Type} (f : A -> net B) (l : list A)
    (log : list string) (y : B) :
  In y (fst (map_all f l log)) ->
  exists x log0, In x l /\ y = fst (f x log0).
Proof.
  revert log. induction l as [| x l IH]; intros log H.
  - destruct H.
  - cbn [map_all] in H. unfold andThen, ret in H.
    destruct (f x log) as [y0 log1] eqn:E.
    destruct (map_all f l log1) as [ys log2] eqn:E2.
    cbn [fst] in H. destruct H as [<- | H].
    + exists x, log. split; [now left |]. now rewrite E.
    + destruct (IH log1) as (x' & log0 & Hin & Hy).
      * now rewrite E2.
      * exists x', log0. split; [now right | exact Hy].
Qed.

Lemma map_all_started {A B : Type} (f : A -> net B) (l : list A)
    (log : list string) (x : A) :
  In x l -> exists log0, In (fst (f x log0)) (fst (map_all f l log)).
Proof.
  revert log. induction l as [| x0 l IH]; intros log H; [destruct H |].
  cbn [map_all]. unfold andThen, ret.
  destruct (f x0 log) as [y0 log1] eqn:E.
  destruct H as [-> | H].
  - exists log. rewrite E.
    destruct (map_all f l log1) as [ys log2]. now left.
  - destruct (IH log1 H) as [log0 Hin]. exists log0.
    destruct (map_all f l log1) as [ys log2]. now right.
Qed.

Lemma non_null_In (results : list (option row)) (r : row) :
  In r (non_null results) -> In (Some r) results.
Proof.
  induction results as [| [r0 |] rest IH]; cbn [non_null]; intros H.
  - destruct H.
  - destruct H as [<- | H]; [now left | right; now apply IH].
  - right. now apply IH.
Qed.

Lemma fetchPrediction_identity (w : world) (fixtureId : value)
    (fixtureInfo : fixture_info) (log : list string) (r : row) :
  fst (fetchPrediction w fixtureId fixtureInfo log) = Ok (Some r) ->
  Handler.id r = fixtureId /\ Handler.time r = fix_time fixtureInfo.
Proof.
  intros H.
  destruct (fetchPrediction_some_inv _ _ _ _ _ H) as (url & data & _ & _ & C).
  destruct (classify_some_inv _ _ _ _ C) as (_ & ou & _ & ->).
  split; reflexivity.
Qed.

(** When every id can be converted, the requests are the URLs of the
    chosen fixtures, one each, in their order. *)
Lemma requests_for_convertible (chosen : list fixture_info) :
  (forall fx, In fx chosen -> convertible (fix_id fx)) ->
  map Ok (requests_for chosen)
  = map (fun fx => predictions_url (fix_id fx)) chosen.
Proof.
  unfold requests_for.
  induction chosen as [| fx chosen IH]; intros H; [reflexivity |].
  cbn [flat_map map]. rewrite map_app, IH by (intros; apply H; now right).
  destruct (H fx (or_introl eq_refl)) as [s Hs].
  unfold request_of, predictions_url. rewrite Hs. reflexivity.
Qed.

(** The handler on a day whose fixtures are listed in an array and whose
    filter loop completes with the list [important]. *)
Lemma handler_chosen (w : world) (ev : event) (log : list string)
    (p : string) (data : value) (fixtures : list value)
    (important : list fixture_info) :
  is_string (httpMethod ev) "OPTIONS" = false ->
  path ev = VStr p ->
  let date := last (split "/" p) EmptyString in
  is_date date = true ->
  respond w log (fixtures_url date) = Ok data ->
  own "response" data = VArr fixtures ->
  importantFixtures fixtures = Ok important ->
  let chosen := firstn 25 important in
  snd (handler w ev log)
  = (log ++ fixtures_url date :: requests_for chosen)%list
  /\ ((exists fx, In fx chosen /\ toStr (fix_id fx) = Throw) ->
      fst (handler w ev log) = server_error)
  /\ ((forall fx, In fx chosen -> convertible (fix_id fx)) ->
      statusCode (fst (handler w ev log)) = 200%Z
      /\ exists rows,
           resp_body (fst (handler w ev log))
           = PredictionsBody date (List.length rows) rows
           /\ (List.length rows <= List.length chosen)%nat
           /\ forall r, In r rows ->
                exists fx, In fx chosen
                           /\ Handler.id r = fix_id fx
                           /\ Handler.time r = fix_time fx).
Proof.
  intros Hm Hp date Hd Hr He Hi chosen. subst date chosen.
  rewrite (handler_valid w ev log p Hm Hp Hd), Hr.
  unfold respond_with. cbn [bind].
  rewrite (own_array_get _ _ _ He). cbn [bind].
  set (date := last (split "/" p) EmptyString) in *.
  destruct fixtures as [| f0 rest].
  { injection Hi as <-. cbn.
    split; [reflexivity |]. split; [intros (fx & [] & _) |].
    intros _. split; [reflexivity |].
    exists []. split; [reflexivity |]. split; [simpl; lia |].
    intros r []. }
  cbn [or_else truthy length_is_zero iterate bind].
  rewrite Hi. cbn [bind].
  set (log1 := (log ++ [fixtures_url date])%list).
  unfold andThen.
  destruct (map_all_spec
              (fun fx => fetchPrediction w (fix_id fx) fx)
              (fun fx => request_of (fix_id fx))
              (firstn 25 important)
              (fun x lg => fetchPrediction_log w (fix_id x) x lg) log1)
    as [Hlog Hlen].
  pose proof (map_all_In (fun fx => fetchPrediction w (fix_id fx) fx)
                (firstn 25 important) log1) as HIn.
  pose proof (map_all_started (fun fx => fetchPrediction w (fix_id fx) fx)
                (firstn 25 important) log1) as HSt.
  destruct (map_all _ (firstn 25 important) log1) as [promises log2].
  cbn [fst snd] in *.
  assert (L : log2 = (log ++ fixtures_url date
                          :: requests_for (firstn 25 important))%list).
  { rewrite Hlog. unfold log1. rewrite <- app_assoc. reflexivity. }
  split; [| split].
  - destruct (Promise_all promises); exact L.
  - intros (fx & Hfx & T).
    destruct (HSt fx Hfx) as [log0 Hin].
    rewrite (fetchPrediction_unconvertible _ _ _ _ T) in Hin. cbn [fst] in Hin.
    apply Promise_all_throw_iff in Hin. rewrite Hin. reflexivity.
  - intros Hconv.
    destruct (Promise_all promises) as [results |] eqn:P.
    2:{ apply Promise_all_throw_iff in P.
        destruct (HIn _ P) as (fx & log0 & Hfx & Hy).
        symmetry in Hy. apply fetchPrediction_rejected_iff in Hy.
        destruct (Hconv fx Hfx) as [s Hs]. congruence. }
    apply Promise_all_ok in P. subst promises.
    cbn [fst ret statusCode resp_body].
    split; [reflexivity |].
    exists (sort_by_time w (non_null results)). split; [reflexivity |].
    split.
    + rewrite sort_by_time_length. rewrite length_map in Hlen.
      pose proof (non_null_length results). lia.
    + intros r Hin.
      apply (Permutation_in _ (sort_by_time_perm w (non_null results))) in Hin.
      apply non_null_In in Hin.
      apply (in_map Ok) in Hin.
      destruct (HIn _ Hin) as (fx & log0 & Hfx & Hy).
      exists fx. split; [exact Hfx |].
      symmetry in Hy. now apply (fetchPrediction_identity w _ _ log0).
Qed.

(** C9.  Whatever the request and the upstream answers, [handler] issues
    at most 25 requests for predictions, and a list of predictions in its
    response has at most 25 entries.  The requests are those of the first
    25 elements of the filtered fixture list [important], in the order of
    that list: one for each, unless an id cannot be converted to a string,
    which issues no request for that fixture and fails the whole day.
    Otherwise the answer is 200, with no more rows than fixtures chosen,
    each row the row of one of them. *)
Theorem handler_at_most_25 (w : world) (ev : event) (log : list string) :
  (exists requests : list string,
      snd (handler w ev log) = (log ++ requests)%list
      /\ (List.length (filter is_prediction_request requests) <= 25)%nat
      /\ (forall d n rows,
            resp_body (fst (handler w ev log)) = PredictionsBody d n rows ->
            n = List.length rows /\ (List.length rows <= 25)%nat))
  /\ (forall p data fixtures important,
        is_string (httpMethod ev) "OPTIONS" = false ->
        path ev = VStr p ->
        let date := last (split "/" p) EmptyString in
        is_date date = true ->
        respond w log (fixtures_url date) = Ok data ->
        own "response" data = VArr fixtures ->
        importantFixtures fixtures = Ok important ->
        let chosen := firstn 25 important in
        (List.length chosen <= 25)%nat
        /\ snd (handler w ev log)
           = (log ++ fixtures_url date :: requests_for chosen)%list
        /\ filter is_prediction_request
             (fixtures_url date :: requests_for chosen)
           = requests_for chosen
        /\ ((exists fx, In fx chosen /\ toStr (fix_id fx) = Throw) ->
            fst (handler w ev log) = server_error)
        /\ ((forall fx, In fx chosen -> convertible (fix_id fx)) ->
            map Ok (requests_for chosen)
            = map (fun fx => predictions_url (fix_id fx)) chosen
            /\ statusCode (fst (handler w ev log)) = 200%Z
            /\ exists rows,
                 resp_body (fst (handler w ev log))
                 = PredictionsBody date (List.length rows) rows
                 /\ (List.length rows <= List.length chosen)%nat
                 /\ forall r, In r rows ->
                      exists fx, In fx chosen
                                 /\ Handler.id r = fix_id fx
                                 /\ Handler.time r = fix_time fx)).
Proof.
  assert (N : forall date,
             is_prediction_request (fixtures_url date) = false).
  { intros date. unfold is_prediction_request, fixtures_url, BASE_URL.
    cbn. reflexivity. }
  split.
  - unfold handler.
    destruct (is_string (httpMethod ev) "OPTIONS").
    { exists []. cbn. rewrite app_nil_r. repeat split; try lia; discriminate. }
    destruct (path ev) as [| | | | p | |];
      try (exists []; cbn; rewrite app_nil_r; repeat split; try lia;
           discriminate).
    destruct (negb (is_date _)).
    { exists []. cbn. rewrite app_nil_r. repeat split; try lia; discriminate. }
    set (date := last (split "/" p) EmptyString).
    unfold andThen, fetch_json.
    destruct (respond_with_spec w date
                (respond w log (fixtures_url date))
                (log ++ [fixtures_url date])%list)
      as (chosen & Hn & Hlog & Hbody).
    exists (fixtures_url date :: requests_for chosen).
    split; [| split].
    + rewrite Hlog, <- app_assoc. reflexivity.
    + cbn [filter]. rewrite N.
      destruct (prediction_requests_all chosen) as [-> Hle]. lia.
    + intros d n rows H. exact (proj2 (Hbody d n rows H)).
  - intros p data fixtures important Hm Hp date Hd Hr He Hi chosen.
    destruct (handler_chosen w ev log p data fixtures important
                Hm Hp Hd Hr He Hi) as (Hlog & Hbad & Hgood).
    split; [apply firstn_le_length |].
    split; [exact Hlog |].
    split; [cbn [filter]; rewrite N; apply prediction_requests_all |].
    split; [exact Hbad |].
    intros Hconv. split; [now apply requests_for_convertible |].
    now apply Hgood.
Qed.

Lemma handler_at_most_25_witness :
  snd (handler Samples.busy_day Samples.get_predictions [])
  = ([] ++ fixtures_url "2026-01-15"
        :: requests_for
             (firstn 25 (map (fun n => info_of (Samples.fixture (Z.of_nat n)))
                             (seq 1 30))))%list.
Proof.
  destruct (handler_at_most_25 Samples.busy_day Samples.get_predictions [])
    as (_ & H).
  apply (H "/api/predictions/2026-01-15"
           (VObj [("response",
                   VArr (map (fun n => Samples.fixture (Z.of_nat n)) (seq 1 30)))])
           (map (fun n => Samples.fixture (Z.of_nat n)) (seq 1 30))
           (map (fun n => info_of (Samples.fixture (Z.of_nat n))) (seq 1 30))).
  - reflexivity.
  - reflexivity.
  - reflexivity.
  - reflexivity.
  - reflexivity.
  - vm_compute. reflexivity.
Defined.

(** X22.  On a day whose filter loop completes, the handler asks for the
    fixtures once and then for the predictions of the first 25 important
    fixtures of the upstream list, in the order of that list and of no
    other fixture: one request for each id that can be converted to a
    string.  When all of them can, it answers 200 and every row of the
    answer belongs to one of those fixtures; when one cannot, it answers
    500. *)
Theorem handler_requests_first_25 (w : world) (ev : event) (log : list string)
    (p : string) (data : value) (fixtures : list value) :
  is_string (httpMethod ev) "OPTIONS" = false ->
  path ev = VStr p ->
  let date := last (split "/" p) EmptyString in
  is_date date = true ->
  respond w log (fixtures_url date) = Ok data ->
  own "response" data = VArr fixtures ->
  (exists important, importantFixtures fixtures = Ok important) ->
  let chosen := firstn 25 (filter is_important fixtures) in
  snd (handler w ev log)
  = (log ++ fixtures_url date :: requests_for (map info_of chosen))%list
  /\ ((exists f, In f chosen /\ toStr (fix_id (info_of f)) = Throw) ->
      fst (handler w ev log) = server_error)
  /\ ((forall f, In f chosen -> convertible (fix_id (info_of f))) ->
      map Ok (requests_for (map info_of chosen))
      = map (fun f => predictions_url (fix_id (info_of f))) chosen
      /\ statusCode (fst (handler w ev log)) = 200%Z
      /\ exists rows,
           resp_body (fst (handler w ev log))
           = PredictionsBody date (List.length rows) rows
           /\ forall r, In r rows ->
                exists f, In f chosen
                          /\ Handler.id r = fix_id (info_of f)
                          /\ Handler.time r = fix_time (info_of f)).
Proof.
  intros Hm Hp date Hd Hr He [important Hi] chosen.
  destruct (handler_chosen w ev log p data fixtures important
              Hm Hp Hd Hr He Hi) as (Hlog & Hbad & Hgood).
  pose proof (importantFixtures_ok_inv _ _ Hi) as Ei.
  assert (Ef : firstn 25 important = map info_of chosen).
  { rewrite Ei. apply firstn_map. }
  rewrite Ef in Hlog, Hbad, Hgood.
  split; [exact Hlog |]. split.
  - intros (f & Hf & T). apply Hbad.
    exists (info_of f). split; [now apply in_map | exact T].
  - intros Hconv.
    assert (Hconv' : forall fx, In fx (map info_of chosen) ->
                                convertible (fix_id fx)).
    { intros fx Hfx. apply in_map_iff in Hfx.
      destruct Hfx as (f & <- & Hf). now apply Hconv. }
    split.
    + rewrite (requests_for_convertible _ Hconv'), map_map. reflexivity.
    + destruct (Hgood Hconv') as (S200 & rows & Hb & _ & Hrows).
      split; [exact S200 |]. exists rows. split; [exact Hb |].
      intros r Hin. destruct (Hrows r Hin) as (fx & Hfx & Hid & Htime).
      apply in_map_iff in Hfx. destruct Hfx as (f & <- & Hf).
      exists f. auto.
Qed.

Lemma handler_requests_first_25_witness :
  fst (handler
         {| respond := fun _ url =>
              if is_prediction_request url then Ok Samples.prediction_payload
              else Ok (VObj [("response",
                              VArr [Samples.fixture 1;
                                    VObj [("league",
                                           VObj [("id", VNum (of_Z 39));
                                                 ("name", VStr "Premier League")]);
                                          ("fixture",
                                           VObj [("id", VObj [("toString", VNum (of_Z 1))]);
                                                 ("date", VStr "2026-01-15T18:30:00+00:00")]);
                                          ("teams",
                                           VObj [("home", VObj [("name", VStr "Everton")]);
                                                 ("away", VObj [("name", VStr "Fulham")])])]])]);
            localeCompare := fun _ _ => 0%Z |}
         Samples.get_predictions [])
  = server_error.
Proof.
  set (bad := VObj [("league", VObj [("id", VNum (of_Z 39));
                                     ("name", VStr "Premier League")]);
                    ("fixture", VObj [("id", VObj [("toString", VNum (of_Z 1))]);
                                      ("date", VStr "2026-01-15T18:30:00+00:00")]);
                    ("teams", VObj [("home", VObj [("name", VStr "Everton")]);
                                    ("away", VObj [("name", VStr "Fulham")])])]).
  match goal with
  | |- fst (handler ?W _ _) = _ =>
      destruct (handler_requests_first_25 W Samples.get_predictions []
                  "/api/predictions/2026-01-15"
                  (VObj [("response", VArr [Samples.fixture 1; bad])])
                  [Samples.fixture 1; bad])
        as (_ & H & _)
  end.
  - reflexivity.
  - reflexivity.
  - reflexivity.
  - reflexivity.
  - reflexivity.
  - eexists. vm_compute. reflexivity.
  - apply H. exists bad. split; [vm_compute; tauto | reflexivity].
Defined.

(** ** The page *)

Import Frontend.

(** X23.  [getConfidenceStars] throws exactly outside [[0, 4]]; on every tier
    that [getConfidence] can return it draws four stars, as many of them
    filled as the tier says. *)
Theorem getConfidenceStars_of_tiers :
  (forall c : Z, getConfidenceStars c = Throw <-> (c < 0 \/ 4 < c)%Z)
  /\ (forall homePct awayPct drawPct : value,
        let c := getConfidence homePct awayPct drawPct in
        getConfidenceStars c
        = Ok (copies (Z.to_nat c) "★" ++ copies (4 - Z.to_nat c) "☆")
        /\ In (getConfidenceStars c) [Ok "★★☆☆"; Ok "★★★☆"; Ok "★★★★"]).
Proof.
  split.
  - intros c. unfold getConfidenceStars, call_repeat.
    destruct (c <? 0)%Z eqn:E1; cbn [bind].
    + apply Z.ltb_lt in E1. split; [lia | reflexivity].
    + apply Z.ltb_ge in E1.
      destruct (4 - c <? 0)%Z eqn:E2; cbn [bind].
      * apply Z.ltb_lt in E2. split; [lia | reflexivity].
      * apply Z.ltb_ge in E2. split; [discriminate | lia].
  - intros homePct awayPct drawPct c.
    pose proof (getConfidence_range homePct awayPct drawPct) as R.
    cbv zeta in R. fold c in R.
    destruct R as [-> | [-> | ->]]; split; try reflexivity; simpl; tauto.
Qed.

Lemma getConfidenceStars_of_tiers_witness : getConfidenceStars 7 = Throw.
Proof.
  apply getConfidenceStars_of_tiers. right. lia.
Defined.

(** X24.  Every outcome code that [determinePrediction] returns has a style
    class of its own. *)
Theorem getPredictionClass_of_outcomes :
  (forall homePct awayPct drawPct homeName awayName : value,
      getPredictionClass
        (prediction (determinePrediction homePct awayPct drawPct
                                         homeName awayName))
      <> "")
  /\ (forall c1 c2,
        In c1 outcome_codes -> In c2 outcome_codes ->
        getPredictionClass c1 = getPredictionClass c2 -> c1 = c2).
Proof.
  split.
  - intros homePct awayPct drawPct homeName awayName.
    pose proof (prediction_in_codes homePct awayPct drawPct homeName awayName)
      as H.
    unfold outcome_codes in H. cbn [In] in H.
    destruct H as [<- | [<- | [<- | [<- | [<- | []]]]]]; discriminate.
  - intros c1 c2 H1 H2. unfold outcome_codes in *. cbn [In] in *.
    destruct H1 as [<- | [<- | [<- | [<- | [<- | []]]]]];
      destruct H2 as [<- | [<- | [<- | [<- | [<- | []]]]]];
      intros E; try reflexivity; discriminate E.
Qed.

Lemma getPredictionClass_of_outcomes_witness :
  getPredictionClass
    (prediction (determinePrediction (VStr "38%") (VStr "24%") (VStr "38%")
                                     (VStr "Lens") (VStr "Lille")))
  <> ""
  /\ getPredictionClass "1X" <> getPredictionClass "X2".
Proof.
  destruct getPredictionClass_of_outcomes as [H1 H2]. split.
  - apply (H1 (VStr "38%") (VStr "24%") (VStr "38%") (VStr "Lens") (VStr "Lille")).
  - intros E. apply (H2 "1X" "X2") in E.
    + discriminate E.
    + simpl. tauto.
    + simpl. tauto.
Defined.

Lemma firstn_In_inv {A : Type} (n : nat) (l : list A) (x : A) :
  In x (firstn n l) -> In x l.
Proof.
  intros H. rewrite <- (firstn_skipn n l). apply in_or_app. now left.
Qed.

Lemma firstn_In_complete {A : Type} (n : nat) (l : list A) (x : A) :
  (List.length (firstn n l) < n)%nat -> In x l -> In x (firstn n l).
Proof.
  intros H Hin.
  assert (L : (List.length l < n)%nat).
  { rewrite length_firstn in H. lia. }
  rewrite firstn_all2 by lia. exact Hin.
Qed.

(** X25.  The "TOP PICKS" block shows at most five rows, all of them rows of the
    table with a tier of 3 or 4, in the order of the table; and when it
    shows fewer than five, it shows every such row. *)
Theorem topPicks_spec (predictions : list row) :
  (List.length (topPicks predictions) <= 5)%nat
  /\ (forall r, In r (topPicks predictions) ->
        In r predictions /\ (3 <= Handler.confidence r)%Z)
  /\ (exists later,
        filter (fun p => (3 <=? Handler.confidence p)%Z) predictions
        = (topPicks predictions ++ later)%list)
  /\ ((List.length (topPicks predictions) < 5)%nat ->
      forall r, In r predictions -> (3 <= Handler.confidence r)%Z ->
                In r (topPicks predictions)).
Proof.
  unfold topPicks. split; [apply firstn_le_length |]. split; [| split].
  - intros r H. apply firstn_In_inv in H. apply filter_In in H.
    destruct H as [Hin Hc]. apply Z.leb_le in Hc. tauto.
  - eexists. symmetry. apply firstn_skipn.
  - intros H r Hin Hc. apply firstn_In_complete; [exact H |].
    apply filter_In. split; [exact Hin | now apply Z.leb_le].
Qed.

Lemma topPicks_spec_witness :
  In (RowOrder.with_tier 4 (RowOrder.row_at "20:45"))
     (topPicks [RowOrder.row_at "18:30";
                RowOrder.with_tier 4 (RowOrder.row_at "20:45")]).
Proof.
  apply (topPicks_spec [RowOrder.row_at "18:30";
                        RowOrder.with_tier 4 (RowOrder.row_at "20:45")]).
  - vm_compute. lia.
  - simpl. tauto.
  - vm_compute. discriminate.
Defined.

(** ** Values that cannot be converted to a string

    An object with a property [toString] of its own makes every conversion
    throw; each function answers with what its [catch] holds, and
    [fetchPrediction], whose [catch] converts the id again, is rejected. *)

Example unconvertible_samples :
  let odd := VObj [("toString", VNum (of_Z 1))] in
  let stats (home away : value) :=
    VObj [("home", Samples.side (Samples.averages home VNull VNull) VNull);
          ("away", Samples.side (Samples.averages VNull away VNull) VNull)] in
  determinePrediction (VStr "62%") (VStr "8%") (VStr "30%") odd (VStr "Chelsea")
  = {| prediction := "X"; text := "Match Nul" |}
  /\ determinePrediction (VStr "8%") (VStr "70%") (VStr "22%")
       (VArr [VStr "Al Ahly"; odd]) (VStr "Smouha")
     = {| prediction := "X"; text := "Match Nul" |}
  /\ determineOverUnder odd (VStr "3.5") (VStr "") = Ok "Under 2.5"
  /\ determineOverUnder (VStr "3.5") odd (VStr "") = Ok "Over 2.5"
  /\ determineOverUnder (VStr "2.5") odd (VStr "") = Ok "Under 2.5"
  /\ determineBTTS
       (VObj [("home", Samples.side
                         (Samples.averages VNull VNull (VStr "1.5"))
                         (Samples.averages VNull VNull odd));
              ("away", Samples.side
                         (Samples.averages VNull VNull (VStr "1.5"))
                         (Samples.averages VNull VNull (VStr "1.0")))])
       VUndef
     = "Non"
  /\ determineExactScore (VStr "X") (stats (VStr "3.6") odd) VUndef VUndef
     = "1-1"
  /\ determineExactScore (VStr "1") (stats (VStr "1.2") (VArr [VStr "0.7"; odd]))
       VUndef VUndef
     = "1-1"
  /\ Handler.in_PRIORITY_LEAGUES odd = Throw
  /\ Handler.predictions_url odd = Throw.
Proof. vm_compute. repeat split; reflexivity. Qed.
